(** * Brightside Shopify assistant backend: a shallow embedding

    The development follows the Python sources:
    - [memory_store.py]  : [MemoryStore] (session store),
    - [chat_route.py]    : [build_system_prompt] and the [chat] route,
    - [my_qdrant_utils.py] : [QdrantClient.query_qdrant],
    - [chat_llm.py]      : [ChatLLM] ([_format_messages],
      [_handle_function_call], [generate_chat_response]).

    Python values that travel through loosely typed code (JSON bodies, stored
    turns, tool arguments) are values of [PyVal]; exceptions are values of
    [Exn]; every call to an external collaborator (generation model, embedder,
    vector index, clock, uuid source, [sleep]) is recorded in an event log and
    answered by an oracle that sees the log so far, so that an answer may
    differ from one attempt to the next. *)

From Stdlib Require Import ZArith QArith Ascii String List Bool Lia.
From Stdlib Require Import DecimalString.
From stdpp Require Import base option list strings gmap fin_maps.

Local Open Scope string_scope.
Local Open Scope Z_scope.

(* ===================================================================== *)
(** ** Python values, truthiness, exceptions *)
(* ===================================================================== *)

(** JSON-like Python values.  A [dict] keeps insertion order and has text
    keys; the first binding of a key is the live one. *)
#[warnings="-register-all"]
Inductive PyVal : Type :=
| PNone
| PBool (b : bool)
| PInt (z : Z)
| PFloat (q : Q)
| PStr (s : string)
| PList (l : list PyVal)
| PDict (d : list (string * PyVal)).

(** Python's [bool(v)], used by [if v:], [not v] and [a or b]. *)
Definition truthy (v : PyVal) : bool :=
  match v with
  | PNone => false
  | PBool b => b
  | PInt z => negb (z =? 0)
  | PFloat q => negb (Qnum q =? 0)
  | PStr s => negb (String.eqb s EmptyString)
  | PList l => match l with [] => false | _ => true end
  | PDict d => match d with [] => false | _ => true end
  end.

(** The exception classes that occur in the code and in its collaborators. *)
Inductive Exn : Type :=
| ValueError (msg : string)
| KeyError (key : string)
| TypeError
| AttributeError
| IndexError
| SyntaxError
| NameError
| ValidationError
| APIConnectionError
| APITimeoutError
| RateLimitError
| BadRequestError
| BackendError (msg : string)
| HTTPException (status : Z) (detail : string)
| RetryError (last : Exn).

Inductive Result (A : Type) : Type :=
| Ok (a : A)
| Raise (e : Exn).
Arguments Ok {A} a.
Arguments Raise {A} e.

Definition is_ok {A} (r : Result A) : bool :=
  match r with Ok _ => true | Raise _ => false end.

Fixpoint dict_lookup (k : string) (d : list (string * PyVal)) : option PyVal :=
  match d with
  | [] => None
  | (k', v) :: d' => if String.eqb k k' then Some v else dict_lookup k d'
  end.

(** [obj.get(key, default)]: only mappings have [get]. *)
Definition py_get_default (obj : PyVal) (key : string) (default : PyVal)
  : Result PyVal :=
  match obj with
  | PDict d => Ok (from_option id default (dict_lookup key d))
  | _ => Raise AttributeError
  end.

(** [obj.get(key)] *)
Definition py_get (obj : PyVal) (key : string) : Result PyVal :=
  py_get_default obj key PNone.

(** [obj[key]] with a text key. *)
Definition py_subscript (obj : PyVal) (key : string) : Result PyVal :=
  match obj with
  | PDict d => match dict_lookup key d with
               | Some v => Ok v
               | None => Raise (KeyError key)
               end
  | _ => Raise TypeError
  end.

(** [key in d] for a mapping [d]. *)
Definition dict_contains (key : string) (d : list (string * PyVal)) : bool :=
  match dict_lookup key d with Some _ => true | None => false end.

(* ===================================================================== *)
(** ** Text: code points below 256, with Python's [lower], [strip], [in] *)
(* ===================================================================== *)

Module Text.

Definition nl : string := String (ascii_of_nat 10) EmptyString.

Definition between (lo hi n : nat) : bool :=
  (Nat.leb lo n) && (Nat.leb n hi).

(** [str.lower] on one code point: A-Z, and the Latin-1 capitals
    U+00C0..U+00DE without the multiplication sign U+00D7. *)
Definition char_lower (c : ascii) : ascii :=
  let n := nat_of_ascii c in
  if between 65 90 n || (between 192 222 n && negb (Nat.eqb n 215))
  then ascii_of_nat (n + 32)
  else c.

Fixpoint lower (s : string) : string :=
  match s with
  | EmptyString => EmptyString
  | String c s' => String (char_lower c) (lower s')
  end.

(** [str.isspace] on one code point: U+0009..U+000D, U+001C..U+0020,
    U+0085 and U+00A0. *)
Definition is_space (c : ascii) : bool :=
  let n := nat_of_ascii c in
  between 9 13 n || between 28 32 n || Nat.eqb n 133 || Nat.eqb n 160.

Fixpoint lstrip (s : string) : string :=
  match s with
  | EmptyString => EmptyString
  | String c s' => if is_space c then lstrip s' else s
  end.

Fixpoint rstrip (s : string) : string :=
  match s with
  | EmptyString => EmptyString
  | String c s' =>
      match rstrip s' with
      | EmptyString => if is_space c then EmptyString else String c EmptyString
      | r => String c r
      end
  end.

(** [s.strip()] *)
Definition strip (s : string) : string := rstrip (lstrip s).

Fixpoint starts_with (p s : string) : bool :=
  match p, s with
  | EmptyString, _ => true
  | String _ _, EmptyString => false
  | String a p', String b s' => Ascii.eqb a b && starts_with p' s'
  end.

(** [kw in text] on two strings: [kw] occurs as a contiguous substring. *)
Fixpoint str_in (kw text : string) : bool :=
  starts_with kw text ||
  match text with
  | EmptyString => false
  | String _ t => str_in kw t
  end.

(** [str(n)] for an integer. *)
Definition str_of_int (z : Z) : string := NilZero.string_of_int (Z.to_int z).

Fixpoint chars (s : string) : list string :=
  match s with
  | EmptyString => []
  | String c s' => String c EmptyString :: chars s'
  end.

End Text.

Fixpoint all_str (l : list PyVal) : option (list string) :=
  match l with
  | [] => Some []
  | PStr s :: l' => option_map (cons s) (all_str l')
  | _ :: _ => None
  end.

(** [sep.join(v)]: [v] must be an iterable of [str]; a list is joined
    item by item, a string character by character, a mapping by its keys. *)
Definition py_join (sep : string) (v : PyVal) : Result string :=
  match v with
  | PList l => match all_str l with
               | Some ss => Ok (String.concat sep ss)
               | None => Raise TypeError
               end
  | PStr s => Ok (String.concat sep (Text.chars s))
  | PDict d => Ok (String.concat sep (map fst d))
  | _ => Raise TypeError
  end.

(** [v[:n]], evaluated for the debug lines that format a prefix of a text:
    only sequences can be sliced. *)
Definition py_sliceable (v : PyVal) : Result unit :=
  match v with
  | PStr _ | PList _ => Ok tt
  | _ => Raise TypeError
  end.

(* ===================================================================== *)
(** ** chat_route.py: [build_system_prompt] *)
(* ===================================================================== *)

Definition base_prompt : string :=
  "You are a helpful and friendly supplement recommendation assistant. "
  +:+ Text.nl +:+
  "Your goal is to help customers find the right supplements based on their health goals and symptoms."
  +:+ Text.nl +:+
  "When appropriate, suggest relevant supplements from our catalog."
  +:+ Text.nl +:+
  "Be concise, friendly, and focus on being helpful.".

Definition context_header : string :=
  Text.nl +:+ Text.nl +:+ "Additional context:" +:+ Text.nl.

(** One [if xs: context.append(f"<label>: {', '.join(xs)}")] step. *)
Definition append_line (label : string) (xs : PyVal) (context : list string)
  : Result (list string) :=
  if truthy xs then
    match py_join ", " xs with
    | Ok joined => Ok (context ++ [label +:+ ": " +:+ joined])%list
    | Raise e => Raise e
    end
  else Ok context.

Definition rbind {A B} (r : Result A) (k : A -> Result B) : Result B :=
  match r with Ok a => k a | Raise e => Raise e end.

Definition build_system_prompt (quiz_answers : PyVal) : Result string :=
  if truthy quiz_answers then
    rbind (py_get_default quiz_answers "health_goals" (PList [])) (fun health_goals =>
    rbind (py_get_default quiz_answers "symptoms" (PList [])) (fun symptoms =>
    rbind (py_get_default quiz_answers "preferences" (PDict [])) (fun preferences =>
    rbind (append_line "Health goals" health_goals []) (fun context =>
    rbind (append_line "Current symptoms" symptoms context) (fun context =>
    rbind (if truthy preferences then
             rbind (py_get_default preferences "dietary" (PList [])) (fun dietary =>
             append_line "Dietary preferences" dietary context)
           else Ok context) (fun context =>
    match context with
    | [] => Ok base_prompt
    | _ => Ok (base_prompt +:+ context_header +:+ String.concat Text.nl context)
    end))))))
  else Ok base_prompt.

(* ===================================================================== *)
(** ** Data exchanged with the collaborators *)
(* ===================================================================== *)

(** [message.function_call]: the tool-invocation descriptor of the model. *)
Record FunctionCall : Type := {
  fc_name : string;
  fc_arguments : string
}.

(** [response.choices[i].message] *)
Record ChoiceMessage : Type := {
  cm_content : option string;
  cm_function_call : option FunctionCall
}.

(** The entries of the [messages] list handed to the generation model:
    a [{"role", "content"}] dict, the model's own message object, or the
    [{"role": "function", "name", "content"}] dict. *)
Inductive ChatMsg : Type :=
| RoleContent (role content : PyVal)
| AssistantMessage (m : ChoiceMessage)
| FunctionResult (name content : string).

(** A raw hit of the vector index. *)
Record Hit : Type := {
  hit_id : PyVal;
  hit_score : Q;
  hit_payload : PyVal
}.

(** [models.Product] as [query_qdrant] fills it; the attributes listed in
    [product_absent_attributes] are all passed as [None]. *)
Record Product : Type := {
  p_id : string;
  p_name : PyVal;
  p_description : PyVal;
  p_price : PyVal;
  p_currency : string;
  p_image_url : PyVal;
  p_product_url : PyVal;
  p_score : Q;
  p_brand : string
}.

Definition product_absent_attributes : list string :=
  ["category"; "tags"; "variants"; "ingredients"; "nutritional_info";
   "allergens"; "dietary_info"; "rating"; "review_count"; "metadata"].

(** [models.ChatResponse] *)
Record ChatResponse : Type := {
  role : string;
  content : string;
  recommend : bool;
  products : option (list Product);
  function_called : bool;
  function_name : option string
}.

(** The [Filter(must=[FieldCondition(key, MatchValue(value))...])] argument. *)
Definition SearchFilter : Type := list (string * PyVal).

(** Every interaction with the outside of the process, in call order. *)
Inductive Event : Type :=
| EvGenerate (messages : list ChatMsg) (with_functions : bool)
| EvEmbed (text : PyVal)
| EvGetCollection (collection_name : string)
| EvSearch (collection_name : string) (query_vector : list Q) (limit : Z)
           (query_filter : option SearchFilter)
| EvSleep (seconds : Z)
| EvUuid4
| EvUtcnow
| EvStore (op : string) (session_id : string).

Definition is_generate (ev : Event) : bool :=
  match ev with EvGenerate _ _ => true | _ => false end.

Definition is_model_call (ev : Event) : bool :=
  match ev with EvGenerate _ _ | EvEmbed _ => true | _ => false end.

(** Calls that leave the process over the network. *)
Definition is_network_call (ev : Event) : bool :=
  match ev with
  | EvGenerate _ _ | EvEmbed _ | EvGetCollection _ | EvSearch _ _ _ _ => true
  | _ => false
  end.

Definition is_search (ev : Event) : bool :=
  match ev with EvSearch _ _ _ _ => true | _ => false end.

Definition is_backend_call (ev : Event) : bool :=
  match ev with
  | EvEmbed _ | EvGetCollection _ | EvSearch _ _ _ _ => true
  | _ => false
  end.

Definition is_store_access (ev : Event) : bool :=
  match ev with EvStore _ _ => true | _ => false end.

(** The collaborators.  Each oracle receives the log of the calls made
    before it, so its answers may change over time. *)
Record Env : Type := {
  (** [client.chat.completions.create(...)]: the [choices] of the response *)
  completions_create : list Event -> list ChatMsg -> bool -> Result (list ChoiceMessage);
  (** [Embedder().embed_text(text)] *)
  embed_text : list Event -> PyVal -> Result (list Q);
  (** [client.get_collection(name).config.params.vectors.size] *)
  get_collection_size : list Event -> string -> Result Z;
  (** [client.search(...)] *)
  search : list Event -> string -> list Q -> Z -> option SearchFilter -> Result (list Hit);
  (** the built-in [eval] on the tool-argument text.  The payload is taken
      to denote plain data: its evaluation returns a value of [PyVal] or
      raises, and does nothing else.  A payload whose evaluation calls into
      the process (the variables of [generate_chat_response] are in scope)
      or yields another kind of object has no counterpart here; what is
      stated about runs that evaluate a payload is stated for such plain
      payloads. *)
  py_eval : string -> Result PyVal;
  (** the validation done by [FieldCondition(key=key, match=MatchValue(value=value))]
      on one filter value *)
  match_value : PyVal -> Result unit;
  (** the built-in [str] on a value, on a product list, on an exception *)
  py_str : PyVal -> string;
  str_products : list Product -> string;
  str_exn : Exn -> string;
  (** the validation done by the constructor of [models.Product] *)
  validate_product : Product -> Result Product;
  (** [str(uuid.uuid4())] and [datetime.utcnow()] *)
  uuid4 : list Event -> string;
  utcnow : list Event -> Z
}.

(* ===================================================================== *)
(** ** The process state and its monad *)
(* ===================================================================== *)

(** [MemoryStore]: the two dictionaries of the session store. *)
Record MemoryStore : Type := {
  _store : gmap string (list PyVal);
  _quiz_answers : gmap string PyVal
}.

Definition empty_store : MemoryStore :=
  {| _store := ∅; _quiz_answers := ∅ |}.

Record World : Type := {
  mem : MemoryStore;
  log : list Event
}.

Definition init_world : World := {| mem := empty_store; log := [] |}.

(** A computation may change the world and either returns or raises; the
    changes made before an exception persist. *)
Definition M (A : Type) : Type := World -> Result A * World.

Definition ret {A} (a : A) : M A := fun w => (Ok a, w).

Definition raise {A} (e : Exn) : M A := fun w => (Raise e, w).

Definition bind {A B} (m : M A) (k : A -> M B) : M B :=
  fun w => match m w with
           | (Ok a, w') => k a w'
           | (Raise e, w') => (Raise e, w')
           end.

(** [try: m  except Exception as e: h e] *)
Definition try_except {A} (m : M A) (h : Exn -> M A) : M A :=
  fun w => match m w with
           | (Ok a, w') => (Ok a, w')
           | (Raise e, w') => h e w'
           end.

Definition lift {A} (r : Result A) : M A := fun w => (r, w).

Definition emit (ev : Event) : M unit :=
  fun w => (Ok tt, {| mem := mem w; log := (log w ++ [ev])%list |}).

(** A call to a collaborator: answered from the log so far, then logged. *)
Definition call {A} (ev : Event) (oracle : list Event -> Result A) : M A :=
  fun w => (oracle (log w), {| mem := mem w; log := (log w ++ [ev])%list |}).

Definition get_mem : M MemoryStore := fun w => (Ok (mem w), w).

Definition put_mem (m : MemoryStore) : M unit :=
  fun w => (Ok tt, {| mem := m; log := log w |}).

Declare Scope py_scope.
Delimit Scope py_scope with py.
Notation "'let*' x ':=' m 'in' k" := (bind m (fun x => k))
  (at level 10, x name, m at level 100, k at level 200) : py_scope.
Notation "m1 ';;' m2" := (bind m1 (fun _ => m2))
  (at level 100, right associativity) : py_scope.
Local Open Scope py_scope.

(* ===================================================================== *)
(** ** memory_store.py: [MemoryStore] *)
(* ===================================================================== *)

(** Every method records its access to the store in the log before it does
    anything else, so that the log tells whether the store was touched. *)

Definition set_turns (session_id : string) (turns : list PyVal) : M unit :=
  let* m := get_mem in
  put_mem {| _store := <[session_id := turns]> (_store m);
             _quiz_answers := _quiz_answers m |}.

Definition create_session (env : Env) (client_id : PyVal) : M string :=
  let* session_id := call EvUuid4 (fun l => Ok (uuid4 env l)) in
  emit (EvStore "create_session" session_id) ;;
  set_turns session_id [] ;;
  ret session_id.

(** The validation of [add_message]: a dict holding both keys. *)
Definition valid_message (message : PyVal) : bool :=
  match message with
  | PDict d => dict_contains "role" d && dict_contains "content" d
  | _ => false
  end.

Definition add_message (session_id : string) (message : PyVal) : M unit :=
  try_except
    (emit (EvStore "add_message" session_id) ;;
     let* m := get_mem in
     (match _store m !! session_id with
      | None => set_turns session_id []
      | Some _ => ret tt
      end) ;;
     (if valid_message message then ret tt
      else raise (ValueError "Message must be a dict with 'role' and 'content' keys")) ;;
     let* m := get_mem in
     set_turns session_id (default [] (_store m !! session_id) ++ [message])%list ;;
     (* the debug line formats message['role'] and message['content'][:50] *)
     let* _ := lift (py_subscript message "role") in
     let* c := lift (py_subscript message "content") in
     lift (py_sliceable c))
    (fun e => raise e).

Definition get_messages (session_id : string) : M (list PyVal) :=
  try_except
    (emit (EvStore "get_messages" session_id) ;;
     let* m := get_mem in
     match _store m !! session_id with
     | None => ret []
     | Some messages => ret messages
     end)
    (fun _ => ret []).

Definition clear_session (session_id : string) : M unit :=
  try_except
    (emit (EvStore "clear_session" session_id) ;;
     let* m := get_mem in
     match _store m !! session_id with
     | Some _ => set_turns session_id []
     | None => ret tt
     end)
    (fun e => raise e).

Definition store_quiz_answers (session_id : string) (answers : PyVal) : M unit :=
  try_except
    (emit (EvStore "store_quiz_answers" session_id) ;;
     match answers with
     | PDict _ =>
         let* m := get_mem in
         put_mem {| _store := _store m;
                    _quiz_answers := <[session_id := answers]> (_quiz_answers m) |}
     | _ => raise (ValueError "Answers must be a dictionary")
     end)
    (fun e => raise e).

Definition get_quiz_answers (session_id : string) : M PyVal :=
  try_except
    (emit (EvStore "get_quiz_answers" session_id) ;;
     let* m := get_mem in
     ret (default PNone (_quiz_answers m !! session_id)))
    (fun _ => ret PNone).

(* ===================================================================== *)
(** ** my_qdrant_utils.py: [QdrantClient.query_qdrant] *)
(* ===================================================================== *)

Definition collection_name : string := "brightside-products".

Definition dimension_mismatch_msg (collection_dim query_dim : Z) : string :=
  "Vector dimension mismatch! Collection expects "
  +:+ Text.str_of_int collection_dim
  +:+ " dimensions but query vector has "
  +:+ Text.str_of_int query_dim +:+ " dimensions".

(** The body of the per-hit [try]: read the payload with fallbacks and
    build the product. *)
Definition product_of_hit (env : Env) (hit : Hit) : Result Product :=
  rbind (py_get_default (hit_payload hit) "title" (PStr EmptyString)) (fun title =>
  rbind (py_get_default (hit_payload hit) "description" (PStr EmptyString)) (fun description =>
  rbind (py_get_default (hit_payload hit) "price" (PStr "0.00")) (fun price =>
  rbind (py_get_default (hit_payload hit) "image" (PStr EmptyString)) (fun image =>
  rbind (py_get_default (hit_payload hit) "link" (PStr EmptyString)) (fun link =>
  rbind (py_get_default (hit_payload hit) "id" (PStr EmptyString)) (fun pid =>
  validate_product env
    {| p_id := py_str env pid;
       p_name := title;
       p_description := description;
       p_price := price;
       p_currency := "USD";
       p_image_url := image;
       p_product_url := link;
       p_score := hit_score hit;
       p_brand := "Brightside" |})))))).

(** The conversion loop: a hit whose conversion raises is skipped. *)
Fixpoint convert_hits (env : Env) (search_results : list Hit) : list Product :=
  match search_results with
  | [] => []
  | hit :: rest =>
      match product_of_hit env hit with
      | Ok product => product :: convert_hits env rest
      | Raise _ => convert_hits env rest
      end
  end.

(** The loop of lines 86-92 over [filters.items()]: one condition per
    entry, in order; the first value that the constructors refuse ends the
    loop with their error. *)
Fixpoint build_conditions (env : Env) (filters : list (string * PyVal))
  : Result (list (string * PyVal)) :=
  match filters with
  | [] => Ok []
  | (key, value) :: rest =>
      rbind (match_value env value) (fun _ =>
      rbind (build_conditions env rest) (fun conditions =>
      Ok ((key, value) :: conditions)))
  end.

(** Lines 83-95: no filter for absent or empty [filters], else
    [Filter(must=conditions)]. *)
Definition build_search_filter (env : Env) (filters : option SearchFilter)
  : Result (option SearchFilter) :=
  match filters with
  | Some (c :: cs) =>
      rbind (build_conditions env (c :: cs)) (fun conditions =>
      Ok (Some conditions))
  | _ => Ok None
  end.

Definition query_qdrant (env : Env) (query_vector : list Q) (limit : Z)
    (filters : option SearchFilter) : M (list Product) :=
  try_except
    (let* collection_dim :=
       call (EvGetCollection collection_name)
            (fun l => get_collection_size env l collection_name) in
     let query_dim := Z.of_nat (length query_vector) in
     (if collection_dim =? query_dim then ret tt
      else raise (ValueError (dimension_mismatch_msg collection_dim query_dim))) ;;
     let* search_filter := lift (build_search_filter env filters) in
     let* search_results :=
       call (EvSearch collection_name query_vector limit search_filter)
            (fun l => search env l collection_name query_vector limit search_filter) in
     ret (convert_hits env search_results))
    (fun e => raise e).

(* ===================================================================== *)
(** ** chat_llm.py: [ChatLLM] *)
(* ===================================================================== *)

Definition DEFAULT_SYSTEM_PROMPT : string := base_prompt.

Definition recommend_keywords : list string :=
  ["recommend"; "suggest"; "try"; "consider"; "look at"].

(** One step of the history loop: [{"role": msg["role"], "content": msg["content"]}]. *)
Definition role_content (msg : PyVal) : Result ChatMsg :=
  rbind (py_subscript msg "role") (fun r =>
  rbind (py_subscript msg "content") (fun c =>
  Ok (RoleContent r c))).

Fixpoint format_history (chat_history : list PyVal) : Result (list ChatMsg) :=
  match chat_history with
  | [] => Ok []
  | msg :: rest =>
      rbind (role_content msg) (fun m =>
      rbind (format_history rest) (fun ms => Ok (m :: ms)))
  end.

Definition _format_messages (message : string) (chat_history : list PyVal)
    (system_prompt : option string) : Result (list ChatMsg) :=
  let system :=
    match system_prompt with
    | Some p => if String.eqb p EmptyString then DEFAULT_SYSTEM_PROMPT else p
    | None => DEFAULT_SYSTEM_PROMPT
    end in
  rbind (format_history chat_history) (fun history =>
  Ok ([RoleContent (PStr "system") (PStr system)] ++ history
        ++ [RoleContent (PStr "user") (PStr message)])%list).

Definition _handle_function_call (env : Env) (function_name : string)
    (function_args : PyVal) : M (list Product) :=
  if String.eqb function_name "query_supplements" then
    let* question := lift (py_get function_args "question") in
    if negb (truthy question) then ret []
    else
      try_except
        (let* query_vector :=
           call (EvEmbed question) (fun l => embed_text env l question) in
         query_qdrant env query_vector 3 None)
        (fun _ => ret [])
  else ret [].

(** [response.choices[0].message] *)
Definition first_choice (choices : list ChoiceMessage) : Result ChoiceMessage :=
  match choices with
  | m :: _ => Ok m
  | [] => Raise IndexError
  end.

(** [message.content.strip()] *)
Definition content_strip (m : ChoiceMessage) : Result string :=
  match cm_content m with
  | Some s => Ok (Text.strip s)
  | None => Raise AttributeError
  end.

(** [bool(products) or any(keyword in generated_text.lower() for keyword in [...])] *)
Definition should_recommend (products : option (list Product))
    (generated_text : string) : bool :=
  match products with
  | Some (_ :: _) => true
  | _ => false
  end
  || existsb (fun keyword => Text.str_in keyword (Text.lower generated_text))
             recommend_keywords.

Definition make_response (generated_text : string)
    (products : option (list Product)) (function_called : bool)
    (function_name : option string) : ChatResponse :=
  {| role := "assistant";
     content := generated_text;
     recommend := should_recommend products generated_text;
     products := products;
     function_called := function_called;
     function_name := function_name |}.

(** The body of [generate_chat_response], one attempt. *)
Definition generate_chat_response_body (env : Env) (message : string)
    (chat_history : list PyVal) (client_id : PyVal)
    (system_prompt : option string) : M ChatResponse :=
  try_except
    (let* messages := lift (_format_messages message chat_history system_prompt) in
     let* choices :=
       call (EvGenerate messages true)
            (fun l => completions_create env l messages true) in
     let* message := lift (first_choice choices) in
     match cm_function_call message with
     | Some fc =>
         let function_name := fc_name fc in
         let* function_args := lift (py_eval env (fc_arguments fc)) in
         let* products := _handle_function_call env function_name function_args in
         let messages :=
           (messages ++ [AssistantMessage message;
                         FunctionResult function_name (str_products env products)])%list in
         let* choices :=
           call (EvGenerate messages false)
                (fun l => completions_create env l messages false) in
         let* reply := lift (first_choice choices) in
         let* generated_text := lift (content_strip reply) in
         ret (make_response generated_text (Some products) true (Some function_name))
     | None =>
         let* generated_text := lift (content_strip message) in
         ret (make_response generated_text None false None)
     end)
    (fun e => raise e).

(** *** The [tenacity] decorator *)

(** [wait_exponential(multiplier, min, max)] after attempt [attempt_number]. *)
Definition wait_exponential (multiplier min_wait max_wait : Z) (attempt_number : Z) : Z :=
  let exp := 2 ^ (attempt_number - 1) in
  let result := multiplier * exp in
  Z.max (Z.max 0 min_wait) (Z.min result max_wait).

(** The retry loop with the default predicate (every exception is retried)
    and without [reraise]: when no attempt is left the last exception is
    wrapped into [RetryError]. *)
Fixpoint retrying {A} (remaining : nat) (attempt_number : Z) (wait : Z -> Z)
    (fn : M A) : M A :=
  try_except fn
    (fun e =>
       match remaining with
       | O => raise (RetryError e)
       | S remaining' =>
           emit (EvSleep (wait attempt_number)) ;;
           retrying remaining' (attempt_number + 1) wait fn
       end).

(** [@retry(stop=stop_after_attempt(n), wait=wait)] *)
Definition retry {A} (stop_after_attempt : nat) (wait : Z -> Z) (fn : M A) : M A :=
  retrying (stop_after_attempt - 1) 1 wait fn.

Definition generate_chat_response (env : Env) (message : string)
    (chat_history : list PyVal) (client_id : PyVal)
    (system_prompt : option string) : M ChatResponse :=
  retry 3 (wait_exponential 1 4 10)
        (generate_chat_response_body env message chat_history client_id system_prompt).

(* ===================================================================== *)
(** ** chat_route.py: the [chat] route *)
(* ===================================================================== *)

(** Modelled from the spec: [models.ChatMessage] is not among the sources;
    the spec's ChatTurn is [{role, content: text, timestamp}], so
    [ChatMessage(role, content, timestamp).dict()] is the mapping of these
    three fields and a content that is not text is refused. *)
Definition ChatMessage_dict (role : string) (content : PyVal) (timestamp : Z)
  : Result PyVal :=
  match content with
  | PStr _ => Ok (PDict [("role", PStr role); ("content", content);
                         ("timestamp", PInt timestamp)])
  | _ => Raise ValidationError
  end.

Definition missing_message_detail : string :=
  "'message' field is required (or 'messages' array with at least one message)".

Definition apology : string :=
  "I'm sorry, I'm having trouble generating a response right now.".

(** Modelled from the spec: [models.ChatResponse] is not among the sources;
    the fields left out by the fallback of the route take the defaults of
    the spec's ChatReply (no items, tool not invoked, no tool name). *)
Definition fallback_response : ChatResponse :=
  {| role := "assistant";
     content := apology;
     recommend := false;
     products := None;
     function_called := false;
     function_name := None |}.

Definition dict_get (key : string) (d : list (string * PyVal)) : PyVal :=
  default PNone (dict_lookup key d).

(** Lines 75-84: the message of the request, taken from ['message'] or
    else from the content of the last entry of a non-empty ['messages']
    list. *)
Definition resolve_message (d : list (string * PyVal)) : Result PyVal :=
  let message := dict_get "message" d in
  if negb (truthy message) then
    match dict_lookup "messages" d with
    | Some (PList (m :: ms)) => py_get (List.last ms m) "content"
    | _ => Ok message
    end
  else Ok message.

(** Session identifiers are text ([session_id: str]), and the store of this
    model is keyed by texts.  The code would take any hashable value as a
    key; a truthy identifier that is not a text has no counterpart here and
    is answered by [TypeError], and what is stated about requests is stated
    for those that name their session by a text or not at all
    ([session_id_usable]). *)
Definition session_key (session_id : PyVal) : Result string :=
  match session_id with
  | PStr s => Ok s
  | _ => Raise TypeError
  end.

Definition chat_body (env : Env) (data : PyVal) : M ChatResponse :=
  match data with
  | PDict d =>
      let client_id := dict_get "client_id" d in
      let session_id := dict_get "session_id" d in
      let quiz_answers := dict_get "quiz_answers" d in
      let* message := lift (resolve_message d) in
      (if negb (truthy message)
       then raise (HTTPException 422 missing_message_detail)
       else ret tt) ;;
      let* now := call EvUtcnow (fun l => Ok (utcnow env l)) in
      let* user_message := lift (ChatMessage_dict "user" message now) in
      let* sid :=
        if truthy session_id then lift (session_key session_id)
        else create_session env client_id in
      add_message sid user_message ;;
      (if truthy quiz_answers then store_quiz_answers sid quiz_answers
       else ret tt) ;;
      let* chat_hist := get_messages sid in
      let* stored_quiz_answers := get_quiz_answers sid in
      let* system_prompt := lift (build_system_prompt stored_quiz_answers) in
      let* response :=
        try_except
          (generate_chat_response env
             (match message with PStr s => s | _ => EmptyString end)
             chat_hist client_id (Some system_prompt))
          (fun _ => ret fallback_response) in
      let* now := call EvUtcnow (fun l => Ok (utcnow env l)) in
      let* assistant_message :=
        lift (ChatMessage_dict "assistant" (PStr (content response)) now) in
      add_message sid assistant_message ;;
      ret response
  | _ => raise AttributeError
  end.

(** The outer handler of the route turns every exception of the body,
    the 422 included, into a 500. *)
Definition chat (env : Env) (data : PyVal) : M ChatResponse :=
  try_except (chat_body env data)
    (fun e => raise (HTTPException 500
                       ("Error processing chat request: " +:+ str_exn env e))).

(* ===================================================================== *)
(** ** Vocabulary of the statements *)
(* ===================================================================== *)

(** Running a computation: its outcome and the world it leaves. *)
Definition outcome {A} (m : M A) (w : World) : Result A := fst (m w).
Definition after {A} (m : M A) (w : World) : World := snd (m w).

Definition logged (w : World) (ev : Event) : World :=
  {| mem := mem w; log := (log w ++ [ev])%list |}.

Fixpoint count_events (p : Event -> bool) (l : list Event) : nat :=
  match l with
  | [] => O
  | ev :: l' => if p ev then S (count_events p l') else count_events p l'
  end.

(** The messages of the first generation call of a log. *)
Fixpoint first_generate (l : list Event) : option (list ChatMsg) :=
  match l with
  | [] => None
  | EvGenerate messages _ :: _ => Some messages
  | _ :: l' => first_generate l'
  end.

(** The turn sequence of a session, as [get_messages] reports it. *)
Definition turns (m : MemoryStore) (session_id : string) : list PyVal :=
  default [] (_store m !! session_id).

(** *** Case-insensitive occurrence (C1) *)








(** *** Failure classes of the specification (C4) *)

(** The transient, network-class failures of the model provider. *)
Definition is_transient (e : Exn) : bool :=
  match e with
  | APIConnectionError | APITimeoutError | RateLimitError => true
  | _ => false
  end.

(** *** The rendered context block (C7) *)

(** ["<Label>: <comma-joined values>"], omitted for an empty list. *)
Definition rendered_line (label : string) (values : list string) : list string :=
  match values with
  | [] => []
  | _ => [label +:+ ": " +:+ String.concat ", " values]
  end.

Definition rendered_lines (health_goals symptoms dietary : list string) : list string :=
  (rendered_line "Health goals" health_goals
   ++ rendered_line "Current symptoms" symptoms
   ++ rendered_line "Dietary preferences" dietary)%list.

(** The line feed, U+000A. *)
Definition line_feed : string := String "010"%char EmptyString.

(** What is appended to the base instruction: an empty line, the heading
    and then each present line on a line of its own, a line feed between
    one line and the next; nothing at all when no line is present. *)
Definition rendered_block (health_goals symptoms dietary : list string) : string :=
  match rendered_lines health_goals symptoms dietary with
  | [] => EmptyString
  | ls =>
      line_feed +:+ line_feed +:+ "Additional context:" +:+ line_feed
      +:+ String.concat line_feed ls
  end.

(** The key [key] of the mapping [d] is absent (read as the empty list) or
    holds the list of texts [values]. *)
Definition list_field (d : list (string * PyVal)) (key : string)
    (values : list string) : Prop :=
  match dict_lookup key d with
  | None => values = []
  | Some v => v = PList (map PStr values)
  end.

(** The dietary list nested under the ["preferences"] key. *)
Definition dietary_field (d : list (string * PyVal)) (values : list string) : Prop :=
  match dict_lookup "preferences" d with
  | None => values = []
  | Some (PDict p) => list_field p "dietary" values
  | Some _ => False
  end.

(** *** Tool-argument payloads (C3, C10) *)

Definition is_mapping (v : PyVal) : bool :=
  match v with PDict _ => true | _ => false end.


(** *** Scripted collaborators for the concrete runs *)

Definition text_reply (s : string) : ChoiceMessage :=
  {| cm_content := Some s; cm_function_call := None |}.

Definition tool_call (name arguments : string) : ChoiceMessage :=
  {| cm_content := None;
     cm_function_call := Some {| fc_name := name; fc_arguments := arguments |} |}.

(** The [n]-th generation call (counted from 0) is answered by [gen n];
    the other collaborators give fixed answers. *)
Definition scripted_env (gen : nat -> Result (list ChoiceMessage))
    (emb : Result (list Q)) (dim : Result Z) (hits : Result (list Hit))
    (ev : string -> Result PyVal) : Env :=
  {| completions_create := fun l _ _ => gen (count_events is_generate l);
     embed_text := fun _ _ => emb;
     get_collection_size := fun _ _ => dim;
     search := fun _ _ _ _ _ => hits;
     py_eval := ev;
     match_value := fun value =>
                      match value with
                      | PBool _ | PInt _ | PStr _ => Ok tt
                      | _ => Raise ValidationError
                      end;
     py_str := fun _ => EmptyString;
     str_products := fun ps => match ps with [] => "[]" | _ => "[...]" end;
     str_exn := fun _ => "error";
     validate_product := fun p => Ok p;
     uuid4 := fun l => "session-" +:+ Text.str_of_int (Z.of_nat (length l));
     utcnow := fun l => Z.of_nat (length l) |}.

(** [eval] on the two payloads used below. *)
Definition eval_question (s : string) : Result PyVal :=
  if String.eqb s "{'question': 'help with sleep'}"
  then Ok (PDict [("question", PStr "help with sleep")])
  else if String.eqb s "{}" then Ok (PDict [])
  else Raise SyntaxError.

Definition gen_then (first rest : Result (list ChoiceMessage)) (n : nat)
  : Result (list ChoiceMessage) :=
  match n with O => first | S _ => rest end.

Definition sleep_question : string := "{'question': 'help with sleep'}".

(** The model answers directly. *)
Definition env_direct : Env :=
  scripted_env (fun _ => Ok [text_reply "I recommend trying magnesium."])
    (Ok [1%Q; 2%Q]) (Ok 2) (Ok []) eval_question.

(** The model calls the tool; the embedding service is down. *)
Definition env_embed_down : Env :=
  scripted_env
    (gen_then (Ok [tool_call "query_supplements" sleep_question])
              (Ok [text_reply "Sleep hygiene matters."]))
    (Raise (BackendError "embedding service unavailable"))
    (Ok 2) (Ok []) eval_question.

(** The model calls the tool; the vector search is down. *)
Definition env_search_down : Env :=
  scripted_env
    (gen_then (Ok [tool_call "query_supplements" sleep_question])
              (Ok [text_reply "Sleep hygiene matters."]))
    (Ok [1%Q; 2%Q]) (Ok 2)
    (Raise (BackendError "search backend unavailable")) eval_question.


(** The first response has no choice at all; the later ones are fine. *)
Definition env_bad_shape_once : Env :=
  scripted_env (gen_then (Ok []) (Ok [text_reply "Hello."]))
    (Ok [1%Q; 2%Q]) (Ok 2) (Ok []) eval_question.

(** The index has 1536 dimensions. *)
Definition env_1536 : Env :=
  scripted_env (fun _ => Ok [text_reply "Hello."])
    (Ok [1%Q; 2%Q]) (Ok 1536) (Ok []) eval_question.



(** The model calls a function that does not exist, with a payload that
    [eval] rejects. *)
Definition env_unknown_malformed : Env :=
  scripted_env (fun _ => Ok [tool_call "lookup_orders" "{question: "])
    (Ok [1%Q; 2%Q]) (Ok 2) (Ok []) eval_question.

(** The model calls a function that does not exist. *)
Definition env_unknown_tool : Env :=
  scripted_env
    (gen_then (Ok [tool_call "lookup_orders" "{}"])
              (Ok [text_reply "Here is some general advice."]))
    (Ok [1%Q; 2%Q]) (Ok 2) (Ok []) eval_question.


(** The rest of an attempt after the tool has returned [items]: the second
    generation call answers [choices]. *)
Definition reply_after_tool (function_name : string) (items : list Product)
    (choices : Result (list ChoiceMessage)) : Result ChatResponse :=
  rbind choices (fun choices =>
  rbind (first_choice choices) (fun reply =>
  rbind (content_strip reply) (fun generated_text =>
  Ok (make_response generated_text (Some items) true (Some function_name))))).

(** *** Failure of the search backend (C2) *)

Definition is_embed (ev : Event) : bool :=
  match ev with EvEmbed _ => true | _ => false end.

(** The tool runs for [question] in the world [w] and the embedding call
    fails as a whole, or the embedding succeeds and the search adapter
    raises. *)
Definition search_backend_fails (env : Env) (question : PyVal) (w : World) : Prop :=
  (exists e, embed_text env (log w) question = Raise e) \/
  (exists query_vector e,
      embed_text env (log w) question = Ok query_vector /\
      outcome (query_qdrant env query_vector 3 None) (logged w (EvEmbed question))
      = Raise e).


(** *** Total correctness of a computation *)

(** [m] returns from [w], and the value and the world satisfy [P]. *)
Definition returns {A} (m : M A) (w : World) (P : A -> World -> Prop) : Prop :=
  exists a w', m w = (Ok a, w') /\ P a w'.

(** No quiz answers are stored. *)
Definition no_quiz_answers (w : World) : Prop := _quiz_answers (mem w) = ∅.

(** The request names its session by a non-empty text, or names none. *)
Definition session_id_usable (d : list (string * PyVal)) : Prop :=
  (exists sid, dict_get "session_id" d = PStr sid /\ sid <> EmptyString) \/
  truthy (dict_get "session_id" d) = false.

(** *** A request without message (C9) *)

(** Lines 75-84 on the parsed body: only a mapping has [get]. *)
Definition request_message (data : PyVal) : Result PyVal :=
  match data with
  | PDict d => resolve_message d
  | _ => Raise AttributeError
  end.

(** The request carries no message: what lines 75-84 find is absent or
    empty, or they find nothing because the body, or the last entry of
    ['messages'], is not a mapping. *)
Definition without_message (data : PyVal) : Prop :=
  match request_message data with
  | Ok message => truthy message = false
  | Raise _ => True
  end.

(** *** Growth of the log *)

(** [m] only appends to the log. *)
Definition grows {A} (m : M A) : Prop :=
  forall w, exists rest, log (snd (m w)) = (log w ++ rest)%list.

(** The turns that the session of the request holds before the request:
    those of the named session, none for a session created on the fly. *)
Definition prior_turns (d : list (string * PyVal)) (w : World) : list PyVal :=
  if truthy (dict_get "session_id" d) then
    match dict_get "session_id" d with
    | PStr sid => turns (mem w) sid
    | _ => []
    end
  else [].

(** The log of [w'] continues the log of [w] with events that are not
    generation calls, then with a first-pass generation call on [messages]. *)
Definition first_call_is (w : World) (messages : list ChatMsg) (w' : World) : Prop :=
  exists pre rest,
    log w' = (log w ++ pre ++ EvGenerate messages true :: rest)%list /\
    count_events is_generate pre = O.

(** *** Partial correctness of a computation *)

(** Every value that [m] returns satisfies [Q]. *)
Definition ensures {A} (Q : A -> Prop) (m : M A) : Prop :=
  forall w a w', m w = (Ok a, w') -> Q a.

(* ===================================================================== *)
(** ** memory_store.py, continued *)
(* ===================================================================== *)

(** [list(self._store.keys())].  The finite map does not keep the insertion
    order of a Python dict: the keys come in the order of the map, and only
    what does not depend on the order is stated about them. *)
Definition get_all_sessions : M (list string) :=
  try_except
    (emit (EvStore "get_all_sessions" EmptyString) ;;
     let* m := get_mem in
     ret (map fst (map_to_list (_store m))))
    (fun _ => ret []).

(** *** Sequences of calls to the store *)

Inductive StoreCall : Type :=
| CreateSession (client_id : PyVal)
| AddMessage (session_id : string) (message : PyVal)
| GetMessages (session_id : string)
| ClearSession (session_id : string)
| GetAllSessions
| StoreQuizAnswers (session_id : string) (answers : PyVal)
| GetQuizAnswers (session_id : string).

Definition run_call (env : Env) (c : StoreCall) : M unit :=
  match c with
  | CreateSession client_id => create_session env client_id ;; ret tt
  | AddMessage session_id message => add_message session_id message
  | GetMessages session_id => get_messages session_id ;; ret tt
  | ClearSession session_id => clear_session session_id
  | GetAllSessions => get_all_sessions ;; ret tt
  | StoreQuizAnswers session_id answers => store_quiz_answers session_id answers
  | GetQuizAnswers session_id => get_quiz_answers session_id ;; ret tt
  end.

(** A client that makes the calls one after the other and goes on after a
    call that raised. *)
Fixpoint run_calls (env : Env) (cs : list StoreCall) : M unit :=
  match cs with
  | [] => ret tt
  | c :: cs' =>
      try_except (run_call env c) (fun _ => ret tt) ;;
      run_calls env cs'
  end.

(** Every stored turn is a dict with both keys, every stored set of quiz
    answers is a mapping. *)
Definition store_well_formed (m : MemoryStore) : Prop :=
  (forall sid ts, _store m !! sid = Some ts ->
                  Forall (fun t => valid_message t = true) ts) /\
  (forall sid v, _quiz_answers m !! sid = Some v -> is_mapping v = true).

(** The sessions of [m] are sessions of [m']. *)
Definition sessions_kept (m m' : MemoryStore) : Prop :=
  forall sid, is_Some (_store m !! sid) -> is_Some (_store m' !! sid).

(** A turn that [add_message] stores without raising: a dict with both
    keys whose content can be sliced (a text or a list). *)
Definition storable (message : PyVal) : bool :=
  match message with
  | PDict d =>
      dict_contains "role" d &&
      match dict_lookup "content" d with
      | Some (PStr _) | Some (PList _) => true
      | _ => false
      end
  | _ => false
  end.

(** A dict with both keys whose content is [None], a boolean or a number. *)
Definition content_is_scalar (message : PyVal) : bool :=
  match message with
  | PDict d =>
      dict_contains "role" d &&
      match dict_lookup "content" d with
      | Some PNone | Some (PBool _) | Some (PInt _) | Some (PFloat _) => true
      | _ => false
      end
  | _ => false
  end.

(** The world after [message] has been appended to [session_id]. *)
Definition appended (session_id : string) (message : PyVal) (w : World) : World :=
  {| mem := {| _store := <[session_id := (turns (mem w) session_id ++ [message])%list]>
                           (_store (mem w));
               _quiz_answers := _quiz_answers (mem w) |};
     log := (log w ++ [EvStore "add_message" session_id])%list |}.

(** The calls [add_message(session_id, t)] for the turns [ts], in order. *)
Fixpoint add_all (session_id : string) (ts : list PyVal) : M unit :=
  match ts with
  | [] => ret tt
  | t :: ts' => add_message session_id t ;; add_all session_id ts'
  end.

(* ===================================================================== *)
(** ** Vocabulary of the further statements *)
(* ===================================================================== *)

(** The entry [m] of a message list is the turn [t] reduced to its role and
    its content. *)
Definition reduced_turn (t : PyVal) (m : ChatMsg) : Prop :=
  exists d r c,
    t = PDict d /\ dict_lookup "role" d = Some r /\
    dict_lookup "content" d = Some c /\ m = RoleContent r c.

(** The system prompt in force: the override unless it is absent or empty. *)
Definition prompt_in_force (system_prompt : option string) : string :=
  match system_prompt with
  | Some p => if String.eqb p EmptyString then DEFAULT_SYSTEM_PROMPT else p
  | None => DEFAULT_SYSTEM_PROMPT
  end.

Definition first_char (s : string) : option ascii :=
  match s with
  | EmptyString => None
  | String c _ => Some c
  end.

Fixpoint last_char (s : string) : option ascii :=
  match s with
  | EmptyString => None
  | String c EmptyString => Some c
  | String _ s' => last_char s'
  end.

(** [s] neither starts nor ends with a whitespace character. *)
Definition no_outer_space (s : string) : Prop :=
  (forall c, first_char s = Some c -> Text.is_space c = false) /\
  (forall c, last_char s = Some c -> Text.is_space c = false).

(** What every reply of the orchestrator has in common. *)
Definition reply_consistent (r : ChatResponse) : Prop :=
  role r = "assistant" /\
  no_outer_space (content r) /\
  (function_called r = true <-> is_Some (products r)) /\
  (function_called r = true <-> is_Some (function_name r)).

(** [m] appends at most [n] events that satisfy [p] to the log, and nothing
    else than appending. *)
Definition within (p : Event -> bool) (n : nat) {A} (m : M A) : Prop :=
  forall w, exists rest,
    log (snd (m w)) = (log w ++ rest)%list /\
    (count_events p rest <= n)%nat.

(** [m] leaves the session store as it is. *)
Definition keeps_mem {A} (m : M A) : Prop :=
  forall w, mem (snd (m w)) = mem w.

Definition is_sleep (ev : Event) : bool :=
  match ev with EvSleep _ => true | _ => false end.

Definition is_get_collection (ev : Event) : bool :=
  match ev with EvGetCollection _ => true | _ => false end.

(** The number of events of [rest] that satisfy [p], event by event. *)
Definition cost (p : Event -> bool) (ev : Event) : nat :=
  if p ev then 1%nat else 0%nat.

(** The model never asks for a function call: the first choice of every
    response carries none, so that no argument payload is evaluated. *)
Definition no_function_call (env : Env) : Prop :=
  forall l messages with_functions m rest,
    completions_create env l messages with_functions = Ok (m :: rest) ->
    cm_function_call m = None.

(** *** A request of the route *)

(** The session a request is served in: the one it names, else the one made
    for it, whose identifier is drawn after the clock has been read. *)
Definition request_session (env : Env) (d : list (string * PyVal)) (w : World)
  : string :=
  if truthy (dict_get "session_id" d) then
    match dict_get "session_id" d with
    | PStr s => s
    | _ => EmptyString
    end
  else uuid4 env (log w ++ [EvUtcnow])%list.

(** The quiz answers the prompt is built from: those of the request when it
    brings some, else those stored for its session. *)
Definition quiz_in_force (env : Env) (d : list (string * PyVal)) (w : World)
  : PyVal :=
  if truthy (dict_get "quiz_answers" d) then dict_get "quiz_answers" d
  else default PNone (_quiz_answers (mem w) !! request_session env d w).

(** The request brings no quiz answers, or a mapping. *)
Definition quiz_usable (d : list (string * PyVal)) : Prop :=
  truthy (dict_get "quiz_answers" d) = false \/
  is_mapping (dict_get "quiz_answers" d) = true.

Definition user_turn (text : string) (timestamp : Z) : PyVal :=
  PDict [("role", PStr "user"); ("content", PStr text);
         ("timestamp", PInt timestamp)].

Definition assistant_turn (text : string) (timestamp : Z) : PyVal :=
  PDict [("role", PStr "assistant"); ("content", PStr text);
         ("timestamp", PInt timestamp)].

(** What a served request leaves behind, for the reply [r] and the world
    [w'] it ends in. *)
Definition request_served (env : Env) (d : list (string * PyVal)) (w : World)
    (text sp : string) (r : ChatResponse) (w' : World) : Prop :=
  let sid := request_session env d w in
  let q := dict_get "quiz_answers" d in
  let hist := (prior_turns d w ++ [user_turn text (utcnow env (log w))])%list in
  (exists t2, turns (mem w') sid = (hist ++ [assistant_turn (content r) t2])%list) /\
  (forall sid', sid' <> sid -> turns (mem w') sid' = turns (mem w) sid') /\
  _quiz_answers (mem w')
  = (if truthy q then <[sid := q]> (_quiz_answers (mem w))
     else _quiz_answers (mem w)) /\
  (forall messages,
      _format_messages text hist (Some sp) = Ok messages ->
      first_call_is w messages w') /\
  (r = fallback_response \/
   exists w5 w6,
     generate_chat_response env text hist (dict_get "client_id" d) (Some sp) w5
     = (Ok r, w6)).

(* ===================================================================== *)
(** ** utils.py: [create_retry_decorator], [retry_async_function] *)
(* ===================================================================== *)

(** The retry loop of the decorator with [reraise=True]: when no attempt is
    left the last exception is raised as it is.  The [before] and [after]
    hooks only write log lines. *)
Fixpoint retrying_reraise {A} (remaining : nat) (attempt_number : Z)
    (wait : Z -> Z) (fn : M A) : M A :=
  try_except fn
    (fun e =>
       match remaining with
       | O => raise e
       | S remaining' =>
           emit (EvSleep (wait attempt_number)) ;;
           retrying_reraise remaining' (attempt_number + 1) wait fn
       end).

(** [create_retry_decorator(max_attempts, min_wait, max_wait)] applied to [fn] *)
Definition create_retry_decorator {A} (max_attempts : nat) (min_wait max_wait : Z)
    (fn : M A) : M A :=
  retrying_reraise (max_attempts - 1) 1
    (wait_exponential min_wait min_wait max_wait) fn.

(** [retry_async_function(func, ...)]: decorated with the defaults
    [max_attempts=2], [min_wait=1], [max_wait=10]. *)
Definition retry_async_function {A} (func : M A) : M A :=
  create_retry_decorator 2 1 10 func.

(* ===================================================================== *)
(** ** Brightside Upload Product Data to Qdrant.py *)
(* ===================================================================== *)

Definition BATCH_SIZE : nat := 100.

(** The payload written for one product of the catalogue file. *)
Definition payload_of_product (env : Env) (product : PyVal)
  : Result (list (string * PyVal)) :=
  rbind (py_get product "id") (fun pid =>
  rbind (py_get_default product "title" (PStr EmptyString)) (fun title =>
  rbind (py_get_default product "description" (PStr EmptyString)) (fun description =>
  rbind (py_get_default product "price" (PStr "0.00")) (fun price =>
  rbind (py_get_default product "formattedPrice" (PStr EmptyString)) (fun formatted =>
  rbind (py_get_default product "image" (PStr EmptyString)) (fun image =>
  rbind (py_get_default product "link" (PStr EmptyString)) (fun link =>
  Ok [("id", PStr (py_str env pid));
      ("title", title);
      ("description", description);
      ("price", PStr (py_str env price));
      ("formattedPrice", formatted);
      ("image", image);
      ("link", link)]))))))).

(** [range(0, stop, step)] for a positive step. *)
Definition py_range_step (stop step : nat) : list nat :=
  map (fun k => (k * step)%nat) (seq 0 (Nat.div (stop + step - 1) step)).

(** [l[i:j]] for [0 <= i <= j]. *)
Definition py_slice {A} (l : list A) (i j : nat) : list A :=
  firstn (j - i) (skipn i l).

(** The batches of the upload loop:
    [all_points[i:i+BATCH_SIZE]] for [i] in [range(0, len(all_points), BATCH_SIZE)]. *)
Definition upload_batches {A} (batch_size : nat) (all_points : list A)
  : list (list A) :=
  map (fun i => py_slice all_points i (i + batch_size))
      (py_range_step (length all_points) batch_size).

(* ===================================================================== *)
(** ** utils.py: [clean_description] *)
(* ===================================================================== *)

Module Clean.

Definition is_lt (c : ascii) : bool := Nat.eqb (nat_of_ascii c) 60.
Definition is_gt (c : ascii) : bool := Nat.eqb (nat_of_ascii c) 62.

Definition lt_char : ascii := ascii_of_nat 60.
Definition gt_char : ascii := ascii_of_nat 62.

(** [re.sub(r'<[^>]+>', '', s)], in one pass from left to right.  [pending]
    holds the characters read after a '<' that is still waiting for its
    '>'.  A '>' closes the tag when at least one character was read; "<>"
    is no tag, and a '<' that is never closed is kept with what follows. *)
Fixpoint strip_tags_from (pending : option string) (s : string) : string :=
  match s with
  | EmptyString =>
      match pending with
      | None => EmptyString
      | Some body => String lt_char body
      end
  | String c s' =>
      match pending with
      | None =>
          if is_lt c then strip_tags_from (Some EmptyString) s'
          else String c (strip_tags_from None s')
      | Some body =>
          if is_gt c then
            match body with
            | EmptyString => String lt_char (String gt_char (strip_tags_from None s'))
            | _ => strip_tags_from None s'
            end
          else strip_tags_from (Some (body +:+ String c EmptyString)) s'
      end
  end.

Definition strip_tags (s : string) : string := strip_tags_from None s.

(** [s.split()]: the maximal runs of characters that are not whitespace;
    [cur] is the run being read. *)
Fixpoint split_from (cur : string) (s : string) : list string :=
  match s with
  | EmptyString =>
      match cur with
      | EmptyString => []
      | _ => [cur]
      end
  | String c s' =>
      if Text.is_space c then
        match cur with
        | EmptyString => split_from EmptyString s'
        | _ => cur :: split_from EmptyString s'
        end
      else split_from (cur +:+ String c EmptyString) s'
  end.

Definition split (s : string) : list string := split_from EmptyString s.

(** [\w] on one code point below 256: letters, digits and the underscore,
    the letters and digits being those of [str.isalnum]. *)
Definition is_word (c : ascii) : bool :=
  let n := nat_of_ascii c in
  Text.between 48 57 n || Text.between 65 90 n || Text.between 97 122 n
  || Nat.eqb n 95
  || Nat.eqb n 170 || Nat.eqb n 178 || Nat.eqb n 179 || Nat.eqb n 181
  || Nat.eqb n 185 || Nat.eqb n 186 || Text.between 188 190 n
  || Text.between 192 214 n || Text.between 216 246 n || Text.between 248 255 n.

(** The characters '.', ',', '!', '?' and '-'. *)
Definition is_punctuation (c : ascii) : bool :=
  let n := nat_of_ascii c in
  Nat.eqb n 46 || Nat.eqb n 44 || Nat.eqb n 33 || Nat.eqb n 63 || Nat.eqb n 45.

(** A character that [re.sub(r'[^\w\s.,!?-]', '', s)] keeps. *)
Definition is_kept (c : ascii) : bool :=
  is_word c || Text.is_space c || is_punctuation c.

Fixpoint filter_chars (f : ascii -> bool) (s : string) : string :=
  match s with
  | EmptyString => EmptyString
  | String c s' =>
      if f c then String c (filter_chars f s') else filter_chars f s'
  end.

End Clean.

(** [clean_description(text)].  [ascii_fold] stands for
    [unicodedata.normalize('NFKD', s).encode('ascii', 'ignore').decode('ascii')],
    whose tables are those of the Unicode library. *)
Definition clean_description (ascii_fold : string -> string) (text : string)
  : string :=
  match text with
  | EmptyString => EmptyString
  | _ =>
      let text := Clean.strip_tags text in
      let text := ascii_fold text in
      let text := String.concat " " (Clean.split text) in
      let text := Clean.filter_chars Clean.is_kept text in
      Text.strip text
  end.

(** *** Vocabulary for [clean_description] *)

Fixpoint all_chars (f : ascii -> bool) (s : string) : bool :=
  match s with
  | EmptyString => true
  | String c s' => f c && all_chars f s'
  end.

Definition is_ascii (c : ascii) : bool := Nat.ltb (nat_of_ascii c) 128.

Definition is_blank (c : ascii) : bool := Nat.eqb (nat_of_ascii c) 32.

(** An ASCII letter, digit or underscore, a blank, or one of [.,!?-]. *)
Definition is_plain (c : ascii) : bool :=
  let n := nat_of_ascii c in
  Text.between 48 57 n || Text.between 65 90 n || Text.between 97 122 n
  || Nat.eqb n 95 || Nat.eqb n 32 || Clean.is_punctuation c.

(* ===================================================================== *)
(** ** Prompt builder *)
(* ===================================================================== *)

Section PromptBuilder.

Lemma all_str_map (values : list string) :
  all_str (map PStr values) = Some values.
Proof.
  induction values as [|v values IH]; simpl; [reflexivity|].
  now rewrite IH.
Qed.

Lemma truthy_text_list (values : list string) :
  truthy (PList (map PStr values)) = match values with [] => false | _ => true end.
Proof. now destruct values. Qed.

Lemma append_line_texts label values context :
  append_line label (PList (map PStr values)) context
  = Ok (context ++ rendered_line label values)%list.
Proof.
  unfold append_line. rewrite truthy_text_list.
  destruct values as [|v values].
  - simpl. now rewrite app_nil_r.
  - unfold py_join. now rewrite all_str_map.
Qed.

Lemma append_line_field d key label values context :
  list_field d key values ->
  append_line label (from_option id (PList []) (dict_lookup key d)) context
  = Ok (context ++ rendered_line label values)%list.
Proof.
  unfold list_field. intros H.
  destruct (dict_lookup key d) as [v|]; simpl; subst.
  - apply append_line_texts.
  - unfold append_line. simpl. now rewrite app_nil_r.
Qed.

Lemma dietary_line d values context :
  dietary_field d values ->
  (let preferences := from_option id (PDict []) (dict_lookup "preferences" d) in
   if truthy preferences then
     rbind (py_get_default preferences "dietary" (PList []))
           (fun dietary => append_line "Dietary preferences" dietary context)
   else Ok context)
  = Ok (context ++ rendered_line "Dietary preferences" values)%list.
Proof.
  unfold dietary_field. intros H.
  destruct (dict_lookup "preferences" d) as [v|]; simpl.
  - destruct v as [| | | | | |p]; try contradiction.
    destruct p as [|kv p].
    + unfold list_field in H. simpl in H. subst.
      simpl. now rewrite app_nil_r.
    + now apply (append_line_field (kv :: p) "dietary").
  - subst. simpl. now rewrite app_nil_r.
Qed.

End PromptBuilder.

(** C7.  With an absent or empty context [build_system_prompt] returns the
    base instruction unchanged; with a non-empty context whose three lists
    hold texts it returns the base instruction followed by the rendered
    block: an empty line, the heading "Additional context:", and then the
    "Health goals", "Current symptoms" and "Dietary preferences" lines in
    this order, each with its comma-joined values on a line of its own, a
    line being left out when its list is empty; nothing is appended when all
    three lists are empty. *)
Theorem build_system_prompt_renders_context :
  (forall v, truthy v = false -> build_system_prompt v = Ok base_prompt) /\
  (forall d health_goals symptoms dietary,
      truthy (PDict d) = true ->
      list_field d "health_goals" health_goals ->
      list_field d "symptoms" symptoms ->
      dietary_field d dietary ->
      build_system_prompt (PDict d)
      = Ok (base_prompt +:+ rendered_block health_goals symptoms dietary)).
Proof.
  split.
  - intros v Hv. unfold build_system_prompt. now rewrite Hv.
  - intros d hg sy di Hd Hhg Hsy Hdi.
    unfold build_system_prompt. rewrite Hd.
    unfold py_get_default at 1 2 3. cbn [rbind].
    rewrite (append_line_field d "health_goals" "Health goals" hg [] Hhg).
    cbn [rbind app].
    rewrite (append_line_field d "symptoms" "Current symptoms" sy _ Hsy).
    cbn [rbind].
    rewrite (dietary_line d di _ Hdi). cbn [rbind].
    unfold rendered_block, rendered_lines. rewrite <- app_assoc.
    destruct (rendered_line "Health goals" hg
              ++ rendered_line "Current symptoms" sy
              ++ rendered_line "Dietary preferences" di)%list; reflexivity.
Qed.

Lemma build_system_prompt_renders_context_witness :
  truthy PNone = false /\
  build_system_prompt PNone
  = Ok ("You are a helpful and friendly supplement recommendation assistant. "
        +:+ String "010"%char
        ("Your goal is to help customers find the right supplements based on their health goals and symptoms."
        +:+ String "010"%char
        ("When appropriate, suggest relevant supplements from our catalog."
        +:+ String "010"%char
        "Be concise, friendly, and focus on being helpful."))) /\
  build_system_prompt
    (PDict [("health_goals", PList [PStr "energy"; PStr "sleep"]);
            ("symptoms", PList []);
            ("preferences", PDict [("dietary", PList [PStr "vegan"])])])
  = Ok ("You are a helpful and friendly supplement recommendation assistant. "
        +:+ String "010"%char
        ("Your goal is to help customers find the right supplements based on their health goals and symptoms."
        +:+ String "010"%char
        ("When appropriate, suggest relevant supplements from our catalog."
        +:+ String "010"%char
        ("Be concise, friendly, and focus on being helpful."
        +:+ String "010"%char (String "010"%char
        ("Additional context:"
        +:+ String "010"%char
        ("Health goals: energy, sleep"
        +:+ String "010"%char
        "Dietary preferences: vegan"))))))).
Proof.
  split; [reflexivity|]. split.
  - rewrite (proj1 build_system_prompt_renders_context PNone eq_refl).
    reflexivity.
  - rewrite (proj2 build_system_prompt_renders_context
               [("health_goals", PList [PStr "energy"; PStr "sleep"]);
                ("symptoms", PList []);
                ("preferences", PDict [("dietary", PList [PStr "vegan"])])]
               ["energy"; "sleep"] [] ["vegan"] eq_refl eq_refl eq_refl eq_refl).
    reflexivity.
Defined.

(* ===================================================================== *)
(** ** Session store *)
(* ===================================================================== *)

Section SessionStore.

Lemma get_messages_turns session_id w :
  outcome (get_messages session_id) w = Ok (turns (mem w) session_id).
Proof.
  unfold outcome, get_messages, try_except, bind, emit, get_mem, turns. simpl.
  now destruct (_store (mem w) !! session_id).
Qed.

Lemma turns_insert_empty m session_id sid' :
  _store m !! session_id = None ->
  default [] (<[session_id := []]> (_store m) !! sid') = turns m sid'.
Proof.
  intros H. unfold turns.
  destruct (decide (session_id = sid')) as [->|Hne].
  - now rewrite lookup_insert_eq, H.
  - now rewrite lookup_insert_ne.
Qed.

End SessionStore.

(** C8 (as amended).  An [add_message] call whose message is not a dict or
    lacks the ['role'] or the ['content'] key fails with [ValueError] and
    appends no turn: every session reports the same turn sequence as
    before, the stored quiz answers are the same, and the whole store is the
    same when the session already existed. *)
Theorem add_message_rejects_malformed session_id message w :
  valid_message message = false ->
  let w' := after (add_message session_id message) w in
  outcome (add_message session_id message) w
  = Raise (ValueError "Message must be a dict with 'role' and 'content' keys") /\
  (forall sid', outcome (get_messages sid') w' = outcome (get_messages sid') w) /\
  _quiz_answers (mem w') = _quiz_answers (mem w) /\
  (is_Some (_store (mem w) !! session_id) -> mem w' = mem w).
Proof.
  intros Hbad. cbv zeta.
  unfold outcome at 1. unfold after.
  cbv beta iota zeta delta
    [add_message try_except bind emit get_mem set_turns put_mem raise ret
     mem log fst snd].
  destruct w as [m l]. cbv beta iota zeta delta [mem log].
  destruct (_store m !! session_id) as [ts|] eqn:Hs;
    cbv beta iota zeta; rewrite Hbad; cbv beta iota zeta delta [fst snd mem log].
  - repeat split; try reflexivity.
    intros sid'. now rewrite !get_messages_turns.
  - repeat split; try reflexivity.
    + intros sid'. rewrite !get_messages_turns. cbn [mem].
      unfold turns at 1. cbn [_store].
      now apply f_equal, turns_insert_empty.
    + intros [x Hx]. discriminate.
Qed.

Lemma add_message_rejects_malformed_witness :
  valid_message (PDict [("role", PStr "user")]) = false /\
  outcome (add_message "s1" (PDict [("role", PStr "user")])) init_world
  = Raise (ValueError "Message must be a dict with 'role' and 'content' keys").
Proof.
  split; [reflexivity|].
  apply (add_message_rejects_malformed "s1" (PDict [("role", PStr "user")])
           init_world).
  reflexivity.
Defined.

(** C8 as stated fails: a turn whose role and content are both empty texts
    is accepted and appended. *)
Lemma add_message_accepts_empty_role_and_content :
  let turn := PDict [("role", PStr EmptyString); ("content", PStr EmptyString)] in
  outcome (add_message "s1" turn) init_world = Ok tt /\
  turns (mem (after (add_message "s1" turn) init_world)) "s1" = [turn].
Proof. vm_compute. split; reflexivity. Qed.

(* ===================================================================== *)
(** ** Vector search adapter *)
(* ===================================================================== *)

Lemma count_events_app p (l l' : list Event) :
  count_events p (l ++ l') = (count_events p l + count_events p l')%nat.
Proof.
  induction l as [|ev l IH]; [reflexivity|].
  simpl. destruct (p ev); simpl; now rewrite IH.
Qed.

Section VectorSearch.

Variable env : Env.

(** The search call is reached only when the dimensions agree. *)
Lemma query_qdrant_size_failure query_vector limit filters w e :
  get_collection_size env (log w) collection_name = Raise e ->
  query_qdrant env query_vector limit filters w
  = (Raise e, logged w (EvGetCollection collection_name)).
Proof.
  intros H. unfold query_qdrant, try_except, bind, call, raise.
  now rewrite H.
Qed.

End VectorSearch.

(** C5 (as amended).  When the length of the query vector differs from the
    dimensionality that the collection-info request reports, [query_qdrant]
    fails with the dimension-mismatch [ValueError] right after that single
    request: the log gains the [get_collection] call and nothing else, so no
    similarity search is executed. *)
Theorem query_qdrant_dimension_mismatch env query_vector limit filters w collection_dim :
  get_collection_size env (log w) collection_name = Ok collection_dim ->
  collection_dim <> Z.of_nat (length query_vector) ->
  query_qdrant env query_vector limit filters w
  = (Raise (ValueError (dimension_mismatch_msg collection_dim
                          (Z.of_nat (length query_vector)))),
     logged w (EvGetCollection collection_name))
  /\ count_events is_search
       (log (after (query_qdrant env query_vector limit filters) w))
     = count_events is_search (log w).
Proof.
  intros Hdim Hne.
  assert (E : query_qdrant env query_vector limit filters w
              = (Raise (ValueError (dimension_mismatch_msg collection_dim
                                      (Z.of_nat (length query_vector)))),
                 logged w (EvGetCollection collection_name))).
  { unfold query_qdrant, try_except, bind, call, raise, ret, logged.
    rewrite Hdim. apply Z.eqb_neq in Hne. now rewrite Hne. }
  split; [exact E|].
  unfold after. rewrite E. cbn [snd logged log].
  rewrite count_events_app. simpl. lia.
Qed.

(* ===================================================================== *)
(** ** Text lemmas *)
(* ===================================================================== *)

Section TextFacts.

Import Text.






Lemma keywords_are_lower_case :
  Forall (fun kw => lower kw = kw) recommend_keywords.
Proof. repeat constructor. Qed.







End TextFacts.

(* ===================================================================== *)
(** ** The monad *)
(* ===================================================================== *)

Section MonadFacts.

Context {A B : Type}.


Lemma ensures_raise (Q : A -> Prop) e : ensures Q (raise e).
Proof. intros w a w' H. discriminate. Qed.

Lemma ensures_bind (Q : B -> Prop) (m : M A) (k : A -> M B) :
  (forall a, ensures Q (k a)) -> ensures Q (bind m k).
Proof.
  intros Hk w b w' H. unfold bind in H.
  destruct (m w) as [[a|e] w1]; [|discriminate].
  exact (Hk a w1 b w' H).
Qed.

Lemma ensures_try_except (Q : A -> Prop) (m : M A) (h : Exn -> M A) :
  ensures Q m -> (forall e, ensures Q (h e)) -> ensures Q (try_except m h).
Proof.
  intros Hm Hh w a w' H. unfold try_except in H.
  destruct (m w) as [[a0|e] w1] eqn:E.
  - injection H as <- <-. exact (Hm w a0 w1 E).
  - exact (Hh e w1 a w' H).
Qed.

Lemma ensures_retrying (Q : A -> Prop) (fn : M A) wait n attempt_number :
  ensures Q fn -> ensures Q (retrying n attempt_number wait fn).
Proof.
  intros Hfn. revert attempt_number.
  induction n as [|n IH]; intros a; simpl; apply ensures_try_except; trivial;
    intros e.
  - apply ensures_raise.
  - unfold ensures, bind, emit. intros w r w' H. exact (IH _ _ _ _ H).
Qed.

(** An attempt that succeeds is not retried. *)
Lemma retrying_first_ok (fn : M A) wait n attempt_number w a w' :
  fn w = (Ok a, w') -> retrying n attempt_number wait fn w = (Ok a, w').
Proof. intros H. destruct n; simpl; unfold try_except; now rewrite H. Qed.

End MonadFacts.

(* ===================================================================== *)
(** ** Orchestrator: the recommend flag *)
(* ===================================================================== *)

Section RecommendFlag.

Variable env : Env.



End RecommendFlag.



(* ===================================================================== *)
(** ** Orchestrator: the tool handler *)
(* ===================================================================== *)

Section ToolHandler.

Variable env : Env.

Lemma py_get_dict d key : py_get (PDict d) key = Ok (dict_get key d).
Proof. reflexivity. Qed.

Lemma handler_unknown_function function_name function_args w :
  function_name <> "query_supplements" ->
  _handle_function_call env function_name function_args w = (Ok [], w).
Proof.
  intros Hne. unfold _handle_function_call.
  apply String.eqb_neq in Hne. now rewrite Hne.
Qed.

Lemma handler_no_question d w :
  truthy (dict_get "question" d) = false ->
  _handle_function_call env "query_supplements" (PDict d) w = (Ok [], w).
Proof.
  intros Hq. unfold _handle_function_call. rewrite String.eqb_refl.
  unfold bind, lift. rewrite py_get_dict. now rewrite Hq.
Qed.

Lemma handler_not_mapping function_args w :
  is_mapping function_args = false ->
  _handle_function_call env "query_supplements" function_args w
  = (Raise AttributeError, w).
Proof.
  intros Hm. unfold _handle_function_call. rewrite String.eqb_refl.
  now destruct function_args.
Qed.

Lemma handler_embed_failure d question e w :
  dict_get "question" d = question ->
  truthy question = true ->
  embed_text env (log w) question = Raise e ->
  _handle_function_call env "query_supplements" (PDict d) w
  = (Ok [], logged w (EvEmbed question)).
Proof.
  intros Hq Ht He. unfold _handle_function_call. rewrite String.eqb_refl.
  unfold bind at 1. unfold lift. rewrite py_get_dict, Hq, Ht. cbn [negb].
  unfold try_except, bind, call. now rewrite He.
Qed.

Lemma handler_after_embedding d question query_vector w :
  dict_get "question" d = question ->
  truthy question = true ->
  embed_text env (log w) question = Ok query_vector ->
  _handle_function_call env "query_supplements" (PDict d) w
  = match query_qdrant env query_vector 3 None (logged w (EvEmbed question)) with
    | (Ok items, w') => (Ok items, w')
    | (Raise _, w') => (Ok [], w')
    end.
Proof.
  intros Hq Ht He. unfold _handle_function_call. rewrite String.eqb_refl.
  unfold bind at 1. unfold lift. rewrite py_get_dict, Hq, Ht. cbn [negb].
  unfold try_except at 1. unfold bind at 1. unfold call at 1. rewrite He.
  unfold logged, ret.
  now destruct (query_qdrant env query_vector 3 None _) as [[items|e'] w'].
Qed.

(** With a mapping as argument the handler never raises. *)
Lemma handler_total function_name d w :
  exists items, outcome (_handle_function_call env function_name (PDict d)) w = Ok items.
Proof.
  unfold outcome, _handle_function_call.
  destruct (String.eqb function_name "query_supplements"); [|now exists []].
  unfold bind at 1. unfold lift. rewrite py_get_dict. cbn [fst snd].
  destruct (negb (truthy _)); [now exists []|].
  unfold try_except.
  match goal with |- context [bind ?m ?k w] => destruct (bind m k w) as [[items|e] w'] end.
  - now exists items.
  - now exists [].
Qed.

End ToolHandler.

(* ===================================================================== *)
(** ** Orchestrator: one attempt *)
(* ===================================================================== *)

Section Attempt.

Variable env : Env.
Variables (message : string) (chat_history : list PyVal) (client_id : PyVal)
          (system_prompt : option string).

Lemma body_generation_failure w messages e :
  _format_messages message chat_history system_prompt = Ok messages ->
  completions_create env (log w) messages true = Raise e ->
  generate_chat_response_body env message chat_history client_id system_prompt w
= (Raise e, logged w (EvGenerate messages true)).
Proof.
  intros Hf Hg. unfold generate_chat_response_body.
  unfold try_except, bind, lift, call, raise. now rewrite Hf, Hg.
Qed.

Lemma body_no_choice w messages :
  _format_messages message chat_history system_prompt = Ok messages ->
  completions_create env (log w) messages true = Ok [] ->
  generate_chat_response_body env message chat_history client_id system_prompt w
= (Raise IndexError, logged w (EvGenerate messages true)).
Proof.
  intros Hf Hg. unfold generate_chat_response_body.
  unfold try_except, bind, lift, call, raise. now rewrite Hf, Hg.
Qed.

Lemma body_direct_reply w messages m rest :
  _format_messages message chat_history system_prompt = Ok messages ->
  completions_create env (log w) messages true = Ok (m :: rest) ->
  cm_function_call m = None ->
  generate_chat_response_body env message chat_history client_id system_prompt w
  = (rbind (content_strip m)
           (fun generated_text => Ok (make_response generated_text None false None)),
     logged w (EvGenerate messages true)).
Proof.
  intros Hf Hg Hn. unfold generate_chat_response_body.
  unfold try_except, bind at 1 2 3, lift, call, raise. rewrite Hf, Hg.
  cbn [first_choice]. rewrite Hn. unfold bind, lift, ret, raise.
  now destruct (content_strip m).
Qed.



Lemma body_tool_reply w messages m rest fc function_args items w1 :
  _format_messages message chat_history system_prompt = Ok messages ->
  completions_create env (log w) messages true = Ok (m :: rest) ->
  cm_function_call m = Some fc ->
  py_eval env (fc_arguments fc) = Ok function_args ->
  _handle_function_call env (fc_name fc) function_args
    (logged w (EvGenerate messages true)) = (Ok items, w1) ->
  let messages2 :=
    (messages ++ [AssistantMessage m;
                  FunctionResult (fc_name fc) (str_products env items)])%list in
  generate_chat_response_body env message chat_history client_id system_prompt w
  = (reply_after_tool (fc_name fc) items
       (completions_create env (log w1) messages2 false),
     logged w1 (EvGenerate messages2 false)).
Proof.
  intros Hf Hg Hc He Hh. cbv zeta. unfold generate_chat_response_body.
  unfold try_except, bind at 1 2 3, lift, call, raise. rewrite Hf, Hg.
  cbn [first_choice]. rewrite Hc. unfold bind at 1. unfold lift.
  rewrite He. unfold bind at 1. unfold logged in Hh. rewrite Hh.
  unfold bind, ret, reply_after_tool, logged.
  destruct (completions_create env (log w1) _ false) as [choices|e1];
    [|reflexivity].
  cbn [rbind]. destruct (first_choice choices) as [reply|e2]; [|reflexivity].
  cbn [rbind]. now destruct (content_strip reply).
Qed.

End Attempt.

(** C10 (as amended).  The argument payload of a function call is
    evaluated before the name of the function is looked at.  When it
    evaluates, and the model has invoked a function that is not
    'query_supplements', or has invoked 'query_supplements' with a payload
    that evaluates to a mapping without a non-empty 'question', the tool
    handler returns the empty item list and leaves the world as it is
    (neither the embedding nor the search backend is contacted); the attempt
    then issues the second generation call over the empty tool result,
    whatever that call answers, and when it answers with a text the
    orchestrator returns a reply with [function_called = true] and no
    items. *)
Theorem unusable_tool_call_still_replies
    env message chat_history client_id system_prompt w
    messages m rest fc function_args :
  _format_messages message chat_history system_prompt = Ok messages ->
  completions_create env (log w) messages true = Ok (m :: rest) ->
  cm_function_call m = Some fc ->
  py_eval env (fc_arguments fc) = Ok function_args ->
  (fc_name fc <> "query_supplements" \/
   (fc_name fc = "query_supplements" /\
    exists d, function_args = PDict d /\ truthy (dict_get "question" d) = false)) ->
  let w1 := logged w (EvGenerate messages true) in
  let messages2 :=
    (messages ++ [AssistantMessage m;
                  FunctionResult (fc_name fc) (str_products env [])])%list in
  _handle_function_call env (fc_name fc) function_args w1 = (Ok [], w1) /\
  generate_chat_response_body env message chat_history client_id system_prompt w
  = (reply_after_tool (fc_name fc) []
       (completions_create env (log w1) messages2 false),
     logged w1 (EvGenerate messages2 false)) /\
  (forall reply rest2 text,
      completions_create env (log w1) messages2 false = Ok (reply :: rest2) ->
      cm_content reply = Some text ->
      exists r,
        generate_chat_response env message chat_history client_id system_prompt w
        = (Ok r, logged w1 (EvGenerate messages2 false)) /\
        function_called r = true /\
        function_name r = Some (fc_name fc) /\
        products r = Some [] /\
        content r = Text.strip text).
Proof.
  intros Hf Hg Hc He Hcase w1 messages2.
  assert (Hh : _handle_function_call env (fc_name fc) function_args w1 = (Ok [], w1)).
  { destruct Hcase as [Hne|(Hname & d & -> & Hq)].
    - now apply handler_unknown_function.
    - rewrite Hname. now apply handler_no_question. }
  pose proof (body_tool_reply env message chat_history client_id system_prompt
                w messages m rest fc function_args [] w1 Hf Hg Hc He Hh) as Hb.
  cbv zeta in Hb. fold messages2 in Hb.
  split; [exact Hh|]. split; [exact Hb|].
  intros reply rest2 text Hg2 Ht.
  rewrite Hg2 in Hb.
  unfold reply_after_tool in Hb. cbn [rbind first_choice] in Hb.
  unfold content_strip in Hb. rewrite Ht in Hb. cbn [rbind] in Hb.
  eexists. split.
  - unfold generate_chat_response, retry. apply retrying_first_ok. exact Hb.
  - repeat split; reflexivity.
Qed.

Lemma unusable_tool_call_still_replies_witness :
  exists r w',
    generate_chat_response env_unknown_tool "where is my order?" [] PNone None
      init_world = (Ok r, w') /\
    function_called r = true /\ products r = Some [] /\
    count_events is_backend_call (log w') = O.
Proof.
  destruct (unusable_tool_call_still_replies env_unknown_tool
              "where is my order?" [] PNone None init_world
              [RoleContent (PStr "system") (PStr DEFAULT_SYSTEM_PROMPT);
               RoleContent (PStr "user") (PStr "where is my order?")]
              (tool_call "lookup_orders" "{}") []
              {| fc_name := "lookup_orders"; fc_arguments := "{}" |}
              (PDict []))
    as (_ & _ & Hreply);
    try reflexivity.
  - left. discriminate.
  - destruct (Hreply (text_reply "Here is some general advice.") []
                "Here is some general advice." eq_refl eq_refl)
      as (r & Hr & Hfc & _ & Hp & _).
    exists r. eexists. split; [exact Hr|]. repeat split; trivial.
Defined.

(** C10 as stated fails: the model invokes a function that is not
    'query_supplements', with a payload that [eval] rejects.  Every attempt
    raises right after its first generation call: the tool handler is not
    reached, no second generation call is issued, and the orchestrator
    raises [RetryError] instead of returning a reply. *)
Lemma unknown_function_with_malformed_arguments_gets_no_reply :
  let messages := [RoleContent (PStr "system") (PStr DEFAULT_SYSTEM_PROMPT);
                   RoleContent (PStr "user") (PStr "where is my order?")] in
  completions_create env_unknown_malformed [] messages true
  = Ok [tool_call "lookup_orders" "{question: "] /\
  "lookup_orders" <> "query_supplements" /\
  generate_chat_response env_unknown_malformed "where is my order?" [] PNone None
    init_world
  = (Raise (RetryError SyntaxError),
     {| mem := empty_store;
        log := [EvGenerate messages true; EvSleep 4;
                EvGenerate messages true; EvSleep 4;
                EvGenerate messages true] |}).
Proof.
  cbv zeta. split; [reflexivity|]. split; [discriminate|].
  vm_compute. reflexivity.
Qed.

(** C2 (as amended).  When the model invokes 'query_supplements' with a
    non-empty question and the embedding call fails as a whole, or the
    search adapter raises (it re-raises every failure of its own calls), the
    tool handler catches the failure and returns the empty item list; the
    failure does not reach the caller of the orchestrator: the attempt goes
    on with the second generation call over an empty tool result. *)
Theorem search_backend_failure_yields_empty_result
    env message chat_history client_id system_prompt w
    messages m rest fc d question :
  _format_messages message chat_history system_prompt = Ok messages ->
  completions_create env (log w) messages true = Ok (m :: rest) ->
  cm_function_call m = Some fc ->
  fc_name fc = "query_supplements" ->
  py_eval env (fc_arguments fc) = Ok (PDict d) ->
  dict_get "question" d = question ->
  truthy question = true ->
  let w0 := logged w (EvGenerate messages true) in
  search_backend_fails env question w0 ->
  exists w1,
    _handle_function_call env "query_supplements" (PDict d) w0 = (Ok [], w1) /\
    let messages2 :=
      (messages ++ [AssistantMessage m;
                    FunctionResult "query_supplements" (str_products env [])])%list in
    generate_chat_response_body env message chat_history client_id system_prompt w
    = (reply_after_tool "query_supplements" []
         (completions_create env (log w1) messages2 false),
       logged w1 (EvGenerate messages2 false)).
Proof.
  intros Hf Hg Hc Hname He Hq Ht w0 Hfail.
  assert (Hh : exists w1,
             _handle_function_call env "query_supplements" (PDict d) w0 = (Ok [], w1)).
  { destruct Hfail as [[e Hemb]|(v & e & Hemb & Hraise)].
    - eexists. now apply (handler_embed_failure env d question e).
    - rewrite (handler_after_embedding env d question v w0 Hq Ht Hemb).
      unfold outcome in Hraise.
      destruct (query_qdrant env v 3 None _) as [[items|e'] w'];
        [discriminate|]. now exists w'. }
  destruct Hh as [w1 Hh]. exists w1. split; [exact Hh|].
  cbv zeta. rewrite <- Hname in Hh |- *.
  exact (body_tool_reply env message chat_history client_id system_prompt
           w messages m rest fc (PDict d) [] w1 Hf Hg Hc He Hh).
Qed.

Lemma search_backend_failure_yields_empty_result_witness :
  let messages := [RoleContent (PStr "system") (PStr DEFAULT_SYSTEM_PROMPT);
                   RoleContent (PStr "user") (PStr "I have trouble sleeping")] in
  let w0 := logged init_world (EvGenerate messages true) in
  search_backend_fails env_search_down (PStr "help with sleep") w0 /\
  exists w1,
    _handle_function_call env_search_down "query_supplements"
      (PDict [("question", PStr "help with sleep")]) w0 = (Ok [], w1) /\
    let messages2 :=
      (messages ++ [AssistantMessage (tool_call "query_supplements" sleep_question);
                    FunctionResult "query_supplements"
                      (str_products env_search_down [])])%list in
    generate_chat_response_body env_search_down "I have trouble sleeping" []
      PNone None init_world
    = (reply_after_tool "query_supplements" []
         (completions_create env_search_down (log w1) messages2 false),
       logged w1 (EvGenerate messages2 false)).
Proof.
  cbv zeta.
  assert (Hfail : search_backend_fails env_search_down (PStr "help with sleep")
                    (logged init_world
                       (EvGenerate
                          [RoleContent (PStr "system") (PStr DEFAULT_SYSTEM_PROMPT);
                           RoleContent (PStr "user") (PStr "I have trouble sleeping")]
                          true))).
  { right. exists [1%Q; 2%Q], (BackendError "search backend unavailable").
    split; reflexivity. }
  split; [exact Hfail|].
  apply (search_backend_failure_yields_empty_result env_search_down
           "I have trouble sleeping" [] PNone None init_world
           [RoleContent (PStr "system") (PStr DEFAULT_SYSTEM_PROMPT);
            RoleContent (PStr "user") (PStr "I have trouble sleeping")]
           (tool_call "query_supplements" sleep_question) []
           {| fc_name := "query_supplements"; fc_arguments := sleep_question |}
           [("question", PStr "help with sleep")] (PStr "help with sleep"));
    try reflexivity.
  exact Hfail.
Defined.

(** C2 as stated fails: the embedding service is down for every call, the
    tool is invoked, and the orchestrator still returns a reply whose item
    list is the empty list; no failure reaches its caller. *)
Lemma embedding_failure_is_swallowed :
  (forall l question,
      embed_text env_embed_down l question
      = Raise (BackendError "embedding service unavailable")) /\
  exists reply w',
    generate_chat_response env_embed_down "I have trouble sleeping" [] PNone None
      init_world = (Ok reply, w') /\
    function_called reply = true /\
    products reply = Some [] /\
    count_events is_embed (log w') = 1%nat.
Proof.
  split; [reflexivity|].
  eexists. eexists. split; [vm_compute; reflexivity|].
  repeat split; reflexivity.
Qed.

Lemma query_qdrant_dimension_mismatch_witness :
  get_collection_size env_1536 (log init_world) collection_name = Ok 1536 /\
  1536 <> Z.of_nat (length [1%Q; 2%Q]) /\
  query_qdrant env_1536 [1%Q; 2%Q] 3 None init_world
  = (Raise (ValueError (dimension_mismatch_msg 1536 2)),
     logged init_world (EvGetCollection collection_name)).
Proof.
  split; [reflexivity|]. split; [discriminate|].
  apply (query_qdrant_dimension_mismatch env_1536 [1%Q; 2%Q] 3 None init_world 1536).
  - reflexivity.
  - discriminate.
Defined.

(** C5 as stated fails: the index has 1536 dimensions and the query vector
    two; the mismatch is reported, but only after the collection-info
    request, which is a network call, has been issued. *)
Lemma dimension_check_follows_a_network_call :
  outcome (query_qdrant env_1536 [1%Q; 2%Q] 3 None) init_world
  = Raise (ValueError
             "Vector dimension mismatch! Collection expects 1536 dimensions but query vector has 2 dimensions") /\
  log (after (query_qdrant env_1536 [1%Q; 2%Q] 3 None) init_world)
  = [EvGetCollection "brightside-products"] /\
  count_events is_network_call
    (log (after (query_qdrant env_1536 [1%Q; 2%Q] 3 None) init_world)) = 1%nat.
Proof. repeat split; vm_compute; reflexivity. Qed.

(* ===================================================================== *)
(** ** Orchestrator: the retry budget *)
(* ===================================================================== *)

Lemma wait_exponential_bounds attempt_number :
  1 <= attempt_number ->
  4 <= wait_exponential 1 4 10 attempt_number <= 10.
Proof. intros H. unfold wait_exponential. lia. Qed.

(** Three attempts at most, a pause of 4 seconds before the second and
    before the third. *)
Lemma retry_three_attempts {A} (fn : M A) w :
  retry 3 (wait_exponential 1 4 10) fn w
  = match fn w with
    | (Ok r, w1) => (Ok r, w1)
    | (Raise _, w1) =>
        match fn (logged w1 (EvSleep 4)) with
        | (Ok r, w2) => (Ok r, w2)
        | (Raise _, w2) =>
            match fn (logged w2 (EvSleep 4)) with
            | (Ok r, w3) => (Ok r, w3)
            | (Raise e, w3) => (Raise (RetryError e), w3)
            end
        end
    end.
Proof.
  unfold retry. cbn [Nat.sub retrying].
  unfold try_except at 1.
  destruct (fn w) as [[r|e1] w1]; [reflexivity|].
  unfold bind at 1. unfold emit at 1. unfold try_except at 1.
  change (wait_exponential 1 4 10 1) with 4. fold (logged w1 (EvSleep 4)).
  destruct (fn (logged w1 (EvSleep 4))) as [[r|e2] w2]; [reflexivity|].
  unfold bind at 1. unfold emit at 1. unfold try_except at 1.
  change (wait_exponential 1 4 10 (1 + 1)) with 4. fold (logged w2 (EvSleep 4)).
  destruct (fn (logged w2 (EvSleep 4))) as [[r|e3] w3]; reflexivity.
Qed.

(** C4 (as amended).  [generate_chat_response] as a whole, not each
    generation call, is attempted at most three times.  An attempt that
    raises, whatever the exception, is followed by a pause and a new attempt
    as long as fewer than three attempts were made; the pause is given by
    the exponential rule clamped between 4 and 10 seconds, which is 4
    seconds both times; after a third failure the last exception reaches
    the caller wrapped in [RetryError]. *)
Theorem generate_chat_response_retry_budget
    env message chat_history client_id system_prompt w :
  let attempt :=
    generate_chat_response_body env message chat_history client_id system_prompt in
  let pause w := logged w (EvSleep 4) in
  generate_chat_response env message chat_history client_id system_prompt w
  = match attempt w with
    | (Ok r, w1) => (Ok r, w1)
    | (Raise _, w1) =>
        match attempt (pause w1) with
        | (Ok r, w2) => (Ok r, w2)
        | (Raise _, w2) =>
            match attempt (pause w2) with
            | (Ok r, w3) => (Ok r, w3)
            | (Raise e, w3) => (Raise (RetryError e), w3)
            end
        end
    end.
Proof. cbv zeta. apply retry_three_attempts. Qed.

(** C4 as stated fails: a response without any choice (a malformed
    response shape, not a transient failure) makes the first attempt raise
    [IndexError]; the failure does not propagate at once, the orchestration
    pauses, runs again and returns the reply of the second attempt. *)
Lemma malformed_shape_is_retried :
  outcome (generate_chat_response_body env_bad_shape_once "hello" [] PNone None)
    init_world = Raise IndexError /\
  is_transient IndexError = false /\
  exists reply messages,
    generate_chat_response env_bad_shape_once "hello" [] PNone None init_world
    = (Ok reply,
       {| mem := empty_store;
          log := [EvGenerate messages true; EvSleep 4; EvGenerate messages true] |}) /\
    content reply = "Hello.".
Proof.
  split; [reflexivity|]. split; [reflexivity|].
  eexists. eexists. split; [vm_compute; reflexivity|reflexivity].
Qed.

(* ===================================================================== *)
(** ** Stepping through a computation that returns *)
(* ===================================================================== *)

Section Returns.

Context {A B : Type}.

Lemma returns_ret (a : A) w (P : A -> World -> Prop) :
  P a w -> returns (ret a) w P.
Proof. intros H. now exists a, w. Qed.

Lemma returns_bind (m : M A) (k : A -> M B) w (P : B -> World -> Prop) :
  returns m w (fun a w1 => returns (k a) w1 P) -> returns (bind m k) w P.
Proof.
  intros (a & w1 & Hm & b & w2 & Hk & HP).
  exists b, w2. split; [|exact HP]. unfold bind. now rewrite Hm.
Qed.

Lemma returns_lift (r : Result A) a w (P : A -> World -> Prop) :
  r = Ok a -> P a w -> returns (lift r) w P.
Proof. intros -> HP. now exists a, w. Qed.

Lemma returns_call ev (oracle : list Event -> Result A) a w
    (P : A -> World -> Prop) :
  oracle (log w) = Ok a -> P a (logged w ev) -> returns (call ev oracle) w P.
Proof.
  intros Ho HP. exists a, (logged w ev). split; [|exact HP].
  unfold call. now rewrite Ho.
Qed.

Lemma returns_handled (m : M A) (h : Exn -> M A) w e w1
    (P : A -> World -> Prop) :
  m w = (Raise e, w1) -> returns (h e) w1 P -> returns (try_except m h) w P.
Proof.
  intros Hm (a & w2 & Hh & HP). exists a, w2. split; [|exact HP].
  unfold try_except. now rewrite Hm.
Qed.

Lemma returns_eq (m : M A) w a w' (P : A -> World -> Prop) :
  m w = (Ok a, w') -> P a w' -> returns m w P.
Proof. intros Hm HP. now exists a, w'. Qed.

End Returns.

Section StoreEquations.

Lemma create_session_eq env client_id w :
  let sid := uuid4 env (log w) in
  create_session env client_id w
  = (Ok sid,
     {| mem := {| _store := <[sid := []]> (_store (mem w));
                  _quiz_answers := _quiz_answers (mem w) |};
        log := ((log w ++ [EvUuid4]) ++ [EvStore "create_session" sid])%list |}).
Proof. reflexivity. Qed.

Lemma get_messages_eq session_id w :
  get_messages session_id w
  = (Ok (turns (mem w) session_id), logged w (EvStore "get_messages" session_id)).
Proof.
  unfold get_messages, try_except, bind, emit, get_mem, ret, turns, logged.
  cbn [mem log]. now destruct (_store (mem w) !! session_id).
Qed.

Lemma get_quiz_answers_eq session_id w :
  get_quiz_answers session_id w
  = (Ok (default PNone (_quiz_answers (mem w) !! session_id)),
     logged w (EvStore "get_quiz_answers" session_id)).
Proof. reflexivity. Qed.

(** A turn built by [ChatMessage_dict] is appended to its session. *)
Lemma add_message_turn session_id role c timestamp w :
  let turn := PDict [("role", PStr role); ("content", PStr c);
                     ("timestamp", PInt timestamp)] in
  add_message session_id turn w
  = (Ok tt,
     {| mem := {| _store := <[session_id := (turns (mem w) session_id ++ [turn])%list]>
                              (_store (mem w));
                  _quiz_answers := _quiz_answers (mem w) |};
        log := (log w ++ [EvStore "add_message" session_id])%list |}).
Proof.
  cbv zeta. destruct w as [[st qa] l].
  unfold turns. cbn [mem _store _quiz_answers log].
  cbv beta iota zeta delta
    [add_message try_except bind emit get_mem set_turns put_mem raise ret lift
     mem log _store _quiz_answers fst snd].
  destruct (st !! session_id) as [ts|] eqn:Hs.
  - change (valid_message _) with true. cbv beta iota.
    rewrite Hs. reflexivity.
  - change (valid_message _) with true. cbv beta iota.
    rewrite lookup_insert_eq. cbn [default from_option id].
    rewrite insert_insert_eq. reflexivity.
Qed.

End StoreEquations.

(* ===================================================================== *)
(** ** Orchestrator and route: bad tool arguments *)
(* ===================================================================== *)

Section BadArguments.

Variable env : Env.





End BadArguments.

(* ===================================================================== *)
(** ** Route: a request without message *)
(* ===================================================================== *)

(** C9, what the code does.  A request without message (its message, taken
    from ['message'] or else from the last entry of ['messages'], is absent
    or empty, or cannot be read at all) is refused before anything else
    happens: the world is left exactly as it was, so there is no model call,
    no access to the session store and no change of state.  But the refusal
    does not reach the caller as the missing-message error: the 422 that the
    route raises for an absent or empty message is raised inside the [try]
    of the route, whose handler hands every exception on as a 500; the
    caller receives a 500 that quotes the 422, and a plain 500 when the
    message could not be read. *)
Theorem missing_message_is_rejected_first env data w :
  without_message data ->
  (exists detail, chat env data w = (Raise (HTTPException 500 detail), w)) /\
  (forall d message,
      data = PDict d ->
      resolve_message d = Ok message ->
      chat_body env data w
      = (Raise (HTTPException 422 missing_message_detail), w) /\
      chat env data w
      = (Raise (HTTPException 500
                  ("Error processing chat request: "
                   +:+ str_exn env (HTTPException 422 missing_message_detail))),
         w)) /\
  mem (after (chat env data) w) = mem w /\
  log (after (chat env data) w) = log w.
Proof.
  unfold without_message, request_message. intros Hnone.
  assert (Hbody : exists e, chat_body env data w = (Raise e, w) /\
                            forall d message,
                              data = PDict d -> resolve_message d = Ok message ->
                              e = HTTPException 422 missing_message_detail).
  { destruct data as [| | | | | |d];
      try (exists AttributeError; split; [reflexivity|discriminate]).
    destruct (resolve_message d) as [message|e] eqn:Hres.
    - exists (HTTPException 422 missing_message_detail). split; [|reflexivity].
      unfold chat_body. unfold bind at 1. unfold lift at 1. rewrite Hres.
      rewrite Hnone. reflexivity.
    - exists e. split.
      + unfold chat_body. unfold bind at 1. unfold lift at 1. now rewrite Hres.
      + intros d' message Hd Hr. injection Hd as <-. rewrite Hres in Hr.
        discriminate. }
  destruct Hbody as (e & Hbody & He).
  assert (Hchat : chat env data w
                  = (Raise (HTTPException 500
                              ("Error processing chat request: " +:+ str_exn env e)),
                     w)).
  { unfold chat, try_except. now rewrite Hbody. }
  split; [eexists; exact Hchat|]. split.
  - intros d message Hd Hres. rewrite <- (He d message Hd Hres).
    split; [exact Hbody|exact Hchat].
  - unfold after. rewrite Hchat. split; reflexivity.
Qed.

Lemma missing_message_is_rejected_first_witness :
  (without_message (PDict []) /\
   chat env_direct (PDict []) init_world
   = (Raise (HTTPException 500
               ("Error processing chat request: "
                +:+ str_exn env_direct
                      (HTTPException 422 missing_message_detail))),
      init_world)) /\
  (without_message (PDict [("messages", PList [PStr "hello"])]) /\
   exists detail,
     chat env_direct (PDict [("messages", PList [PStr "hello"])]) init_world
     = (Raise (HTTPException 500 detail), init_world)).
Proof.
  split; [split; [reflexivity|]|split; [exact I|]].
  - apply (proj2 (proj1 (proj2 (missing_message_is_rejected_first env_direct
                                  (PDict []) init_world eq_refl))
                    [] PNone eq_refl eq_refl)).
  - apply (proj1 (missing_message_is_rejected_first env_direct
                    (PDict [("messages", PList [PStr "hello"])]) init_world I)).
Defined.

(* ===================================================================== *)
(** ** The message list of the first generation call *)
(* ===================================================================== *)

Section MessageList.

Lemma format_history_app prior history turn m :
  format_history prior = Ok history ->
  role_content turn = Ok m ->
  format_history (prior ++ [turn]) = Ok (history ++ [m])%list.
Proof.
  revert history. induction prior as [|p prior IH]; intros history Hp Ht.
  - simpl in *. injection Hp as <-. now rewrite Ht.
  - simpl in *. destruct (role_content p) as [mp|]; [|discriminate].
    cbn [rbind] in *.
    destruct (format_history prior) as [h|]; [|discriminate].
    cbn [rbind] in *. injection Hp as <-.
    now rewrite (IH h eq_refl Ht).
Qed.

(** [_format_messages] by itself: the system turn, the history reduced to
    role and content, the new user turn once. *)
Lemma format_messages_shape message chat_history system_prompt history :
  format_history chat_history = Ok history ->
  system_prompt <> EmptyString ->
  _format_messages message chat_history (Some system_prompt)
  = Ok (RoleContent (PStr "system") (PStr system_prompt)
        :: history ++ [RoleContent (PStr "user") (PStr message)])%list.
Proof.
  intros Hh Hsp. unfold _format_messages. rewrite Hh.
  apply String.eqb_neq in Hsp. now rewrite Hsp.
Qed.

(** The route stores the new turn before it reads the history, so the
    history it passes on already ends with that turn. *)
Lemma format_messages_after_store message prior system_prompt history timestamp :
  format_history prior = Ok history ->
  system_prompt <> EmptyString ->
  _format_messages message
    (prior ++ [PDict [("role", PStr "user"); ("content", PStr message);
                      ("timestamp", PInt timestamp)]])
    (Some system_prompt)
  = Ok (RoleContent (PStr "system") (PStr system_prompt)
        :: history ++ [RoleContent (PStr "user") (PStr message);
                       RoleContent (PStr "user") (PStr message)])%list.
Proof.
  intros Hh Hsp.
  rewrite (format_messages_shape message _ system_prompt
             (history ++ [RoleContent (PStr "user") (PStr message)])%list);
    trivial.
  - now rewrite <- app_assoc.
  - now apply format_history_app.
Qed.

End MessageList.

(* ===================================================================== *)
(** ** Growth of the log *)
(* ===================================================================== *)

Section LogGrowth.

Context {A B : Type}.

Lemma grows_ret (a : A) : grows (ret a).
Proof. intros w. exists []. simpl. now rewrite app_nil_r. Qed.

Lemma grows_raise e : grows (@raise A e).
Proof. intros w. exists []. simpl. now rewrite app_nil_r. Qed.

Lemma grows_lift (r : Result A) : grows (lift r).
Proof. intros w. exists []. simpl. now rewrite app_nil_r. Qed.

Lemma grows_call ev (oracle : list Event -> Result A) : grows (call ev oracle).
Proof. intros w. now exists [ev]. Qed.

Lemma grows_bind (m : M A) (k : A -> M B) :
  grows m -> (forall a, grows (k a)) -> grows (bind m k).
Proof.
  intros Hm Hk w. unfold bind. destruct (Hm w) as [r1 H1].
  destruct (m w) as [[a|e] w1]; cbn [snd] in *.
  - destruct (Hk a w1) as [r2 H2]. exists (r1 ++ r2)%list.
    now rewrite H2, H1, app_assoc.
  - now exists r1.
Qed.

Lemma grows_try_except (m : M A) (h : Exn -> M A) :
  grows m -> (forall e, grows (h e)) -> grows (try_except m h).
Proof.
  intros Hm Hh w. unfold try_except. destruct (Hm w) as [r1 H1].
  destruct (m w) as [[a|e] w1]; cbn [snd] in *.
  - now exists r1.
  - destruct (Hh e w1) as [r2 H2]. exists (r1 ++ r2)%list.
    now rewrite H2, H1, app_assoc.
Qed.

Lemma bind_call_log ev (oracle : list Event -> Result A) (k : A -> M B) w :
  (forall a, grows (k a)) ->
  exists rest, log (snd (bind (call ev oracle) k w)) = (log w ++ ev :: rest)%list.
Proof.
  intros Hk. unfold bind, call. destruct (oracle (log w)) as [a|e].
  - destruct (Hk a {| mem := mem w; log := (log w ++ [ev])%list |}) as [rest H].
    exists rest. rewrite H. cbn [log]. now rewrite <- app_assoc.
  - now exists [].
Qed.

Lemma snd_try_reraise (m : M A) w :
  snd (try_except m (fun e => raise e) w) = snd (m w).
Proof. unfold try_except, raise. now destruct (m w) as [[a|e] w1]. Qed.

End LogGrowth.

Section OrchestratorLog.

Variable env : Env.

Lemma grows_query_qdrant query_vector limit filters :
  grows (query_qdrant env query_vector limit filters).
Proof.
  unfold query_qdrant.
  apply grows_try_except; [|intros e; apply grows_raise].
  apply grows_bind; [apply grows_call|intros collection_dim].
  apply grows_bind.
  - destruct (collection_dim =? _); [apply grows_ret|apply grows_raise].
  - intros _. apply grows_bind; [apply grows_lift|intros search_filter].
    apply grows_bind; [apply grows_call|intros hits; apply grows_ret].
Qed.

Lemma grows_handle_function_call function_name function_args :
  grows (_handle_function_call env function_name function_args).
Proof.
  unfold _handle_function_call.
  destruct (String.eqb function_name "query_supplements"); [|apply grows_ret].
  apply grows_bind; [apply grows_lift|intros question].
  destruct (negb (truthy question)); [apply grows_ret|].
  apply grows_try_except; [|intros e; apply grows_ret].
  apply grows_bind; [apply grows_call|intros v; apply grows_query_qdrant].
Qed.

(** An attempt opens with the generation call on the formatted messages. *)
Lemma body_log message chat_history client_id system_prompt messages w :
  _format_messages message chat_history system_prompt = Ok messages ->
  exists rest,
    log (snd (generate_chat_response_body env message chat_history client_id
                system_prompt w))
    = (log w ++ EvGenerate messages true :: rest)%list.
Proof.
  intros Hf. unfold generate_chat_response_body.
  rewrite snd_try_reraise. unfold bind at 1, lift at 1. rewrite Hf.
  apply bind_call_log.
  intros choices. apply grows_bind; [apply grows_lift|intros m].
  destruct (cm_function_call m) as [fc|].
  - apply grows_bind; [apply grows_lift|intros function_args].
    apply grows_bind; [apply grows_handle_function_call|intros items].
    apply grows_bind; [apply grows_call|intros choices2].
    apply grows_bind; [apply grows_lift|intros reply].
    apply grows_bind; [apply grows_lift|intros text]. apply grows_ret.
  - apply grows_bind; [apply grows_lift|intros text]. apply grows_ret.
Qed.

Lemma generate_log message chat_history client_id system_prompt messages w :
  _format_messages message chat_history system_prompt = Ok messages ->
  exists rest,
    log (snd (generate_chat_response env message chat_history client_id
                system_prompt w))
    = (log w ++ EvGenerate messages true :: rest)%list.
Proof.
  intros Hf. unfold generate_chat_response. rewrite retry_three_attempts.
  pose proof (fun w0 => body_log message chat_history client_id system_prompt
                          messages w0 Hf) as Hb.
  destruct (Hb w) as [r1 H1].
  destruct (generate_chat_response_body _ _ _ _ _ w) as [[r|e1] w1];
    cbn [snd] in *; [now exists r1|].
  destruct (Hb (logged w1 (EvSleep 4))) as [r2 H2].
  destruct (generate_chat_response_body _ _ _ _ _ (logged w1 _)) as [[r|e2] w2];
    cbn [snd logged log] in *.
  { eexists. rewrite H2, H1. rewrite <- !app_assoc. reflexivity. }
  destruct (Hb (logged w2 (EvSleep 4))) as [r3 H3].
  destruct (generate_chat_response_body _ _ _ _ _ (logged w2 _)) as [[r|e3] w3];
    cbn [snd logged log] in *;
    eexists; rewrite H3, H2, H1; rewrite <- !app_assoc; reflexivity.
Qed.

End OrchestratorLog.

(* ===================================================================== *)
(** ** Route: what the first generation call receives *)
(* ===================================================================== *)

Section FirstCall.

Variable env : Env.

Lemma returns_try_either {A} (m : M A) (h : Exn -> M A) w (P : A -> World -> Prop) :
  (forall a w1, m w = (Ok a, w1) -> P a w1) ->
  (forall e w1, m w = (Raise e, w1) -> returns (h e) w1 P) ->
  returns (try_except m h) w P.
Proof.
  intros Hok Hraise. unfold returns, try_except.
  destruct (m w) as [[a|e] w1] eqn:E.
  - exists a, w1. split; [reflexivity|now apply Hok].
  - exact (Hraise e w1 eq_refl).
Qed.

(** The session of the request once the route has settled it. *)
Lemma chat_session d w1 :
  session_id_usable d ->
  returns
    (if truthy (dict_get "session_id" d)
     then lift (session_key (dict_get "session_id" d))
     else create_session env (dict_get "client_id" d))
    w1
    (fun sid w2 =>
       _quiz_answers (mem w2) = _quiz_answers (mem w1) /\
       turns (mem w2) sid = prior_turns d w1 /\
       exists pre, log w2 = (log w1 ++ pre)%list /\
                   count_events is_generate pre = O).
Proof.
  unfold prior_turns. intros [(sid & Hs & Hne)|Hs].
  - rewrite Hs. simpl. apply String.eqb_neq in Hne. rewrite Hne. simpl.
    eapply returns_lift; [reflexivity|].
    repeat split. exists []. now rewrite app_nil_r.
  - rewrite Hs. eapply returns_eq; [apply create_session_eq|].
    cbn [mem log _store _quiz_answers]. repeat split.
    + unfold turns. cbn [_store]. now rewrite lookup_insert_eq.
    + eexists. rewrite <- app_assoc. split; reflexivity.
Qed.

(** For a request with a text message, with a usable session and without
    quiz answers, the first generation call of the request receives the
    system turn, the prior turns reduced to role and content, and then the
    new user turn twice. *)
Lemma chat_first_generation_call d w text history :
  resolve_message d = Ok (PStr text) ->
  text <> EmptyString ->
  session_id_usable d ->
  truthy (dict_get "quiz_answers" d) = false ->
  no_quiz_answers w ->
  format_history (prior_turns d w) = Ok history ->
  returns (chat env (PDict d)) w
    (fun _ w' =>
       first_call_is w
         (RoleContent (PStr "system") (PStr base_prompt)
          :: history ++ [RoleContent (PStr "user") (PStr text);
                         RoleContent (PStr "user") (PStr text)])%list
         w').
Proof.
  intros Hres Htext Hsid Hquiz Hnq Hhist.
  assert (Htruthy : truthy (PStr text) = true).
  { simpl. apply String.eqb_neq in Htext. now rewrite Htext. }
  match goal with |- returns _ _ ?P0 => set (P := P0) end.
  cut (returns (chat_body env (PDict d)) w P).
  { intros (r & w' & Hb & HP). exists r, w'. split; [|exact HP].
    unfold chat, try_except. now rewrite Hb. }
  unfold chat_body.
  apply returns_bind. eapply returns_lift; [exact Hres|].
  rewrite Htruthy. cbn [negb].
  apply returns_bind, returns_ret.
  apply returns_bind. eapply returns_call; [reflexivity|].
  apply returns_bind. eapply returns_lift; [reflexivity|].
  apply returns_bind.
  destruct (chat_session d (logged w EvUtcnow) Hsid)
    as (sid & w2 & Hs & Hq2 & Hturns & pre2 & Hlog2 & Hpre2).
  eapply returns_eq; [exact Hs|]. clear Hs.
  change (prior_turns d (logged w EvUtcnow)) with (prior_turns d w) in Hturns.
  cbn [logged mem log] in Hq2, Hlog2.
  apply returns_bind. eapply returns_eq; [apply add_message_turn|].
  rewrite Hquiz.
  apply returns_bind, returns_ret.
  apply returns_bind. eapply returns_eq; [apply get_messages_eq|].
  apply returns_bind. eapply returns_eq; [apply get_quiz_answers_eq|].
  cbn [logged mem _quiz_answers _store log].
  unfold no_quiz_answers in Hnq. rewrite Hq2, Hnq, lookup_empty.
  cbn [default from_option id].
  apply returns_bind. eapply returns_lift; [reflexivity|].
  unfold turns at 1. cbn [_store]. rewrite lookup_insert_eq.
  cbn [default from_option id]. rewrite Hturns.
  set (user_turn := PDict [("role", PStr "user"); ("content", PStr text);
                           ("timestamp", PInt (utcnow env (log w)))]).
  set (messages := (RoleContent (PStr "system") (PStr base_prompt)
                    :: history ++ [RoleContent (PStr "user") (PStr text);
                                   RoleContent (PStr "user") (PStr text)])%list).
  assert (Hfmt : _format_messages text (prior_turns d w ++ [user_turn])
                   (Some base_prompt) = Ok messages).
  { apply format_messages_after_store; [exact Hhist|discriminate]. }
  apply returns_bind.
  match goal with
  | |- returns (try_except ?gen _) ?w5 _ =>
      destruct (generate_log env text (prior_turns d w ++ [user_turn])
                  (dict_get "client_id" d) (Some base_prompt) messages w5 Hfmt)
        as [rest Hrest];
      assert (Hstep : forall (r : ChatResponse) w6, snd (gen w5) = w6 ->
                returns
                  (let* now := call EvUtcnow (fun l => Ok (utcnow env l)) in
                   let* assistant_message :=
                     lift (ChatMessage_dict "assistant" (PStr (content r)) now) in
                   add_message sid assistant_message ;; ret r)
                  w6 P)
  end.
  { intros r w6 Hw6.
    apply returns_bind. eapply returns_call; [reflexivity|].
    apply returns_bind. eapply returns_lift; [reflexivity|].
    apply returns_bind. eapply returns_eq; [apply add_message_turn|].
    apply returns_ret. unfold P, first_call_is. cbn [logged log].
    rewrite <- Hw6, Hrest. unfold logged. cbn [log mem]. rewrite Hlog2.
    exists (EvUtcnow :: pre2 ++ [EvStore "add_message" sid;
                                 EvStore "get_messages" sid;
                                 EvStore "get_quiz_answers" sid])%list.
    exists (rest ++ [EvUtcnow; EvStore "add_message" sid])%list. split.
    - repeat (rewrite <- app_assoc; cbn [app]). reflexivity.
    - cbn [count_events is_generate]. rewrite count_events_app, Hpre2.
      reflexivity. }
  apply returns_try_either.
  - intros r w6 Hg. exact (Hstep r w6 ltac:(now rewrite Hg)).
  - intros e w6 Hg. apply returns_ret.
    exact (Hstep fallback_response w6 ltac:(now rewrite Hg)).
Qed.

End FirstCall.

(** C6, the run that contradicts it.  For the request
    [{"message": "I have trouble sleeping"}] on a fresh store, the message
    list of the first generation call is the system turn followed by the
    user turn twice: once as the history read back from the store, once as
    the new message. *)
Theorem chat_sends_user_turn_twice :
  first_generate
    (log (after (chat env_direct
                   (PDict [("message", PStr "I have trouble sleeping")]))
            init_world))
  = Some [RoleContent (PStr "system") (PStr base_prompt);
          RoleContent (PStr "user") (PStr "I have trouble sleeping");
          RoleContent (PStr "user") (PStr "I have trouble sleeping")].
Proof. vm_compute. reflexivity. Qed.


(* ===================================================================== *)
(** ** Session store: what each call does to the store *)
(* ===================================================================== *)

Section StoreCalls.

Lemma dict_contains_lookup key d :
  dict_contains key d = true -> exists v, dict_lookup key d = Some v.
Proof.
  unfold dict_contains. destruct (dict_lookup key d) as [v|]; [eauto|discriminate].
Qed.

(** A message that passes the validation is appended; the outcome is the one
    of the debug line that slices its content. *)
Lemma add_message_valid session_id d c w :
  dict_contains "role" d = true ->
  dict_lookup "content" d = Some c ->
  add_message session_id (PDict d) w
  = (py_sliceable c, appended session_id (PDict d) w).
Proof.
  intros Hrole Hcontent.
  destruct (dict_contains_lookup _ _ Hrole) as [r Hr].
  assert (Hvalid : valid_message (PDict d) = true).
  { unfold valid_message, dict_contains. now rewrite Hr, Hcontent. }
  destruct w as [[st qa] l]. unfold appended, turns.
  cbn [mem _store _quiz_answers log].
  cbv beta iota zeta delta
    [add_message try_except bind emit get_mem set_turns put_mem raise ret lift
     mem log _store _quiz_answers fst snd].
  unfold py_subscript. rewrite Hr, Hcontent.
  destruct (st !! session_id) as [ts|] eqn:Hs; rewrite Hvalid; cbv beta iota.
  - rewrite Hs. now destruct (py_sliceable c).
  - rewrite lookup_insert_eq. cbn [default from_option id].
    rewrite insert_insert_eq. now destruct (py_sliceable c).
Qed.

Lemma add_message_invalid session_id message w :
  valid_message message = false ->
  add_message session_id message w
  = (Raise (ValueError "Message must be a dict with 'role' and 'content' keys"),
     {| mem := {| _store := match _store (mem w) !! session_id with
                            | Some _ => _store (mem w)
                            | None => <[session_id := []]> (_store (mem w))
                            end;
                  _quiz_answers := _quiz_answers (mem w) |};
        log := (log w ++ [EvStore "add_message" session_id])%list |}).
Proof.
  intros Hbad. destruct w as [[st qa] l].
  cbn [mem _store _quiz_answers log].
  cbv beta iota zeta delta
    [add_message try_except bind emit get_mem set_turns put_mem raise ret lift
     mem log _store _quiz_answers fst snd].
  destruct (st !! session_id) as [ts|]; rewrite Hbad; reflexivity.
Qed.

Lemma clear_session_eq session_id w :
  clear_session session_id w
  = (Ok tt,
     {| mem := {| _store := match _store (mem w) !! session_id with
                            | Some _ => <[session_id := []]> (_store (mem w))
                            | None => _store (mem w)
                            end;
                  _quiz_answers := _quiz_answers (mem w) |};
        log := (log w ++ [EvStore "clear_session" session_id])%list |}).
Proof.
  destruct w as [[st qa] l]. cbn [mem _store _quiz_answers log].
  cbv beta iota zeta delta
    [clear_session try_except bind emit get_mem set_turns put_mem raise ret
     mem log _store _quiz_answers fst snd].
  now destruct (st !! session_id).
Qed.

Lemma store_quiz_answers_eq session_id answers w :
  store_quiz_answers session_id answers w
  = (if is_mapping answers then Ok tt
     else Raise (ValueError "Answers must be a dictionary"),
     {| mem := {| _store := _store (mem w);
                  _quiz_answers :=
                    if is_mapping answers
                    then <[session_id := answers]> (_quiz_answers (mem w))
                    else _quiz_answers (mem w) |};
        log := (log w ++ [EvStore "store_quiz_answers" session_id])%list |}).
Proof.
  destruct w as [[st qa] l]. now destruct answers.
Qed.

Lemma get_all_sessions_eq w :
  get_all_sessions w
  = (Ok (map fst (map_to_list (_store (mem w)))),
     logged w (EvStore "get_all_sessions" EmptyString)).
Proof. reflexivity. Qed.

Lemma storable_valid message :
  storable message = true -> valid_message message = true.
Proof.
  destruct message as [| | | | | |d]; try discriminate. simpl.
  unfold dict_contains.
  destruct (dict_lookup "role" d); [|discriminate].
  now destruct (dict_lookup "content" d).
Qed.

Lemma add_message_storable session_id message w :
  storable message = true ->
  add_message session_id message w = (Ok tt, appended session_id message w).
Proof.
  destruct message as [| | | | | |d]; try discriminate. simpl.
  intros H. apply andb_true_iff in H as [Hrole Hc].
  destruct (dict_lookup "content" d) as [c|] eqn:Hcontent; [|discriminate].
  rewrite (add_message_valid session_id d c w Hrole Hcontent).
  now destruct c.
Qed.

End StoreCalls.

Section StoreInvariants.

Variable env : Env.

Lemma valid_message_inv message :
  valid_message message = true ->
  exists d c, message = PDict d /\ dict_contains "role" d = true /\
              dict_lookup "content" d = Some c.
Proof.
  destruct message as [| | | | | |d]; try discriminate. simpl.
  intros H. apply andb_true_iff in H as [Hr Hc].
  destruct (dict_contains_lookup _ _ Hc) as [c Hc']. now exists d, c.
Qed.

(** Whatever its outcome, [add_message] with a valid message leaves the
    store with the message appended. *)
Lemma add_message_valid_world session_id message w :
  valid_message message = true ->
  snd (add_message session_id message w) = appended session_id message w.
Proof.
  intros H. destruct (valid_message_inv _ H) as (d & c & -> & Hr & Hc).
  now rewrite (add_message_valid session_id d c w Hr Hc).
Qed.

Lemma well_formed_insert_turns m session_id ts :
  store_well_formed m ->
  Forall (fun t => valid_message t = true) ts ->
  store_well_formed {| _store := <[session_id := ts]> (_store m);
                       _quiz_answers := _quiz_answers m |}.
Proof.
  intros [Hturns Hquiz] Hts. split; cbn [_store _quiz_answers]; [|exact Hquiz].
  intros sid ts' Hl. destruct (decide (session_id = sid)) as [->|Hne].
  - rewrite lookup_insert_eq in Hl. now injection Hl as <-.
  - rewrite lookup_insert_ne in Hl by exact Hne. exact (Hturns sid ts' Hl).
Qed.

Lemma kept_insert_turns m session_id ts :
  sessions_kept m {| _store := <[session_id := ts]> (_store m);
                     _quiz_answers := _quiz_answers m |}.
Proof.
  intros sid Hs. cbn [_store]. destruct (decide (session_id = sid)) as [->|Hne].
  - rewrite lookup_insert_eq. eauto.
  - now rewrite lookup_insert_ne.
Qed.

Lemma well_formed_turns m session_id :
  store_well_formed m -> Forall (fun t => valid_message t = true) (turns m session_id).
Proof.
  intros [Hturns _]. unfold turns.
  destruct (_store m !! session_id) as [ts|] eqn:Hl; simpl; [eauto|constructor].
Qed.

Lemma store_record_eta m :
  {| _store := _store m; _quiz_answers := _quiz_answers m |} = m.
Proof. now destruct m. Qed.

Lemma run_call_keeps c w :
  store_well_formed (mem w) ->
  store_well_formed (mem (snd (run_call env c w))) /\
  sessions_kept (mem w) (mem (snd (run_call env c w))).
Proof.
  intros Hwf. destruct c as [cid|sid msg|sid|sid| |sid answers|sid];
    cbn [run_call].
  - unfold bind. rewrite create_session_eq. cbn [snd ret mem].
    split; [apply well_formed_insert_turns; [exact Hwf|constructor]
           |apply kept_insert_turns].
  - destruct (valid_message msg) eqn:Hv.
    + rewrite add_message_valid_world by exact Hv. unfold appended. cbn [mem].
      split; [|apply kept_insert_turns].
      apply well_formed_insert_turns; [exact Hwf|].
      apply Forall_app. split; [now apply well_formed_turns|].
      now repeat constructor.
    + rewrite add_message_invalid by exact Hv. cbn [snd mem].
      destruct (_store (mem w) !! sid) as [ts|] eqn:Hl.
      * rewrite store_record_eta. split; [exact Hwf|now intros s].
      * split; [apply well_formed_insert_turns; [exact Hwf|constructor]
               |apply kept_insert_turns].
  - unfold bind. rewrite get_messages_eq. cbn [snd ret logged mem].
    split; [exact Hwf|now intros s].
  - rewrite clear_session_eq. cbn [snd mem].
    destruct (_store (mem w) !! sid) as [ts|] eqn:Hl.
    + split; [apply well_formed_insert_turns; [exact Hwf|constructor]
             |apply kept_insert_turns].
    + rewrite store_record_eta. split; [exact Hwf|now intros s].
  - unfold bind. rewrite get_all_sessions_eq. cbn [snd ret logged mem].
    split; [exact Hwf|now intros s].
  - rewrite store_quiz_answers_eq. cbn [snd mem].
    split; [|now intros s].
    destruct Hwf as [Hturns Hquiz]. split; cbn [_store _quiz_answers];
      [exact Hturns|].
    intros s v Hl. destruct (is_mapping answers) eqn:Hm; [|exact (Hquiz s v Hl)].
    destruct (decide (sid = s)) as [->|Hne].
    + rewrite lookup_insert_eq in Hl. now injection Hl as <-.
    + rewrite lookup_insert_ne in Hl by exact Hne. exact (Hquiz s v Hl).
  - unfold bind. rewrite get_quiz_answers_eq. cbn [snd ret logged mem].
    split; [exact Hwf|now intros s].
Qed.

Lemma run_calls_cons c cs w :
  run_calls env (c :: cs) w = run_calls env cs (snd (run_call env c w)).
Proof.
  cbn [run_calls]. unfold bind, try_except, ret.
  now destruct (run_call env c w) as [[u|e] w1].
Qed.

End StoreInvariants.

(** X1.  Whatever calls a client makes on the store, in whatever order and
    whether they raise or not, a store that starts well formed stays so:
    every stored turn is a dict with a 'role' and a 'content' key, and every
    stored set of quiz answers is a mapping; and no session ever
    disappears. *)
Theorem store_calls_keep_the_store_well_formed env cs w :
  store_well_formed (mem w) ->
  store_well_formed (mem (after (run_calls env cs) w)) /\
  sessions_kept (mem w) (mem (after (run_calls env cs) w)).
Proof.
  unfold after. revert w. induction cs as [|c cs IH]; intros w Hwf.
  - split; [exact Hwf|now intros s].
  - rewrite run_calls_cons.
    destruct (run_call_keeps env c w Hwf) as [Hwf1 Hk1].
    destruct (IH _ Hwf1) as [Hwf2 Hk2].
    split; [exact Hwf2|]. intros s Hs. apply Hk2, Hk1, Hs.
Qed.

Lemma store_calls_keep_the_store_well_formed_witness :
  let cs := [AddMessage "s1" (PDict [("role", PStr "user")]);
             StoreQuizAnswers "s1" (PList [PStr "x"]);
             AddMessage "s1" (PDict [("role", PStr "user"); ("content", PNone)]);
             ClearSession "s1"] in
  store_well_formed (mem init_world) /\
  store_well_formed (mem (after (run_calls env_direct cs) init_world)) /\
  sessions_kept (mem init_world) (mem (after (run_calls env_direct cs) init_world)).
Proof.
  cbv zeta.
  assert (H : store_well_formed (mem init_world)).
  { split; intros sid x Hl; cbn in Hl; rewrite lookup_empty in Hl; discriminate. }
  split; [exact H|].
  exact (store_calls_keep_the_store_well_formed env_direct _ init_world H).
Defined.

(** X2.  Reading never changes the store: [get_messages], [get_quiz_answers]
    and [get_all_sessions] leave both dictionaries as they are; for a session
    that does not exist [get_messages] returns the empty list without
    creating it, and [get_quiz_answers] returns [None]. *)
Theorem reading_leaves_the_store_unchanged session_id w :
  outcome (get_messages session_id) w
  = Ok (default [] (_store (mem w) !! session_id)) /\
  outcome (get_quiz_answers session_id) w
  = Ok (default PNone (_quiz_answers (mem w) !! session_id)) /\
  mem (after (get_messages session_id) w) = mem w /\
  mem (after (get_quiz_answers session_id) w) = mem w /\
  mem (after get_all_sessions w) = mem w.
Proof.
  unfold outcome, after.
  rewrite get_messages_eq, get_quiz_answers_eq, get_all_sessions_eq.
  repeat split.
Qed.

Section AddAll.

Lemma turns_appended_same session_id message w :
  turns (mem (appended session_id message w)) session_id
  = (turns (mem w) session_id ++ [message])%list.
Proof. unfold appended, turns. cbn [mem _store]. now rewrite lookup_insert_eq. Qed.

Lemma turns_appended_other session_id message w sid' :
  sid' <> session_id ->
  turns (mem (appended session_id message w)) sid' = turns (mem w) sid'.
Proof.
  intros Hne. unfold appended, turns. cbn [mem _store].
  rewrite lookup_insert_ne; [reflexivity|congruence].
Qed.

Lemma add_all_storable session_id ts w :
  Forall (fun t => storable t = true) ts ->
  exists w',
    add_all session_id ts w = (Ok tt, w') /\
    turns (mem w') session_id = (turns (mem w) session_id ++ ts)%list /\
    (forall sid', sid' <> session_id -> turns (mem w') sid' = turns (mem w) sid') /\
    _quiz_answers (mem w') = _quiz_answers (mem w).
Proof.
  intros Hts. revert w. induction Hts as [|t ts Ht Hts IH]; intros w.
  - exists w. cbn [add_all]. rewrite app_nil_r. repeat split.
  - destruct (IH (appended session_id t w)) as (w' & Hrun & Hsame & Hother & Hq).
    exists w'. cbn [add_all]. unfold bind.
    rewrite (add_message_storable session_id t w Ht). repeat split.
    + exact Hrun.
    + rewrite Hsame, turns_appended_same, <- app_assoc. reflexivity.
    + intros sid' Hne. rewrite (Hother sid' Hne).
      now apply turns_appended_other.
    + rewrite Hq. reflexivity.
Qed.

End AddAll.

(** X3.  Turns are kept in call order: after [add_message] has been called
    for each turn of a list (dicts with both keys whose content is a text or
    a list), none of the calls has raised, [get_messages] returns the turns
    the session had before followed by the new ones in the order of the
    calls, and the other sessions and the quiz answers are untouched.  For a
    session that did not exist the result is the new turns alone. *)
Theorem add_message_keeps_call_order session_id ts w :
  Forall (fun t => storable t = true) ts ->
  let w' := after (add_all session_id ts) w in
  outcome (add_all session_id ts) w = Ok tt /\
  outcome (get_messages session_id) w'
  = Ok (default [] (_store (mem w) !! session_id) ++ ts)%list /\
  (forall sid', sid' <> session_id ->
                outcome (get_messages sid') w' = outcome (get_messages sid') w) /\
  _quiz_answers (mem w') = _quiz_answers (mem w).
Proof.
  intros Hts. cbv zeta. unfold outcome, after.
  destruct (add_all_storable session_id ts w Hts) as (w' & Hrun & Hsame & Hother & Hq).
  rewrite Hrun. cbn [fst snd]. rewrite !get_messages_eq. cbn [fst].
  repeat split.
  - now rewrite Hsame.
  - intros sid' Hne. rewrite !get_messages_eq. cbn [fst].
    now rewrite (Hother sid' Hne).
  - exact Hq.
Qed.

Lemma add_message_keeps_call_order_witness :
  let t1 := PDict [("role", PStr "user"); ("content", PStr "hello")] in
  let t2 := PDict [("role", PStr "assistant"); ("content", PStr "hi")] in
  Forall (fun t => storable t = true) [t1; t2] /\
  outcome (get_messages "s1") (after (add_all "s1" [t1; t2]) init_world)
  = Ok [t1; t2].
Proof.
  cbv zeta.
  assert (H : Forall (fun t => storable t = true)
                [PDict [("role", PStr "user"); ("content", PStr "hello")];
                 PDict [("role", PStr "assistant"); ("content", PStr "hi")]]).
  { repeat constructor. }
  split; [exact H|].
  exact (proj1 (proj2 (add_message_keeps_call_order "s1" _ init_world H))).
Defined.

(** X4.  A turn that has both keys but whose content is [None], a boolean
    or a number makes [add_message] raise [TypeError] (the debug line slices
    the content) after the turn has been appended: the call fails and the
    turn is in the history all the same. *)
Theorem add_message_fails_after_appending session_id message w :
  content_is_scalar message = true ->
  outcome (add_message session_id message) w = Raise TypeError /\
  outcome (get_messages session_id) (after (add_message session_id message) w)
  = Ok (default [] (_store (mem w) !! session_id) ++ [message])%list.
Proof.
  intros H. destruct message as [| | | | | |d]; try discriminate.
  simpl in H. apply andb_true_iff in H as [Hrole Hc].
  destruct (dict_lookup "content" d) as [c|] eqn:Hcontent; [|discriminate].
  unfold outcome, after.
  rewrite (add_message_valid session_id d c w Hrole Hcontent). cbn [fst snd].
  rewrite get_messages_eq. cbn [fst]. rewrite turns_appended_same.
  split; [|reflexivity].
  destruct c; try discriminate; reflexivity.
Qed.

Lemma add_message_fails_after_appending_witness :
  let turn := PDict [("role", PStr "user"); ("content", PNone)] in
  content_is_scalar turn = true /\
  outcome (add_message "s1" turn) init_world = Raise TypeError /\
  outcome (get_messages "s1") (after (add_message "s1" turn) init_world)
  = Ok [turn].
Proof.
  cbv zeta. split; [reflexivity|].
  exact (add_message_fails_after_appending "s1"
           (PDict [("role", PStr "user"); ("content", PNone)]) init_world eq_refl).
Defined.

(** X5.  A rejected [add_message] on a session that does not exist still
    creates the session: the call raises [ValueError], and afterwards the
    session is registered with no turns and is listed by
    [get_all_sessions]. *)
Theorem rejected_add_message_registers_the_session session_id message w :
  valid_message message = false ->
  _store (mem w) !! session_id = None ->
  let w' := after (add_message session_id message) w in
  outcome (add_message session_id message) w
  = Raise (ValueError "Message must be a dict with 'role' and 'content' keys") /\
  _store (mem w') !! session_id = Some [] /\
  (forall sessions, outcome get_all_sessions w' = Ok sessions ->
                    session_id ∈ sessions).
Proof.
  intros Hbad Hnew. cbv zeta. unfold outcome, after.
  rewrite (add_message_invalid session_id message w Hbad). cbn [fst snd mem _store].
  rewrite Hnew. split; [reflexivity|]. split; [apply lookup_insert_eq|].
  intros sessions Hs. rewrite get_all_sessions_eq in Hs. cbn [fst mem _store] in Hs.
  injection Hs as <-.
  apply list_elem_of_fmap. exists (session_id, []). split; [reflexivity|].
  apply elem_of_map_to_list. apply lookup_insert_eq.
Qed.

Lemma rejected_add_message_registers_the_session_witness :
  valid_message (PStr "hello") = false /\
  _store (mem init_world) !! "s1" = None /\
  _store (mem (after (add_message "s1" (PStr "hello")) init_world)) !! "s1"
  = Some [].
Proof.
  split; [reflexivity|]. split; [reflexivity|].
  exact (proj1 (proj2 (rejected_add_message_registers_the_session "s1"
                         (PStr "hello") init_world eq_refl eq_refl))).
Defined.

(** X6.  [clear_session] never raises.  It empties the turn list of an
    existing session and keeps the session registered; it leaves the store
    exactly as it was when the session does not exist (it does not create
    it); in both cases the other sessions and all quiz answers, those of the
    cleared session included, are untouched. *)
Theorem clear_session_resets_one_session session_id w :
  let w' := after (clear_session session_id) w in
  outcome (clear_session session_id) w = Ok tt /\
  _store (mem w') !! session_id = (fun _ => []) <$> (_store (mem w) !! session_id) /\
  outcome (get_messages session_id) w' = Ok [] /\
  (forall sid', sid' <> session_id ->
                _store (mem w') !! sid' = _store (mem w) !! sid') /\
  _quiz_answers (mem w') = _quiz_answers (mem w).
Proof.
  cbv zeta. unfold outcome, after. rewrite clear_session_eq. cbn [fst snd].
  rewrite get_messages_eq. cbn [fst mem _store _quiz_answers]. unfold turns.
  cbn [mem _store].
  destruct (_store (mem w) !! session_id) as [ts|] eqn:Hl; cbn [fmap option_fmap option_map].
  - rewrite lookup_insert_eq. repeat split.
    intros sid' Hne. rewrite lookup_insert_ne; [reflexivity|congruence].
  - rewrite Hl. repeat split.
Qed.

(** X7.  Quiz answers are validated and then round-trip: a mapping offered
    to [store_quiz_answers] is what [get_quiz_answers] returns for that
    session afterwards (a later offer replaces an earlier one), the answers of
    the other sessions and all turns being untouched; anything that is not a
    mapping is refused with [ValueError] and the store is left as it was. *)
Theorem quiz_answers_round_trip session_id answers w :
  let w' := after (store_quiz_answers session_id answers) w in
  (is_mapping answers = true ->
   outcome (store_quiz_answers session_id answers) w = Ok tt /\
   outcome (get_quiz_answers session_id) w' = Ok answers /\
   (forall sid', sid' <> session_id ->
                 outcome (get_quiz_answers sid') w' = outcome (get_quiz_answers sid') w) /\
   _store (mem w') = _store (mem w)) /\
  (is_mapping answers = false ->
   outcome (store_quiz_answers session_id answers) w
   = Raise (ValueError "Answers must be a dictionary") /\
   mem w' = mem w).
Proof.
  cbv zeta. unfold outcome, after. rewrite store_quiz_answers_eq. cbn [fst snd].
  split; intros Hm; rewrite Hm.
  - rewrite get_quiz_answers_eq. cbn [fst mem _quiz_answers _store].
    rewrite lookup_insert_eq. repeat split.
    intros sid' Hne. rewrite !get_quiz_answers_eq. cbn [fst mem _quiz_answers].
    rewrite lookup_insert_ne; [reflexivity|congruence].
  - split; [reflexivity|]. cbn [mem]. apply store_record_eta.
Qed.

Lemma quiz_answers_round_trip_witness :
  let answers := PDict [("health_goals", PList [PStr "sleep"])] in
  (is_mapping answers = true /\
   outcome (get_quiz_answers "s1")
     (after (store_quiz_answers "s1" answers) init_world) = Ok answers) /\
  (is_mapping (PList [PStr "sleep"]) = false /\
   outcome (store_quiz_answers "s1" (PList [PStr "sleep"])) init_world
   = Raise (ValueError "Answers must be a dictionary")).
Proof.
  cbv zeta. split; (split; [reflexivity|]).
  - exact (proj1 (proj2 (proj1 (quiz_answers_round_trip "s1"
                                  (PDict [("health_goals", PList [PStr "sleep"])])
                                  init_world) eq_refl))).
  - exact (proj1 (proj2 (quiz_answers_round_trip "s1" (PList [PStr "sleep"])
                           init_world) eq_refl)).
Defined.

(** X8.  [get_all_sessions] lists exactly the registered sessions, each
    once (the order of the list is not modelled).  A session made by
    [create_session] carries the identifier drawn from [uuid4], is listed at
    once and has no turns; the turns of every other session and all quiz
    answers are untouched by its creation. *)
Theorem sessions_are_listed_once env client_id w :
  (forall sessions, outcome get_all_sessions w = Ok sessions ->
     NoDup sessions /\
     forall sid, sid ∈ sessions <-> is_Some (_store (mem w) !! sid)) /\
  let w' := after (create_session env client_id) w in
  let session_id := uuid4 env (log w) in
  outcome (create_session env client_id) w = Ok session_id /\
  _store (mem w') !! session_id = Some [] /\
  (forall sessions, outcome get_all_sessions w' = Ok sessions ->
                    session_id ∈ sessions) /\
  (forall sid', sid' <> session_id ->
                _store (mem w') !! sid' = _store (mem w) !! sid') /\
  _quiz_answers (mem w') = _quiz_answers (mem w).
Proof.
  assert (Hlist : forall w0 sessions,
             outcome get_all_sessions w0 = Ok sessions ->
             NoDup sessions /\
             forall sid, sid ∈ sessions <-> is_Some (_store (mem w0) !! sid)).
  { intros w0 sessions Hs. unfold outcome in Hs. rewrite get_all_sessions_eq in Hs.
    cbn [fst] in Hs. injection Hs as <-. split.
    - apply NoDup_fst_map_to_list.
    - intros sid. rewrite list_elem_of_fmap. split.
      + intros ([k ts] & -> & Hin). apply elem_of_map_to_list in Hin.
        cbn [fst]. eauto.
      + intros [ts Hl]. exists (sid, ts). split; [reflexivity|].
        now apply elem_of_map_to_list. }
  split; [apply Hlist|].
  cbv zeta. unfold outcome at 1. unfold after.
  rewrite create_session_eq. cbn [fst snd mem _store _quiz_answers].
  split; [reflexivity|]. split; [apply lookup_insert_eq|]. split; [|split].
  - intros sessions Hs. apply (Hlist _ _ Hs). cbn [mem _store].
    rewrite lookup_insert_eq. eauto.
  - intros sid' Hne. rewrite lookup_insert_ne; [reflexivity|congruence].
  - reflexivity.
Qed.

Lemma sessions_are_listed_once_witness :
  outcome get_all_sessions
    (after (create_session env_direct PNone) init_world)
  = Ok [uuid4 env_direct []] /\
  uuid4 env_direct [] ∈ [uuid4 env_direct []].
Proof.
  split; [vm_compute; reflexivity|].
  apply (proj1 (proj2 (proj2 (proj2 (sessions_are_listed_once env_direct PNone
                                       init_world))))).
  vm_compute. reflexivity.
Defined.

(* ===================================================================== *)
(** ** Prompt builder: what it reads, what it can raise *)
(* ===================================================================== *)

Section PromptBuilderEdges.

Lemma append_line_cases label xs context :
  (exists line, append_line label xs context = Ok (context ++ line)%list) \/
  append_line label xs context = Raise TypeError.
Proof.
  unfold append_line. destruct (truthy xs).
  - destruct xs as [| | | |s|l|d]; simpl; try (now right);
      try (left; eexists; reflexivity).
    destruct (all_str l); [left; eexists; reflexivity|now right].
  - left. exists []. now rewrite app_nil_r.
Qed.

Lemma prompt_of_lines_prefix (context : list string) :
  exists suffix,
    match context with
    | [] => Ok base_prompt
    | _ => Ok (base_prompt +:+ context_header +:+ String.concat Text.nl context)
    end = Ok (base_prompt +:+ suffix).
Proof.
  destruct context as [|l ls].
  - exists EmptyString. reflexivity.
  - eexists. reflexivity.
Qed.

Lemma build_system_prompt_cases v :
  truthy v = false \/
  (truthy v = true /\
   (build_system_prompt v = Raise AttributeError \/
    build_system_prompt v = Raise TypeError \/
    exists suffix, build_system_prompt v = Ok (base_prompt +:+ suffix))).
Proof.
  destruct (truthy v) eqn:Hv; [right|now left].
  split; [reflexivity|].
  unfold build_system_prompt. rewrite Hv.
  destruct v as [| | | | | |d]; try (now left).
  assert (Hget : forall key default,
             py_get_default (PDict d) key default
             = Ok (from_option id default (dict_lookup key d)))
    by reflexivity.
  rewrite !Hget. cbn [rbind].
  destruct (append_line_cases "Health goals"
              (from_option id (PList []) (dict_lookup "health_goals" d)) [])
    as [[l1 ->]| ->]; [|right; left; reflexivity].
  cbn [rbind].
  destruct (append_line_cases "Current symptoms"
              (from_option id (PList []) (dict_lookup "symptoms" d)) ([] ++ l1))
    as [[l2 ->]| ->]; [|right; left; reflexivity].
  cbn [rbind].
  destruct (truthy (from_option id (PDict []) (dict_lookup "preferences" d))).
  - destruct (from_option id (PDict []) (dict_lookup "preferences" d))
      as [| | | | | |p]; try (now left).
    change (py_get_default (PDict p) "dietary" (PList []))
      with (Ok (from_option id (PList []) (dict_lookup "dietary" p))).
    cbn [rbind].
    destruct (append_line_cases "Dietary preferences"
                (from_option id (PList []) (dict_lookup "dietary" p))
                (([] ++ l1) ++ l2))
      as [[l3 ->]| ->]; [|right; left; reflexivity].
    cbn [rbind]. right; right. apply prompt_of_lines_prefix.
  - cbn [rbind]. right; right. apply prompt_of_lines_prefix.
Qed.

Lemma build_system_prompt_prefix v p :
  build_system_prompt v = Ok p -> exists suffix, p = base_prompt +:+ suffix.
Proof.
  intros Hp. destruct (build_system_prompt_cases v) as [Hf|[_ [H|[H|[suffix H]]]]].
  - unfold build_system_prompt in Hp. rewrite Hf in Hp. injection Hp as <-.
    now exists EmptyString.
  - rewrite H in Hp. discriminate.
  - rewrite H in Hp. discriminate.
  - rewrite H in Hp. injection Hp as <-. now exists suffix.
Qed.

End PromptBuilderEdges.

(** X9.  [build_system_prompt] never loses the base instruction: whatever
    the context, a returned prompt starts with the base instruction.  It
    reads the keys 'health_goals', 'symptoms' and 'preferences' only: a
    non-empty mapping without these three keys gives the base instruction
    unchanged, whatever else it holds.  It raises for a non-empty context
    only, and then [AttributeError] (something that is not a mapping where
    one is read) or [TypeError] (a value that cannot be joined as texts),
    never anything else. *)
Theorem build_system_prompt_keeps_the_base_instruction :
  (forall v p, build_system_prompt v = Ok p ->
               exists suffix, p = base_prompt +:+ suffix) /\
  (forall d, dict_lookup "health_goals" d = None ->
             dict_lookup "symptoms" d = None ->
             dict_lookup "preferences" d = None ->
             build_system_prompt (PDict d) = Ok base_prompt) /\
  (forall v e, build_system_prompt v = Raise e ->
               truthy v = true /\ (e = AttributeError \/ e = TypeError)).
Proof.
  pose proof build_system_prompt_cases as Hall.
  split; [|split].
  - intros v p Hp. destruct (Hall v) as [Hf|[_ [H|[H|[suffix H]]]]].
    + unfold build_system_prompt in Hp. rewrite Hf in Hp. injection Hp as <-.
      now exists EmptyString.
    + rewrite H in Hp. discriminate.
    + rewrite H in Hp. discriminate.
    + rewrite H in Hp. injection Hp as <-. now exists suffix.
  - intros d H1 H2 H3. unfold build_system_prompt.
    destruct (truthy (PDict d)); [|reflexivity].
    unfold py_get_default. now rewrite H1, H2, H3.
  - intros v e He. destruct (Hall v) as [Hf|[Ht [H|[H|[suffix H]]]]].
    + unfold build_system_prompt in He. rewrite Hf in He. discriminate.
    + rewrite H in He. injection He as <-. auto.
    + rewrite H in He. injection He as <-. auto.
    + rewrite H in He. discriminate.
Qed.

(** X10.  A text where a list is expected is joined character by
    character: with ['health_goals'] holding the non-empty text [s] and no
    other context, the prompt ends with the line "Health goals: " followed
    by the characters of [s] separated by ", ". *)
Theorem text_valued_goals_are_joined_by_character d s :
  s <> EmptyString ->
  dict_lookup "health_goals" d = Some (PStr s) ->
  dict_lookup "symptoms" d = None ->
  dict_lookup "preferences" d = None ->
  build_system_prompt (PDict d)
  = Ok (base_prompt +:+ context_header +:+ "Health goals: "
        +:+ String.concat ", " (Text.chars s)).
Proof.
  intros Hs H1 H2 H3. unfold build_system_prompt.
  destruct d as [|kv d]; [discriminate|].
  change (truthy (PDict (kv :: d))) with true. cbv iota.
  unfold py_get_default. rewrite H1, H2, H3. cbn [rbind from_option id].
  unfold append_line at 1. simpl truthy.
  apply String.eqb_neq in Hs. rewrite Hs. cbn [negb py_join rbind app].
  reflexivity.
Qed.

Lemma text_valued_goals_are_joined_by_character_witness :
  build_system_prompt (PDict [("health_goals", PStr "sleep")])
  = Ok (base_prompt +:+ context_header +:+ "Health goals: s, l, e, e, p").
Proof.
  apply (text_valued_goals_are_joined_by_character
           [("health_goals", PStr "sleep")] "sleep");
    [discriminate|reflexivity|reflexivity|reflexivity].
Defined.

(* ===================================================================== *)
(** ** Orchestrator: the message list *)
(* ===================================================================== *)

Section FormatMessages.

Lemma role_content_valid t :
  valid_message t = true -> exists m, role_content t = Ok m /\ reduced_turn t m.
Proof.
  intros H. destruct (valid_message_inv _ H) as (d & c & -> & Hr & Hc).
  destruct (dict_contains_lookup _ _ Hr) as [r Hr'].
  exists (RoleContent r c). split.
  - unfold role_content, py_subscript. now rewrite Hr', Hc.
  - now exists d, r, c.
Qed.

Lemma format_history_valid history :
  Forall (fun t => valid_message t = true) history ->
  exists out, format_history history = Ok out /\ Forall2 reduced_turn history out.
Proof.
  induction 1 as [|t history Ht _ (out & Hout & Hred)].
  - exists []. split; [reflexivity|constructor].
  - destruct (role_content_valid t Ht) as (m & Hm & Hr).
    exists (m :: out). split.
    + cbn [format_history]. rewrite Hm. cbn [rbind]. now rewrite Hout.
    + now constructor.
Qed.

Lemma format_history_first_failure good bad rest e :
  Forall (fun t => valid_message t = true) good ->
  role_content bad = Raise e ->
  format_history (good ++ bad :: rest) = Raise e.
Proof.
  intros Hgood Hbad. induction Hgood as [|t good Ht _ IH]; cbn [app format_history].
  - now rewrite Hbad.
  - destruct (role_content_valid t Ht) as (m & -> & _). cbn [rbind].
    now rewrite IH.
Qed.

Lemma empty_store_well_formed : store_well_formed empty_store.
Proof.
  split; intros sid x Hl; cbn in Hl; rewrite lookup_empty in Hl; discriminate.
Qed.

End FormatMessages.

(** X11.  For a history whose turns are dicts with a 'role' and a 'content'
    key, [_format_messages] returns the system turn with the prompt in
    force (the override, or the default prompt when the override is absent
    or empty), then one entry per turn in the same order, holding the role
    and the content of the turn and nothing else (a timestamp or any other
    key is dropped), then the new user turn; so one entry more than two per
    turn of history. *)
Theorem format_messages_reduces_each_turn message history system_prompt :
  Forall (fun t => valid_message t = true) history ->
  exists out,
    _format_messages message history system_prompt
    = Ok (RoleContent (PStr "system") (PStr (prompt_in_force system_prompt))
          :: out ++ [RoleContent (PStr "user") (PStr message)])%list /\
    Forall2 reduced_turn history out /\
    length (RoleContent (PStr "system") (PStr (prompt_in_force system_prompt))
            :: out ++ [RoleContent (PStr "user") (PStr message)])%list
    = (length history + 2)%nat.
Proof.
  intros Hh. destruct (format_history_valid history Hh) as (out & Hout & Hred).
  exists out. split; [|split; [exact Hred|]].
  - unfold _format_messages, prompt_in_force. now rewrite Hout.
  - cbn [length]. rewrite length_app. cbn [length].
    rewrite (Forall2_length _ _ _ Hred). lia.
Qed.

Lemma format_messages_reduces_each_turn_witness :
  exists out,
    _format_messages "and now?"
      [PDict [("role", PStr "user"); ("content", PStr "hello");
              ("timestamp", PInt 7)]] None
    = Ok (RoleContent (PStr "system") (PStr (prompt_in_force None))
          :: out ++ [RoleContent (PStr "user") (PStr "and now?")])%list /\
    Forall2 reduced_turn
      [PDict [("role", PStr "user"); ("content", PStr "hello");
              ("timestamp", PInt 7)]] out.
Proof.
  destruct (format_messages_reduces_each_turn "and now?"
              [PDict [("role", PStr "user"); ("content", PStr "hello");
                      ("timestamp", PInt 7)]] None)
    as (out & H1 & H2 & _).
  - repeat constructor.
  - exists out. now split.
Defined.

(** X12.  A history with a turn that is not a dict with both keys makes
    [_format_messages] raise, with the error of the first such turn:
    [TypeError] when it is not a dict, [KeyError] for 'role' when that key is
    missing, [KeyError] for 'content' when only that one is missing.  No
    message list is produced. *)
Theorem format_messages_fails_on_first_bad_turn message good bad rest system_prompt :
  Forall (fun t => valid_message t = true) good ->
  valid_message bad = false ->
  _format_messages message (good ++ bad :: rest) system_prompt
  = Raise (match bad with
           | PDict d => match dict_lookup "role" d with
                        | None => KeyError "role"
                        | Some _ => KeyError "content"
                        end
           | _ => TypeError
           end).
Proof.
  intros Hgood Hbad. unfold _format_messages.
  rewrite (format_history_first_failure good bad rest
             (match bad with
              | PDict d => match dict_lookup "role" d with
                           | None => KeyError "role"
                           | Some _ => KeyError "content"
                           end
              | _ => TypeError
              end) Hgood); [reflexivity|].
  destruct bad as [| | | | | |d]; try reflexivity.
  simpl in Hbad. unfold role_content, py_subscript, dict_contains in *.
  destruct (dict_lookup "role" d) as [r|]; [|reflexivity].
  destruct (dict_lookup "content" d) as [c|]; [discriminate|reflexivity].
Qed.

Lemma format_messages_fails_on_first_bad_turn_witness :
  _format_messages "hi"
    ([PDict [("role", PStr "user"); ("content", PStr "hello")]]
     ++ PDict [("role", PStr "user")] :: []) None
  = Raise (KeyError "content").
Proof.
  apply (format_messages_fails_on_first_bad_turn "hi"
           [PDict [("role", PStr "user"); ("content", PStr "hello")]]
           (PDict [("role", PStr "user")]) [] None).
  - repeat constructor.
  - reflexivity.
Defined.

(** X13.  Histories read from a well-formed store always format: whatever
    session is read and whatever the new message and the prompt are,
    [_format_messages] returns a message list for the turns that
    [get_messages] reports. *)
Theorem stored_histories_always_format w session_id message system_prompt :
  store_well_formed (mem w) ->
  exists history messages,
    outcome (get_messages session_id) w = Ok history /\
    _format_messages message history system_prompt = Ok messages.
Proof.
  intros Hwf. exists (turns (mem w) session_id).
  destruct (format_history_valid (turns (mem w) session_id)
              (well_formed_turns _ _ Hwf)) as (out & Hout & _).
  eexists. split; [apply get_messages_turns|].
  unfold _format_messages. rewrite Hout. reflexivity.
Qed.

Lemma stored_histories_always_format_witness :
  let w := after (add_message "s1"
                    (PDict [("role", PStr "user"); ("content", PStr "hello")]))
             init_world in
  store_well_formed (mem w) /\
  exists history messages,
    outcome (get_messages "s1") w = Ok history /\
    _format_messages "and now?" history None = Ok messages.
Proof.
  cbv zeta.
  assert (H : store_well_formed
                (mem (after (add_message "s1"
                               (PDict [("role", PStr "user");
                                       ("content", PStr "hello")]))
                        init_world))).
  { apply (run_call_keeps env_direct
             (AddMessage "s1" (PDict [("role", PStr "user");
                                      ("content", PStr "hello")])) init_world).
    apply empty_store_well_formed. }
  split; [exact H|].
  exact (stored_histories_always_format _ "s1" "and now?" None H).
Defined.

(* ===================================================================== *)
(** ** Orchestrator: replies *)
(* ===================================================================== *)

Section StripFacts.

Import Text.

Lemma lstrip_first s c : first_char (lstrip s) = Some c -> is_space c = false.
Proof.
  induction s as [|a s IH]; simpl; [discriminate|].
  destruct (is_space a) eqn:Ha; [exact IH|].
  simpl. intros H. now injection H as <-.
Qed.

Lemma rstrip_last s c : last_char (rstrip s) = Some c -> is_space c = false.
Proof.
  revert c. induction s as [|a s IH]; intros c; simpl; [discriminate|].
  destruct (rstrip s) as [|b r] eqn:Hr.
  - destruct (is_space a) eqn:Ha; simpl; [discriminate|].
    intros H. now injection H as <-.
  - intros H. apply IH. exact H.
Qed.

Lemma rstrip_first s c :
  first_char (rstrip s) = Some c -> first_char s = Some c.
Proof.
  destruct s as [|a s]; simpl; [discriminate|].
  destruct (rstrip s) as [|b r].
  - destruct (is_space a); simpl; [discriminate|trivial].
  - trivial.
Qed.

Lemma strip_no_outer_space s : no_outer_space (strip s).
Proof.
  unfold strip. split; intros c H.
  - apply rstrip_first in H. now apply (lstrip_first s).
  - now apply (rstrip_last (lstrip s)).
Qed.

End StripFacts.

Section Replies.

Variable env : Env.

Lemma make_response_consistent text items name :
  no_outer_space text ->
  reply_consistent (make_response text (Some items) true (Some name)) /\
  reply_consistent (make_response text None false None).
Proof.
  intros Ht. split; (split; [reflexivity|split; [exact Ht|]]); cbn;
    split; split; intros H; try reflexivity; try discriminate; eauto;
    try (destruct H; discriminate).
Qed.

Lemma content_strip_no_outer_space m text :
  content_strip m = Ok text -> no_outer_space text.
Proof.
  unfold content_strip. destruct (cm_content m); [|discriminate].
  intros H. injection H as <-. apply strip_no_outer_space.
Qed.

Lemma ensures_lift {A} (Q : A -> Prop) (r : Result A) :
  (forall a, r = Ok a -> Q a) -> ensures Q (lift r).
Proof. intros H w a w' E. unfold lift in E. injection E as E _. now apply H. Qed.

Lemma body_consistent message chat_history client_id system_prompt :
  ensures reply_consistent
    (generate_chat_response_body env message chat_history client_id system_prompt).
Proof.
  unfold generate_chat_response_body.
  apply ensures_try_except; [|intros e; apply ensures_raise].
  apply ensures_bind; intros messages.
  apply ensures_bind; intros choices.
  apply ensures_bind; intros m.
  destruct (cm_function_call m) as [fc|].
  - apply ensures_bind; intros function_args.
    apply ensures_bind; intros prods.
    apply ensures_bind; intros choices2.
    apply ensures_bind; intros reply.
    intros w a w' H. unfold bind, lift in H.
    destruct (content_strip reply) as [text|] eqn:Hc; [|discriminate].
    unfold ret in H. injection H as <- _.
    apply make_response_consistent. now apply (content_strip_no_outer_space reply).
  - intros w a w' H. unfold bind, lift in H.
    destruct (content_strip m) as [text|] eqn:Hc; [|discriminate].
    unfold ret in H. injection H as <- _.
    apply (make_response_consistent text [] EmptyString).
    now apply (content_strip_no_outer_space m).
Qed.

End Replies.

(** X14.  Every reply that [generate_chat_response] returns has the role
    "assistant" and a text without leading or trailing whitespace; it
    carries an item list exactly when a function was called, and a function
    name exactly when a function was called. *)
Theorem replies_are_consistent env message chat_history client_id system_prompt w r w' :
  generate_chat_response env message chat_history client_id system_prompt w
  = (Ok r, w') ->
  reply_consistent r.
Proof.
  unfold generate_chat_response, retry. apply ensures_retrying, body_consistent.
Qed.

Lemma replies_are_consistent_witness :
  exists r w',
    generate_chat_response env_unknown_tool "where is my order?" [] PNone None
      init_world = (Ok r, w') /\
    reply_consistent r.
Proof.
  eexists. eexists. split; [vm_compute; reflexivity|].
  eapply (replies_are_consistent env_unknown_tool "where is my order?" [] PNone
            None init_world).
  vm_compute. reflexivity.
Defined.

(** X15.  When the model answers the first call with a text and no function
    call, [generate_chat_response] makes exactly that one generation call
    (with the function declared) and returns the stripped text with
    [function_called = false], no item list and no function name; the
    recommend flag then depends on the keywords alone. *)
Theorem direct_reply_takes_one_generation_call
    env message chat_history client_id system_prompt w messages m rest text :
  _format_messages message chat_history system_prompt = Ok messages ->
  completions_create env (log w) messages true = Ok (m :: rest) ->
  cm_function_call m = None ->
  cm_content m = Some text ->
  generate_chat_response env message chat_history client_id system_prompt w
  = (Ok {| role := "assistant";
           content := Text.strip text;
           recommend := existsb (fun keyword =>
                                   Text.str_in keyword
                                     (Text.lower (Text.strip text)))
                                recommend_keywords;
           products := None;
           function_called := false;
           function_name := None |},
     logged w (EvGenerate messages true)).
Proof.
  intros Hf Hg Hn Ht. unfold generate_chat_response, retry.
  apply retrying_first_ok.
  rewrite (body_direct_reply env message chat_history client_id system_prompt
             w messages m rest Hf Hg Hn).
  unfold content_strip. rewrite Ht. reflexivity.
Qed.

Lemma direct_reply_takes_one_generation_call_witness :
  exists r,
    generate_chat_response env_direct "what helps with sleep?" [] PNone None
      init_world
    = (Ok r,
       logged init_world
         (EvGenerate [RoleContent (PStr "system") (PStr DEFAULT_SYSTEM_PROMPT);
                      RoleContent (PStr "user") (PStr "what helps with sleep?")]
            true)) /\
    function_called r = false /\ recommend r = true.
Proof.
  eexists. split.
  - apply (direct_reply_takes_one_generation_call env_direct
             "what helps with sleep?" [] PNone None init_world
             [RoleContent (PStr "system") (PStr DEFAULT_SYSTEM_PROMPT);
              RoleContent (PStr "user") (PStr "what helps with sleep?")]
             (text_reply "I recommend trying magnesium.") []
             "I recommend trying magnesium."); reflexivity.
  - split; reflexivity.
Defined.

(** X16.  For arguments that are plain data (None, a boolean, a number, a
    text, a list or a mapping with text keys, the values of [PyVal]), the
    tool handler swallows every failure of the backends: the only exception
    that leaves [_handle_function_call] is then [AttributeError], and only
    when the function is 'query_supplements' and the argument is not a
    mapping; in that case nothing has been called yet. *)
Theorem handler_raises_only_for_a_non_mapping env function_name function_args w e :
  outcome (_handle_function_call env function_name function_args) w = Raise e ->
  function_name = "query_supplements" /\
  is_mapping function_args = false /\
  e = AttributeError /\
  after (_handle_function_call env function_name function_args) w = w.
Proof.
  intros H.
  destruct (String.eqb function_name "query_supplements") eqn:Hn.
  - apply String.eqb_eq in Hn. subst function_name.
    destruct (is_mapping function_args) eqn:Hm.
    + destruct function_args as [| | | | | |d]; try discriminate.
      destruct (handler_total env "query_supplements" d w) as [items Hi].
      rewrite Hi in H. discriminate.
    + unfold outcome, after in *.
      rewrite (handler_not_mapping env function_args w Hm) in *.
      cbn [fst snd] in *. injection H as <-. repeat split.
  - apply String.eqb_neq in Hn. unfold outcome in H.
    rewrite (handler_unknown_function env function_name function_args w Hn) in H.
    discriminate.
Qed.

Lemma handler_raises_only_for_a_non_mapping_witness :
  outcome (_handle_function_call env_direct "query_supplements" (PStr "sleep"))
    init_world = Raise AttributeError /\
  after (_handle_function_call env_direct "query_supplements" (PStr "sleep"))
    init_world = init_world.
Proof.
  split; [reflexivity|].
  apply (handler_raises_only_for_a_non_mapping env_direct "query_supplements"
           (PStr "sleep") init_world AttributeError).
  reflexivity.
Defined.

(* ===================================================================== *)
(** ** Vector search adapter: outcomes and conversion *)
(* ===================================================================== *)

Section SearchOutcomes.

Variable env : Env.

Lemma query_qdrant_cases query_vector limit filters w :
  let w1 := logged w (EvGetCollection collection_name) in
  query_qdrant env query_vector limit filters w
  = match get_collection_size env (log w) collection_name with
    | Raise e => (Raise e, w1)
    | Ok collection_dim =>
        if collection_dim =? Z.of_nat (length query_vector) then
          match build_search_filter env filters with
          | Raise e => (Raise e, w1)
          | Ok search_filter =>
              (match search env (log w1) collection_name query_vector limit
                       search_filter with
               | Ok search_results => Ok (convert_hits env search_results)
               | Raise e => Raise e
               end,
               logged w1 (EvSearch collection_name query_vector limit search_filter))
          end
        else (Raise (ValueError (dimension_mismatch_msg collection_dim
                                   (Z.of_nat (length query_vector)))), w1)
    end.
Proof.
  cbv zeta. unfold query_qdrant, try_except, bind, call, raise, ret, lift, logged.
  destruct (get_collection_size env (log w) collection_name) as [dim|e];
    [|reflexivity].
  destruct (dim =? _); [|reflexivity]. cbn [mem log].
  destruct (build_search_filter env filters) as [search_filter|e]; [|reflexivity].
  cbn [mem log].
  now destruct (search env _ _ _ _ _).
Qed.

(** The conditions that are built are the entries of [filters], as they
    are. *)
Lemma build_conditions_ok filters conditions :
  build_conditions env filters = Ok conditions -> conditions = filters.
Proof.
  revert conditions. induction filters as [|[key value] rest IH];
    intros conditions H; cbn [build_conditions] in H.
  - now injection H as <-.
  - destruct (match_value env value); [|discriminate]. cbn [rbind] in H.
    destruct (build_conditions env rest) as [cs|]; [|discriminate].
    cbn [rbind] in H. injection H as <-. now rewrite (IH cs eq_refl).
Qed.

Lemma convert_hits_app a b :
  convert_hits env (a ++ b) = (convert_hits env a ++ convert_hits env b)%list.
Proof.
  induction a as [|h a IH]; [reflexivity|]. cbn [app convert_hits].
  destruct (product_of_hit env h); cbn [app]; now rewrite IH.
Qed.

Lemma convert_hits_length hits :
  (length (convert_hits env hits) <= length hits)%nat.
Proof.
  induction hits as [|h hits IH]; [reflexivity|]. cbn [convert_hits length].
  destruct (product_of_hit env h); cbn [length]; lia.
Qed.

Lemma product_of_hit_non_mapping hit :
  is_mapping (hit_payload hit) = false ->
  product_of_hit env hit = Raise AttributeError.
Proof.
  unfold product_of_hit. now destruct (hit_payload hit).
Qed.

End SearchOutcomes.

(** X17.  [query_qdrant] goes through the collection-info request, the
    comparison of the dimensions, the construction of the filter and the
    search call, in this order, and the first step that fails decides.  It
    returns a product list exactly when the collection reports the
    dimensionality of the query vector, every filter value is accepted by
    the filter constructors and the search call succeeds; the list is then
    the conversion of the hits, whatever they contain.  It raises exactly
    when the collection-info request fails, the dimensions differ, a filter
    value is refused or the search call fails, and hands on the error of the
    failing step unchanged.  The filter of the search is absent for absent
    or empty [filters], else it holds the entries of [filters] as they are;
    when a filter value is refused no search is made. *)
Theorem query_qdrant_outcomes env query_vector limit filters w :
  let w1 := logged w (EvGetCollection collection_name) in
  let size := get_collection_size env (log w) collection_name in
  (forall items,
      outcome (query_qdrant env query_vector limit filters) w = Ok items <->
      exists search_filter hits,
        size = Ok (Z.of_nat (length query_vector)) /\
        build_search_filter env filters = Ok search_filter /\
        search env (log w1) collection_name query_vector limit search_filter
        = Ok hits /\
        items = convert_hits env hits) /\
  (forall e,
      outcome (query_qdrant env query_vector limit filters) w = Raise e <->
      size = Raise e \/
      (exists collection_dim,
          size = Ok collection_dim /\
          collection_dim <> Z.of_nat (length query_vector) /\
          e = ValueError (dimension_mismatch_msg collection_dim
                            (Z.of_nat (length query_vector)))) \/
      (size = Ok (Z.of_nat (length query_vector)) /\
       build_search_filter env filters = Raise e) \/
      (size = Ok (Z.of_nat (length query_vector)) /\
       exists search_filter,
         build_search_filter env filters = Ok search_filter /\
         search env (log w1) collection_name query_vector limit search_filter
         = Raise e)) /\
  (forall search_filter,
      build_search_filter env filters = Ok search_filter ->
      search_filter
      = match filters with Some (c :: cs) => Some (c :: cs) | _ => None end) /\
  (forall e,
      size = Ok (Z.of_nat (length query_vector)) ->
      build_search_filter env filters = Raise e ->
      after (query_qdrant env query_vector limit filters) w = w1).
Proof.
  cbv zeta. unfold outcome, after. rewrite query_qdrant_cases. cbv zeta.
  split; [|split; [|split]].
  - intros items.
    destruct (get_collection_size env (log w) collection_name) as [dim|e0].
    + destruct (dim =? Z.of_nat (length query_vector)) eqn:Hd.
      * apply Z.eqb_eq in Hd. subst dim.
        destruct (build_search_filter env filters) as [sf|e1].
        -- destruct (search env _ _ _ _ sf) as [hits|e2] eqn:Hs; cbn [fst].
           ++ split.
              ** intros H. injection H as <-. now exists sf, hits.
              ** intros (sf' & hits' & _ & Hsf & H & ->).
                 injection Hsf as <-. rewrite Hs in H. now injection H as <-.
           ++ split; [discriminate|].
              intros (sf' & hits' & _ & Hsf & H & _).
              injection Hsf as <-. rewrite Hs in H. discriminate.
        -- cbn [fst]. split; [discriminate|].
           intros (sf' & hits' & _ & Hsf & _). discriminate.
      * apply Z.eqb_neq in Hd. cbn [fst]. split; [discriminate|].
        intros (sf & hits & H & _). injection H as ->. now contradict Hd.
    + cbn [fst]. split; [discriminate|]. intros (sf & hits & H & _).
      discriminate.
  - intros e.
    destruct (get_collection_size env (log w) collection_name) as [dim|e0].
    + destruct (dim =? Z.of_nat (length query_vector)) eqn:Hd.
      * apply Z.eqb_eq in Hd. subst dim.
        destruct (build_search_filter env filters) as [sf|e1].
        -- destruct (search env _ _ _ _ sf) as [hits|e2] eqn:Hs; cbn [fst].
           ++ split; [discriminate|].
              intros [H|[(dim & H & Hne & _)|[[_ H]|(_ & sf' & Hsf & H)]]];
                try discriminate.
              ** injection H as <-. now contradict Hne.
              ** injection Hsf as <-. rewrite Hs in H. discriminate.
           ++ split.
              ** intros H. injection H as <-. right; right; right.
                 split; [reflexivity|]. now exists sf.
              ** intros [H|[(dim & H & Hne & _)|[[_ H]|(_ & sf' & Hsf & H)]]];
                   try discriminate.
                 --- injection H as <-. now contradict Hne.
                 --- injection Hsf as <-. rewrite Hs in H. now injection H as <-.
        -- cbn [fst]. split.
           ++ intros H. injection H as <-. right; right; left. now split.
           ++ intros [H|[(dim & H & Hne & _)|[[_ H]|(_ & sf' & Hsf & H)]]];
                try discriminate.
              ** injection H as <-. now contradict Hne.
              ** now injection H as <-.
      * apply Z.eqb_neq in Hd. cbn [fst]. split.
        -- intros H. injection H as <-. right; left. now exists dim.
        -- intros [H|[(dim' & H & _ & ->)|[[H _]|[H _]]]]; try discriminate.
           ++ now injection H as <-.
           ++ injection H as ->. now contradict Hd.
           ++ injection H as ->. now contradict Hd.
    + cbn [fst]. split.
      * intros H. injection H as <-. now left.
      * intros [H|[(dim & H & _)|[[H _]|[H _]]]]; try discriminate.
        now injection H as <-.
  - intros sf Hsf. unfold build_search_filter in Hsf.
    destruct filters as [[|c cs]|]; try (now injection Hsf as <-).
    destruct (build_conditions env (c :: cs)) as [conditions|] eqn:Hb;
      [|discriminate].
    cbn [rbind] in Hsf. injection Hsf as <-.
    now rewrite (build_conditions_ok env _ _ Hb).
  - intros e Hsize Hsf. rewrite Hsize, Z.eqb_refl, Hsf. reflexivity.
Qed.

Lemma query_qdrant_outcomes_witness :
  outcome (query_qdrant env_direct [1%Q; 2%Q] 3 (Some [("price", PFloat (3 # 2))]))
    init_world = Raise ValidationError /\
  after (query_qdrant env_direct [1%Q; 2%Q] 3 (Some [("price", PFloat (3 # 2))]))
    init_world = logged init_world (EvGetCollection collection_name) /\
  exists w',
    query_qdrant env_direct [1%Q; 2%Q] 3 (Some [("brand", PStr "Brightside")])
      init_world = (Ok [], w') /\
    log w' = [EvGetCollection collection_name;
              EvSearch collection_name [1%Q; 2%Q] 3
                (Some [("brand", PStr "Brightside")])].
Proof.
  split; [|split].
  - apply (proj1 (proj2 (query_qdrant_outcomes env_direct [1%Q; 2%Q] 3
                           (Some [("price", PFloat (3 # 2))]) init_world))
             ValidationError).
    right; right; left. split; reflexivity.
  - apply (proj2 (proj2 (proj2 (query_qdrant_outcomes env_direct [1%Q; 2%Q] 3
                                  (Some [("price", PFloat (3 # 2))]) init_world)))
             ValidationError); reflexivity.
  - eexists. split; reflexivity.
Defined.

(** X18.  The conversion of the hits goes hit by hit and never fails as a
    whole: it yields at most one product per hit, the conversion of two
    batches is the conversion of the first followed by that of the second,
    a hit whose payload is not a mapping is skipped, and a hit whose payload
    lacks the 'image' key and whose product the constructor accepts as it is
    yields a product with an empty image URL. *)
Theorem convert_hits_skips_and_defaults env :
  (forall hits, (length (convert_hits env hits) <= length hits)%nat) /\
  (forall a b,
      convert_hits env (a ++ b) = (convert_hits env a ++ convert_hits env b)%list) /\
  (forall pre hit post,
      is_mapping (hit_payload hit) = false ->
      convert_hits env (pre ++ hit :: post)
      = (convert_hits env pre ++ convert_hits env post)%list) /\
  (forall hit d p,
      hit_payload hit = PDict d ->
      dict_lookup "image" d = None ->
      product_of_hit env hit = Ok p ->
      (forall q, validate_product env q = Ok p -> q = p) ->
      convert_hits env [hit] = [p] /\ p_image_url p = PStr EmptyString).
Proof.
  split; [apply convert_hits_length|]. split; [apply convert_hits_app|]. split.
  - intros pre hit post Hm. rewrite convert_hits_app. cbn [convert_hits].
    now rewrite (product_of_hit_non_mapping env hit Hm).
  - intros hit d p Hd Himg Hp Hval. cbn [convert_hits]. rewrite Hp.
    split; [reflexivity|].
    unfold product_of_hit in Hp. rewrite Hd in Hp.
    unfold py_get_default in Hp. cbn [rbind] in Hp. rewrite Himg in Hp.
    cbn [from_option id] in Hp.
    rewrite <- (Hval _ Hp). reflexivity.
Qed.

Lemma convert_hits_skips_and_defaults_witness :
  let bad := {| hit_id := PInt 1; hit_score := 1%Q; hit_payload := PNone |} in
  let good := {| hit_id := PInt 2; hit_score := 1%Q;
                 hit_payload := PDict [("title", PStr "Magnesium")] |} in
  length (convert_hits env_direct [bad; good]) = 1%nat /\
  exists p, convert_hits env_direct [good] = [p] /\
            p_image_url p = PStr EmptyString.
Proof.
  cbv zeta. split; [reflexivity|].
  eexists.
  apply (proj2 (proj2 (proj2 (convert_hits_skips_and_defaults env_direct)))
           {| hit_id := PInt 2; hit_score := 1%Q;
              hit_payload := PDict [("title", PStr "Magnesium")] |}
           [("title", PStr "Magnesium")]);
    try reflexivity.
  intros q Hq. now injection Hq.
Defined.

(* ===================================================================== *)
(** ** Orchestrator: a tool call that succeeds *)
(* ===================================================================== *)

(** X19.  For 'query_supplements' with a non-empty question whose embedding,
    collection-info request and search succeed, the tool handler calls the
    embedder with the question as it is, then the collection-info request,
    then the search with that embedding, the fixed limit 3 and no filter,
    in this order and nothing else, and returns the conversion of the
    hits. *)
Theorem tool_call_searches_with_limit_three env d question query_vector hits w :
  dict_get "question" d = question ->
  truthy question = true ->
  let w1 := logged w (EvEmbed question) in
  let w2 := logged w1 (EvGetCollection collection_name) in
  embed_text env (log w) question = Ok query_vector ->
  get_collection_size env (log w1) collection_name
  = Ok (Z.of_nat (length query_vector)) ->
  search env (log w2) collection_name query_vector 3 None = Ok hits ->
  _handle_function_call env "query_supplements" (PDict d) w
  = (Ok (convert_hits env hits),
     {| mem := mem w;
        log := (log w ++ [EvEmbed question;
                          EvGetCollection collection_name;
                          EvSearch collection_name query_vector 3 None])%list |}).
Proof.
  intros Hq Ht w1 w2 He Hd Hs. subst w1 w2.
  rewrite (handler_after_embedding env d question query_vector w Hq Ht He).
  rewrite query_qdrant_cases. cbv beta iota zeta. rewrite Hd, Z.eqb_refl.
  cbn [build_search_filter]. unfold SearchFilter in *. rewrite Hs.
  unfold logged. cbn [mem log]. now rewrite <- !app_assoc.
Qed.

Lemma tool_call_searches_with_limit_three_witness :
  exists w',
    _handle_function_call env_direct "query_supplements"
      (PDict [("question", PStr "help with sleep")]) init_world
    = (Ok [], w') /\
    log w' = [EvEmbed (PStr "help with sleep");
              EvGetCollection collection_name;
              EvSearch collection_name [1%Q; 2%Q] 3 None].
Proof.
  eexists. split.
  - apply (tool_call_searches_with_limit_three env_direct
             [("question", PStr "help with sleep")] (PStr "help with sleep")
             [1%Q; 2%Q] [] init_world); reflexivity.
  - reflexivity.
Defined.

(** X20.  When the tool returns an item list, the second generation call
    is made without any function declared, on the first message list
    extended by the model's own message and by the function-result message
    that holds the printed items; when it answers with a text, the reply
    carries exactly the tool's items, the stripped text, the name of the
    function, [function_called = true], and a recommend flag that is true
    as soon as there is one item. *)
Theorem tool_result_is_folded_into_second_call
    env message chat_history client_id system_prompt w
    messages m rest fc function_args items w1 reply rest2 text :
  _format_messages message chat_history system_prompt = Ok messages ->
  completions_create env (log w) messages true = Ok (m :: rest) ->
  cm_function_call m = Some fc ->
  py_eval env (fc_arguments fc) = Ok function_args ->
  _handle_function_call env (fc_name fc) function_args
    (logged w (EvGenerate messages true)) = (Ok items, w1) ->
  let messages2 :=
    (messages ++ [AssistantMessage m;
                  FunctionResult (fc_name fc) (str_products env items)])%list in
  completions_create env (log w1) messages2 false = Ok (reply :: rest2) ->
  cm_content reply = Some text ->
  exists r,
    generate_chat_response env message chat_history client_id system_prompt w
    = (Ok r, logged w1 (EvGenerate messages2 false)) /\
    products r = Some items /\
    content r = Text.strip text /\
    function_called r = true /\
    function_name r = Some (fc_name fc) /\
    (items <> [] -> recommend r = true).
Proof.
  intros Hf Hg Hc He Hh messages2 Hg2 Ht.
  pose proof (body_tool_reply env message chat_history client_id system_prompt
                w messages m rest fc function_args items w1 Hf Hg Hc He Hh) as Hb.
  cbv zeta in Hb. fold messages2 in Hb. rewrite Hg2 in Hb.
  unfold reply_after_tool in Hb. cbn [rbind first_choice] in Hb.
  unfold content_strip in Hb. rewrite Ht in Hb. cbn [rbind] in Hb.
  eexists. split.
  - unfold generate_chat_response, retry. apply retrying_first_ok. exact Hb.
  - repeat split; try reflexivity.
    intros Hne. cbn. unfold should_recommend.
    destruct items; [contradiction|reflexivity].
Qed.

Lemma tool_result_is_folded_into_second_call_witness :
  exists r w',
    generate_chat_response env_search_down "I have trouble sleeping" [] PNone
      None init_world = (Ok r, w') /\
    products r = Some [] /\ function_called r = true.
Proof.
  destruct (tool_result_is_folded_into_second_call env_search_down
              "I have trouble sleeping" [] PNone None init_world
              [RoleContent (PStr "system") (PStr DEFAULT_SYSTEM_PROMPT);
               RoleContent (PStr "user") (PStr "I have trouble sleeping")]
              (tool_call "query_supplements" sleep_question) []
              {| fc_name := "query_supplements"; fc_arguments := sleep_question |}
              (PDict [("question", PStr "help with sleep")]) []
              (after (_handle_function_call env_search_down "query_supplements"
                        (PDict [("question", PStr "help with sleep")]))
                 (logged init_world
                    (EvGenerate
                       [RoleContent (PStr "system") (PStr DEFAULT_SYSTEM_PROMPT);
                        RoleContent (PStr "user") (PStr "I have trouble sleeping")]
                       true)))
              (text_reply "Sleep hygiene matters.") [] "Sleep hygiene matters.")
    as (r & Hr & Hp & _ & Hfc & _); try reflexivity.
  exists r. eexists. split; [exact Hr|]. now split.
Defined.

(* ===================================================================== *)
(** ** Budgets of external calls *)
(* ===================================================================== *)

Section Within.

Context {A B : Type}.
Variable p : Event -> bool.

Lemma within_ret (a : A) : within p 0 (ret a).
Proof. intros w. exists []. simpl. now rewrite app_nil_r. Qed.

Lemma within_raise e : within p 0 (@raise A e).
Proof. intros w. exists []. simpl. now rewrite app_nil_r. Qed.

Lemma within_lift (r : Result A) : within p 0 (lift r).
Proof. intros w. exists []. simpl. now rewrite app_nil_r. Qed.

Lemma within_call ev (oracle : list Event -> Result A) :
  within p (cost p ev) (call ev oracle).
Proof. intros w. exists [ev]. unfold cost. simpl. now destruct (p ev). Qed.

Lemma within_weaken n n' (m : M A) :
  (n <= n')%nat -> within p n m -> within p n' m.
Proof.
  intros Hle Hm w. destruct (Hm w) as (rest & Hl & Hc). exists rest.
  split; [exact Hl|lia].
Qed.

Lemma within_bind n1 n2 (m : M A) (k : A -> M B) :
  within p n1 m -> (forall a, within p n2 (k a)) -> within p (n1 + n2) (bind m k).
Proof.
  intros Hm Hk w. unfold bind. destruct (Hm w) as (r1 & H1 & C1).
  destruct (m w) as [[a|e] w1]; cbn [snd] in *.
  - destruct (Hk a w1) as (r2 & H2 & C2). exists (r1 ++ r2)%list.
    rewrite H2, H1, app_assoc, count_events_app. split; [reflexivity|lia].
  - exists r1. split; [exact H1|lia].
Qed.

Lemma within_try_except n1 n2 (m : M A) (h : Exn -> M A) :
  within p n1 m -> (forall e, within p n2 (h e)) ->
  within p (n1 + n2) (try_except m h).
Proof.
  intros Hm Hh w. unfold try_except. destruct (Hm w) as (r1 & H1 & C1).
  destruct (m w) as [[a|e] w1]; cbn [snd] in *.
  - exists r1. split; [exact H1|lia].
  - destruct (Hh e w1) as (r2 & H2 & C2). exists (r1 ++ r2)%list.
    rewrite H2, H1, app_assoc, count_events_app. split; [reflexivity|lia].
Qed.

End Within.

Lemma within_emit p ev : within p (cost p ev) (emit ev).
Proof. intros w. exists [ev]. unfold cost. simpl. now destruct (p ev). Qed.

Section KeepsMem.

Context {A B : Type}.

Lemma keeps_ret (a : A) : keeps_mem (ret a).
Proof. now intros w. Qed.

Lemma keeps_raise e : keeps_mem (@raise A e).
Proof. now intros w. Qed.

Lemma keeps_lift (r : Result A) : keeps_mem (lift r).
Proof. now intros w. Qed.

Lemma keeps_call ev (oracle : list Event -> Result A) : keeps_mem (call ev oracle).
Proof. now intros w. Qed.

Lemma keeps_bind (m : M A) (k : A -> M B) :
  keeps_mem m -> (forall a, keeps_mem (k a)) -> keeps_mem (bind m k).
Proof.
  intros Hm Hk w. unfold bind. specialize (Hm w).
  destruct (m w) as [[a|e] w1]; cbn [snd] in *; [|exact Hm].
  now rewrite Hk.
Qed.

Lemma keeps_try_except (m : M A) (h : Exn -> M A) :
  keeps_mem m -> (forall e, keeps_mem (h e)) -> keeps_mem (try_except m h).
Proof.
  intros Hm Hh w. unfold try_except. specialize (Hm w).
  destruct (m w) as [[a|e] w1]; cbn [snd] in *; [exact Hm|].
  now rewrite Hh.
Qed.

End KeepsMem.

Lemma keeps_emit ev : keeps_mem (emit ev).
Proof. now intros w. Qed.

Section OrchestratorBudget.

Variable env : Env.
Variable p : Event -> bool.
Variables g e c s z : nat.
Hypothesis Hg : forall messages b, (cost p (EvGenerate messages b) <= g)%nat.
Hypothesis He : forall t, (cost p (EvEmbed t) <= e)%nat.
Hypothesis Hc : forall n, (cost p (EvGetCollection n) <= c)%nat.
Hypothesis Hs : forall n v l f, (cost p (EvSearch n v l f) <= s)%nat.
Hypothesis Hz : forall x, (cost p (EvSleep x) <= z)%nat.

Lemma within_query_qdrant query_vector limit filters :
  within p (c + s) (query_qdrant env query_vector limit filters).
Proof.
  unfold query_qdrant.
  apply (within_weaken p ((c + (0 + (0 + (s + 0)))) + 0)); [lia|].
  apply within_try_except; [|intros x; apply within_raise].
  apply within_bind; [eapply within_weaken; [apply Hc|apply within_call]|].
  intros dim. apply within_bind.
  - destruct (dim =? _); [apply within_ret|apply within_raise].
  - intros _. apply within_bind; [apply within_lift|intros search_filter].
    apply within_bind; [|intros hits; apply within_ret].
    eapply within_weaken; [apply Hs|apply within_call].
Qed.

Lemma within_handle_function_call function_name function_args :
  within p (e + (c + s)) (_handle_function_call env function_name function_args).
Proof.
  unfold _handle_function_call.
  destruct (String.eqb function_name "query_supplements");
    [|eapply within_weaken; [|apply within_ret]; lia].
  apply (within_weaken p (0 + ((e + (c + s)) + 0))); [lia|].
  apply within_bind; [apply within_lift|intros question].
  destruct (negb (truthy question));
    [eapply within_weaken; [|apply within_ret]; lia|].
  apply within_try_except; [|intros x; apply within_ret].
  apply within_bind; [eapply within_weaken; [apply He|apply within_call]|].
  intros v. apply within_query_qdrant.
Qed.

Lemma within_body message chat_history client_id system_prompt :
  within p (g + (e + (c + s)) + g)
    (generate_chat_response_body env message chat_history client_id system_prompt).
Proof.
  unfold generate_chat_response_body.
  apply (within_weaken p ((0 + (g + (0 + (0 + ((e + (c + s)) + (g + (0 + (0 + 0)))))))) + 0));
    [lia|].
  apply within_try_except; [|intros x; apply within_raise].
  apply within_bind; [apply within_lift|intros messages].
  apply within_bind; [eapply within_weaken; [apply Hg|apply within_call]|].
  intros choices. apply within_bind; [apply within_lift|intros m].
  destruct (cm_function_call m) as [fc|].
  - apply within_bind; [apply within_lift|intros function_args].
    apply within_bind; [apply within_handle_function_call|intros items].
    apply within_bind; [eapply within_weaken; [apply Hg|apply within_call]|].
    intros choices2. apply within_bind; [apply within_lift|intros reply].
    apply within_bind; [apply within_lift|intros text]. apply within_ret.
  - eapply within_weaken; [|apply within_bind; [apply within_lift|]].
    2: { intros text. apply within_ret. }
    lia.
Qed.

Lemma within_retrying {A} (fn : M A) n wait k attempt_number :
  within p n fn ->
  within p (n + k * (z + n)) (retrying k attempt_number wait fn).
Proof.
  intros Hfn. revert attempt_number. induction k as [|k IH]; intros a;
    cbn [retrying].
  - eapply within_weaken; [|apply within_try_except;
                            [exact Hfn|intros x; apply within_raise]]. lia.
  - apply (within_weaken p (n + (z + (n + k * (z + n))))); [lia|].
    apply within_try_except; [exact Hfn|]. intros x.
    apply within_bind; [eapply within_weaken; [apply Hz|apply within_emit]|].
    intros _. apply IH.
Qed.

Lemma within_generate message chat_history client_id system_prompt :
  within p (3 * (g + (e + (c + s)) + g) + 2 * z)
    (generate_chat_response env message chat_history client_id system_prompt).
Proof.
  unfold generate_chat_response, retry.
  eapply within_weaken; [|apply within_retrying, within_body].
  cbn [Nat.sub]. lia.
Qed.

(** Without a function call an attempt is over after its generation call. *)
Lemma body_without_function_call message chat_history client_id system_prompt w :
  no_function_call env ->
  (exists x,
      generate_chat_response_body env message chat_history client_id
        system_prompt w = (Raise x, w)) \/
  (exists messages r,
      generate_chat_response_body env message chat_history client_id
        system_prompt w = (r, logged w (EvGenerate messages true))).
Proof.
  intros Hnone.
  destruct (_format_messages message chat_history system_prompt)
    as [messages|x] eqn:Hf.
  - right. exists messages.
    destruct (completions_create env (log w) messages true) as [[|m rest]|x]
      eqn:Hgen.
    + eexists. now apply body_no_choice.
    + eexists. eapply body_direct_reply; [exact Hf|exact Hgen|].
      exact (Hnone _ _ _ _ _ Hgen).
    + eexists. apply body_generation_failure; eassumption.
  - left. exists x. unfold generate_chat_response_body, try_except, bind, lift.
    now rewrite Hf.
Qed.

Lemma within_body_direct message chat_history client_id system_prompt :
  no_function_call env ->
  within p g
    (generate_chat_response_body env message chat_history client_id system_prompt).
Proof.
  intros Hnone w.
  destruct (body_without_function_call message chat_history client_id
              system_prompt w Hnone) as [[x ->]|(messages & r & ->)].
  - exists []. cbn [snd]. rewrite app_nil_r. split; [reflexivity|cbn; lia].
  - exists [EvGenerate messages true]. split; [reflexivity|].
    pose proof (Hg messages true) as H. unfold cost in H. cbn [count_events].
    destruct (p (EvGenerate messages true)); lia.
Qed.

Lemma within_generate_direct message chat_history client_id system_prompt :
  no_function_call env ->
  within p (3 * g + 2 * z)
    (generate_chat_response env message chat_history client_id system_prompt).
Proof.
  intros Hnone. unfold generate_chat_response, retry.
  eapply within_weaken; [|apply within_retrying, within_body_direct, Hnone].
  cbn [Nat.sub]. lia.
Qed.

End OrchestratorBudget.

Section OrchestratorKeepsMem.

Variable env : Env.

Lemma keeps_query_qdrant query_vector limit filters :
  keeps_mem (query_qdrant env query_vector limit filters).
Proof.
  unfold query_qdrant.
  apply keeps_try_except; [|intros x; apply keeps_raise].
  apply keeps_bind; [apply keeps_call|intros dim].
  apply keeps_bind.
  - destruct (dim =? _); [apply keeps_ret|apply keeps_raise].
  - intros _. apply keeps_bind; [apply keeps_lift|intros search_filter].
    apply keeps_bind; [apply keeps_call|intros hits; apply keeps_ret].
Qed.

Lemma keeps_handle_function_call function_name function_args :
  keeps_mem (_handle_function_call env function_name function_args).
Proof.
  unfold _handle_function_call.
  destruct (String.eqb function_name "query_supplements"); [|apply keeps_ret].
  apply keeps_bind; [apply keeps_lift|intros question].
  destruct (negb (truthy question)); [apply keeps_ret|].
  apply keeps_try_except; [|intros x; apply keeps_ret].
  apply keeps_bind; [apply keeps_call|intros v; apply keeps_query_qdrant].
Qed.

Lemma keeps_body message chat_history client_id system_prompt :
  keeps_mem
    (generate_chat_response_body env message chat_history client_id system_prompt).
Proof.
  unfold generate_chat_response_body.
  apply keeps_try_except; [|intros x; apply keeps_raise].
  apply keeps_bind; [apply keeps_lift|intros messages].
  apply keeps_bind; [apply keeps_call|intros choices].
  apply keeps_bind; [apply keeps_lift|intros m].
  destruct (cm_function_call m) as [fc|].
  - apply keeps_bind; [apply keeps_lift|intros function_args].
    apply keeps_bind; [apply keeps_handle_function_call|intros items].
    apply keeps_bind; [apply keeps_call|intros choices2].
    apply keeps_bind; [apply keeps_lift|intros reply].
    apply keeps_bind; [apply keeps_lift|intros text]. apply keeps_ret.
  - apply keeps_bind; [apply keeps_lift|intros text]. apply keeps_ret.
Qed.

Lemma keeps_retrying {A} (fn : M A) wait k attempt_number :
  keeps_mem fn -> keeps_mem (retrying k attempt_number wait fn).
Proof.
  intros Hfn. revert attempt_number. induction k as [|k IH]; intros a;
    cbn [retrying]; apply keeps_try_except; trivial; intros x.
  - apply keeps_raise.
  - apply keeps_bind; [apply keeps_emit|intros _; apply IH].
Qed.

Lemma keeps_generate message chat_history client_id system_prompt :
  keeps_mem
    (generate_chat_response env message chat_history client_id system_prompt).
Proof. unfold generate_chat_response, retry. apply keeps_retrying, keeps_body. Qed.

(** Without a function call no argument payload is evaluated and the
    handler is not entered: the store is out of reach of the attempt. *)
Lemma keeps_body_direct message chat_history client_id system_prompt :
  no_function_call env ->
  keeps_mem
    (generate_chat_response_body env message chat_history client_id system_prompt).
Proof.
  intros Hnone w.
  destruct (body_without_function_call env message chat_history client_id
              system_prompt w Hnone) as [[x ->]|(messages & r & ->)];
    reflexivity.
Qed.

Lemma keeps_generate_direct message chat_history client_id system_prompt :
  no_function_call env ->
  keeps_mem
    (generate_chat_response env message chat_history client_id system_prompt).
Proof.
  intros Hnone. unfold generate_chat_response, retry.
  apply keeps_retrying, keeps_body_direct, Hnone.
Qed.

End OrchestratorKeepsMem.

(** X21.  When the model asks for no function call, one call of
    [generate_chat_response], retries included, never touches the session
    store and only appends to the log; it makes at most 3 generation calls,
    contacts neither the embedder nor the vector index, and pauses at most
    twice; when the message list can be built it makes at least one
    generation call. *)
Theorem orchestrator_call_budget env message chat_history client_id system_prompt w :
  no_function_call env ->
  let w' :=
    after (generate_chat_response env message chat_history client_id system_prompt)
      w in
  mem w' = mem w /\
  exists rest,
    log w' = (log w ++ rest)%list /\
    (count_events is_generate rest <= 3)%nat /\
    count_events is_backend_call rest = 0%nat /\
    (count_events is_sleep rest <= 2)%nat /\
    count_events is_store_access rest = 0%nat /\
    (is_ok (_format_messages message chat_history system_prompt) = true ->
     (1 <= count_events is_generate rest)%nat).
Proof.
  intros Hnone. cbv zeta. unfold after.
  split; [now apply keeps_generate_direct|].
  set (run := generate_chat_response env message chat_history client_id
                system_prompt).
  assert (Hsame : forall p n,
             within p n run ->
             forall rest, log (snd (run w)) = (log w ++ rest)%list ->
                          (count_events p rest <= n)%nat).
  { intros p n Hw rest Hrest. destruct (Hw w) as (rest' & Hl & Hc).
    rewrite Hrest in Hl. apply app_inv_head in Hl. now subst rest'. }
  assert (Hrun : forall p g z,
             (forall messages b, (cost p (EvGenerate messages b) <= g)%nat) ->
             (forall x, (cost p (EvSleep x) <= z)%nat) ->
             within p (3 * g + 2 * z) run).
  { intros p g z Hg Hz.
    now apply (within_generate_direct env p g z). }
  destruct (Hrun is_generate 1%nat 0%nat
              ltac:(intros; cbn; lia) ltac:(intros; cbn; lia) w)
    as (rest & Hrest & Hgen).
  exists rest. split; [exact Hrest|].
  split; [simpl in Hgen; lia|].
  split.
  { assert (H0 : (count_events is_backend_call rest <= 0)%nat); [|lia].
    apply (Hsame is_backend_call (3 * 0 + 2 * 0)%nat); [|exact Hrest].
    apply Hrun; intros; cbn; lia. }
  split.
  { apply (Hsame is_sleep (3 * 0 + 2 * 1)%nat); [|exact Hrest].
    apply Hrun; intros; cbn; lia. }
  split.
  { assert (H0 : (count_events is_store_access rest <= 0)%nat); [|lia].
    apply (Hsame is_store_access (3 * 0 + 2 * 0)%nat); [|exact Hrest].
    apply Hrun; intros; cbn; lia. }
  intros Hok.
  destruct (_format_messages message chat_history system_prompt)
    as [messages|] eqn:Hf; [|discriminate].
  destruct (generate_log env message chat_history client_id system_prompt
              messages w Hf) as [rest' Hl].
  fold run in Hl. rewrite Hrest in Hl. apply app_inv_head in Hl. subst rest.
  cbn [count_events is_generate]. lia.
Qed.

Lemma orchestrator_call_budget_witness :
  no_function_call env_bad_shape_once /\
  exists rest,
    log (after (generate_chat_response env_bad_shape_once "hello" [] PNone None)
           init_world) = rest /\
    count_events is_generate rest = 2%nat /\
    count_events is_sleep rest = 1%nat /\
    count_events is_backend_call rest = 0%nat.
Proof.
  assert (Hnone : no_function_call env_bad_shape_once).
  { intros l messages b m rest. cbn.
    destruct (count_events is_generate l); cbn; intros H; [discriminate|].
    now injection H as <- _. }
  split; [exact Hnone|].
  destruct (orchestrator_call_budget env_bad_shape_once "hello" [] PNone None
              init_world Hnone) as (_ & rest & Hrest & _ & Hback & _).
  cbn [log init_world app] in Hrest. exists rest. split; [exact Hrest|].
  split; [rewrite <- Hrest; reflexivity|].
  split; [rewrite <- Hrest; reflexivity|exact Hback].
Defined.

(* ===================================================================== *)
(** ** Route: a request that is served *)
(* ===================================================================== *)

Section ServedRequest.

Variable env : Env.

Lemma chat_session_at d w :
  session_id_usable d ->
  let w1 := logged w EvUtcnow in
  let sid := request_session env d w in
  returns
    (if truthy (dict_get "session_id" d)
     then lift (session_key (dict_get "session_id" d))
     else create_session env (dict_get "client_id" d))
    w1
    (fun s w2 =>
       s = sid /\
       _quiz_answers (mem w2) = _quiz_answers (mem w) /\
       turns (mem w2) sid = prior_turns d w /\
       (forall sid', sid' <> sid -> turns (mem w2) sid' = turns (mem w) sid') /\
       exists pre, log w2 = (log w ++ pre)%list /\
                   count_events is_generate pre = O).
Proof.
  cbv zeta. unfold request_session, prior_turns.
  intros [(s & Hs & Hne)|Hs].
  - rewrite Hs. simpl. apply String.eqb_neq in Hne. rewrite Hne. simpl.
    eapply returns_lift; [reflexivity|].
    repeat split. now exists [EvUtcnow].
  - rewrite Hs. eapply returns_eq; [apply create_session_eq|].
    cbn [mem log _store _quiz_answers logged]. repeat split.
    + unfold turns. cbn [_store]. now rewrite lookup_insert_eq.
    + intros sid' Hne. unfold turns. cbn [_store].
      rewrite lookup_insert_ne; [reflexivity|congruence].
    + eexists. rewrite <- !app_assoc. split; reflexivity.
Qed.

(** The run of a request that reaches the orchestrator, given that the
    orchestrator leaves the store alone. *)
Lemma chat_run d w text sp :
  (forall message chat_history client_id system_prompt,
      keeps_mem
        (generate_chat_response env message chat_history client_id system_prompt)) ->
  resolve_message d = Ok (PStr text) ->
  text <> EmptyString ->
  session_id_usable d ->
  quiz_usable d ->
  build_system_prompt (quiz_in_force env d w) = Ok sp ->
  returns (chat env (PDict d)) w (request_served env d w text sp).
Proof.
  intros Hkeeps Hres Htext Hsid Hquiz Hsp.
  assert (Htruthy : truthy (PStr text) = true).
  { simpl. apply String.eqb_neq in Htext. now rewrite Htext. }
  cut (returns (chat_body env (PDict d)) w (request_served env d w text sp)).
  { intros (r & w' & Hb & HP). exists r, w'. split; [|exact HP].
    unfold chat, try_except. now rewrite Hb. }
  unfold chat_body.
  apply returns_bind. eapply returns_lift; [exact Hres|].
  rewrite Htruthy. cbn [negb].
  apply returns_bind, returns_ret.
  apply returns_bind. eapply returns_call; [reflexivity|].
  apply returns_bind. eapply returns_lift; [reflexivity|].
  fold (user_turn text (utcnow env (log w))).
  set (turn := user_turn text (utcnow env (log w))).
  apply returns_bind.
  destruct (chat_session_at d w Hsid)
    as (s & w2 & Hs & -> & Hq2 & Hturns & Hothers & pre2 & Hlog2 & Hpre2).
  eapply returns_eq; [exact Hs|]. clear Hs.
  set (sid := request_session env d w) in *.
  apply returns_bind. eapply returns_eq; [apply add_message_turn|].
  fold turn. fold (appended sid turn w2).
  (* the quiz answers of the request *)
  apply returns_bind.
  set (q := dict_get "quiz_answers" d) in *.
  assert (Hstore : returns
            (if truthy q then store_quiz_answers sid q else ret tt)
            (appended sid turn w2)
            (fun _ w4 =>
               _store (mem w4) = _store (mem (appended sid turn w2)) /\
               _quiz_answers (mem w4)
               = (if truthy q then <[sid := q]> (_quiz_answers (mem w))
                  else _quiz_answers (mem w)) /\
               exists pre, log w4 = (log w ++ pre)%list /\
                           count_events is_generate pre = O)).
  { destruct (truthy q) eqn:Hq.
    - destruct Hquiz as [Hf|Hm]; [fold q in Hf; congruence|]. fold q in Hm.
      eapply returns_eq; [rewrite store_quiz_answers_eq, Hm; reflexivity|].
      cbn [mem _store _quiz_answers log appended]. rewrite Hq2.
      repeat split. rewrite Hlog2. eexists. rewrite <- !app_assoc.
      split; [reflexivity|]. rewrite count_events_app, Hpre2. reflexivity.
    - apply returns_ret. cbn [mem _quiz_answers appended log]. rewrite Hq2.
      repeat split. rewrite Hlog2. eexists. rewrite <- !app_assoc.
      split; [reflexivity|]. rewrite count_events_app, Hpre2. reflexivity. }
  destruct Hstore as (u & w4 & Hrun & Hst4 & Hq4 & pre4 & Hlog4 & Hpre4).
  eapply returns_eq; [exact Hrun|]. clear Hrun.
  assert (Hturns4 : turns (mem w4) sid = (prior_turns d w ++ [turn])%list).
  { unfold turns. rewrite Hst4. fold (turns (mem (appended sid turn w2)) sid).
    now rewrite turns_appended_same, Hturns. }
  assert (Hothers4 : forall sid', sid' <> sid ->
                                  turns (mem w4) sid' = turns (mem w) sid').
  { intros sid' Hne. unfold turns at 1. rewrite Hst4.
    fold (turns (mem (appended sid turn w2)) sid').
    rewrite turns_appended_other by exact Hne. now apply Hothers. }
  apply returns_bind. eapply returns_eq; [apply get_messages_eq|].
  rewrite Hturns4.
  apply returns_bind. eapply returns_eq; [apply get_quiz_answers_eq|].
  cbn [logged mem log].
  assert (Hforce : default PNone (_quiz_answers (mem w4) !! sid)
                   = quiz_in_force env d w).
  { unfold quiz_in_force. fold q sid. rewrite Hq4.
    destruct (truthy q); [now rewrite lookup_insert_eq|reflexivity]. }
  rewrite Hforce.
  apply returns_bind. eapply returns_lift; [exact Hsp|].
  apply returns_bind.
  set (hist := (prior_turns d w ++ [turn])%list).
  match goal with
  | |- returns (try_except ?gen _) ?w0 _ =>
      set (run := gen); set (w5 := w0);
      assert (Hstep : forall (r : ChatResponse) w6,
                snd (run w5) = w6 ->
                (r = fallback_response \/ run w5 = (Ok r, w6)) ->
                returns
                  (let* now := call EvUtcnow (fun l => Ok (utcnow env l)) in
                   let* assistant_message :=
                     lift (ChatMessage_dict "assistant" (PStr (content r)) now) in
                   add_message sid assistant_message ;; ret r)
                  w6 (request_served env d w text sp))
  end.
  { intros r w6 Hw6 Hr.
    assert (Hmem6 : mem w6 = mem w4).
    { rewrite <- Hw6. unfold run. now rewrite Hkeeps. }
    apply returns_bind. eapply returns_call; [reflexivity|].
    apply returns_bind. eapply returns_lift; [reflexivity|].
    apply returns_bind. eapply returns_eq; [apply add_message_turn|].
    apply returns_ret. unfold request_served. cbv zeta.
    fold sid q turn hist. cbn [mem log logged _store _quiz_answers].
    rewrite Hmem6. split; [|split; [|split; [|split]]].
    - exists (utcnow env (log w6)). unfold turns at 1. cbn [_store].
      rewrite lookup_insert_eq. cbn [default from_option id].
      rewrite Hturns4. reflexivity.
    - intros sid' Hne. unfold turns at 1. cbn [_store].
      rewrite lookup_insert_ne by congruence. now apply Hothers4.
    - exact Hq4.
    - intros messages Hfmt.
      destruct (generate_log env text hist (dict_get "client_id" d) (Some sp)
                  messages w5 Hfmt) as [rest Hrest].
      fold run in Hrest. rewrite Hw6 in Hrest. rewrite Hrest.
      unfold w5, logged. cbn [log mem]. rewrite Hlog4.
      exists (pre4 ++ [EvStore "get_messages" sid;
                       EvStore "get_quiz_answers" sid])%list,
             (rest ++ [EvUtcnow; EvStore "add_message" sid])%list.
      split.
      + repeat (rewrite <- app_assoc; cbn [app]). reflexivity.
      + rewrite count_events_app, Hpre4. reflexivity.
    - destruct Hr as [->|Hr]; [now left|]. right. now exists w5, w6. }
  apply returns_try_either.
  - intros r w6 Hg. apply (Hstep r w6); [now rewrite Hg|now right].
  - intros e w6 Hg. apply returns_ret.
    apply (Hstep fallback_response w6); [now rewrite Hg|now left].
Qed.

End ServedRequest.




(** X22.  When the model asks for no function call, a request with a
    non-empty text message, a usable session id and usable quiz answers
    whose prompt can be built is always answered, whatever the generation
    calls return or raise: the route returns a reply, which is the
    orchestrator's or, when the orchestrator raised, the canned apology.
    Afterwards the session of the request holds the turns it had before,
    then the user turn, then an assistant turn with the text of the reply;
    the turns of every other session are untouched. *)
Theorem served_request_stores_both_turns env d w text sp :
  no_function_call env ->
  resolve_message d = Ok (PStr text) ->
  text <> EmptyString ->
  session_id_usable d ->
  quiz_usable d ->
  build_system_prompt (quiz_in_force env d w) = Ok sp ->
  let sid := request_session env d w in
  exists r w' t2,
    chat env (PDict d) w = (Ok r, w') /\
    outcome (get_messages sid) w'
    = Ok (prior_turns d w
          ++ [user_turn text (utcnow env (log w));
              assistant_turn (content r) t2])%list /\
    (forall sid', sid' <> sid ->
                  outcome (get_messages sid') w' = outcome (get_messages sid') w) /\
    (r = fallback_response \/
     exists w5 w6,
       generate_chat_response env text
         (prior_turns d w ++ [user_turn text (utcnow env (log w))])%list
         (dict_get "client_id" d) (Some sp) w5 = (Ok r, w6)).
Proof.
  intros Hnone Hres Htext Hsid Hquiz Hsp. cbv zeta.
  assert (Hkeeps : forall message chat_history client_id system_prompt,
             keeps_mem
               (generate_chat_response env message chat_history client_id
                  system_prompt)).
  { intros. now apply keeps_generate_direct. }
  destruct (chat_run env d w text sp Hkeeps Hres Htext Hsid Hquiz Hsp)
    as (r & w' & Hchat & (t2 & Hturns) & Hothers & _ & _ & Hr).
  exists r, w', t2. split; [exact Hchat|]. split; [|split; [|exact Hr]].
  - rewrite get_messages_turns, Hturns, <- app_assoc. reflexivity.
  - intros sid' Hne. rewrite !get_messages_turns. now rewrite Hothers.
Qed.

Lemma served_request_stores_both_turns_witness :
  no_function_call env_direct /\
  exists r w' t2,
    chat env_direct (PDict [("message", PStr "I have trouble sleeping")])
      init_world = (Ok r, w') /\
    outcome (get_messages
               (request_session env_direct
                  [("message", PStr "I have trouble sleeping")] init_world)) w'
    = Ok [user_turn "I have trouble sleeping" 0;
          assistant_turn (content r) t2].
Proof.
  assert (Hnone : no_function_call env_direct).
  { intros l messages b m rest H. cbn in H. now injection H as <- _. }
  split; [exact Hnone|].
  destruct (served_request_stores_both_turns env_direct
              [("message", PStr "I have trouble sleeping")] init_world
              "I have trouble sleeping" base_prompt Hnone)
    as (r & w' & t2 & Hchat & Hturns & _).
  - reflexivity.
  - discriminate.
  - right. reflexivity.
  - left. reflexivity.
  - reflexivity.
  - exists r, w', t2. split; [exact Hchat|exact Hturns].
Defined.

Section SystemPrompt.

Lemma built_prompt_not_empty v sp :
  build_system_prompt v = Ok sp -> String.eqb sp EmptyString = false.
Proof.
  intros H. destruct (build_system_prompt_prefix v sp H) as [suffix ->].
  reflexivity.
Qed.

End SystemPrompt.

(** X23.  The quiz answers of a request are stored for its session and
    drive the prompt: the system turn of the first generation call is the
    prompt built from the answers of the request when it brings some, else
    from the answers stored for the session; answers brought by the request
    are what [get_quiz_answers] returns afterwards, and a request without
    answers leaves the stored ones as they are. *)
Theorem quiz_answers_drive_the_system_prompt env d w text sp :
  resolve_message d = Ok (PStr text) ->
  text <> EmptyString ->
  session_id_usable d ->
  quiz_usable d ->
  build_system_prompt (quiz_in_force env d w) = Ok sp ->
  is_ok (format_history (prior_turns d w)) = true ->
  let sid := request_session env d w in
  let q := dict_get "quiz_answers" d in
  exists r w' others,
    chat env (PDict d) w = (Ok r, w') /\
    first_call_is w (RoleContent (PStr "system") (PStr sp) :: others) w' /\
    (truthy q = true -> outcome (get_quiz_answers sid) w' = Ok q) /\
    (truthy q = false -> _quiz_answers (mem w') = _quiz_answers (mem w)).
Proof.
  intros Hres Htext Hsid Hquiz Hsp Hhist. cbv zeta.
  destruct (chat_run env d w text sp (keeps_generate env)
              Hres Htext Hsid Hquiz Hsp)
    as (r & w' & Hchat & _ & _ & Hq & Hfirst & _).
  destruct (format_history (prior_turns d w)) as [history|] eqn:Hh;
    [|discriminate].
  exists r, w'. eexists. split; [exact Hchat|]. split; [|split].
  - apply Hfirst. unfold _format_messages.
    rewrite (built_prompt_not_empty _ _ Hsp).
    rewrite (format_history_app (prior_turns d w) history
               (user_turn text (utcnow env (log w)))
               (RoleContent (PStr "user") (PStr text)) Hh eq_refl).
    reflexivity.
  - intros Ht. unfold outcome. rewrite get_quiz_answers_eq. cbn [fst].
    rewrite Hq, Ht.
    now rewrite lookup_insert_eq.
  - intros Hf. now rewrite Hq, Hf.
Qed.

Lemma quiz_answers_drive_the_system_prompt_witness :
  let d := [("message", PStr "I have trouble sleeping");
            ("session_id", PStr "s1");
            ("quiz_answers", PDict [("health_goals", PList [PStr "sleep"])])] in
  exists r w' others,
    chat env_direct (PDict d) init_world = (Ok r, w') /\
    first_call_is init_world
      (RoleContent (PStr "system")
         (PStr (base_prompt +:+ context_header +:+ "Health goals: sleep"))
       :: others) w' /\
    outcome (get_quiz_answers "s1") w'
    = Ok (PDict [("health_goals", PList [PStr "sleep"])]).
Proof.
  cbv zeta.
  destruct (quiz_answers_drive_the_system_prompt env_direct
              [("message", PStr "I have trouble sleeping");
               ("session_id", PStr "s1");
               ("quiz_answers", PDict [("health_goals", PList [PStr "sleep"])])]
              init_world "I have trouble sleeping"
              (base_prompt +:+ context_header +:+ "Health goals: sleep"))
    as (r & w' & others & Hchat & Hfirst & Hq & _).
  - reflexivity.
  - discriminate.
  - left. exists "s1". split; [reflexivity|discriminate].
  - right. reflexivity.
  - reflexivity.
  - reflexivity.
  - exists r, w', others. split; [exact Hchat|]. split; [exact Hfirst|].
    apply Hq. reflexivity.
Defined.

(* ===================================================================== *)
(** ** Route: requests that are refused late, and the message of a request *)
(* ===================================================================== *)

Section LateRefusal.

Context {A B : Type}.

Lemma bind_ok_eq (m : M A) (k : A -> M B) w a w1 :
  m w = (Ok a, w1) -> bind m k w = k a w1.
Proof. intros H. unfold bind. now rewrite H. Qed.

Lemma bind_raise_eq (m : M A) (k : A -> M B) w e w1 :
  m w = (Raise e, w1) -> bind m k w = (Raise e, w1).
Proof. intros H. unfold bind. now rewrite H. Qed.

End LateRefusal.

(** X24.  Quiz answers that are not a mapping (a non-empty list, a text, a
    number) make the request fail with a 500 that quotes the [ValueError] of
    the store, but only after the user turn has been stored: the session
    holds the user turn afterwards although the request failed; no
    generation call is made and the stored quiz answers are unchanged. *)
Theorem bad_quiz_answers_fail_after_the_user_turn env d w text :
  resolve_message d = Ok (PStr text) ->
  text <> EmptyString ->
  session_id_usable d ->
  truthy (dict_get "quiz_answers" d) = true ->
  is_mapping (dict_get "quiz_answers" d) = false ->
  let sid := request_session env d w in
  exists w' rest,
    chat env (PDict d) w
    = (Raise (HTTPException 500
                ("Error processing chat request: "
                 +:+ str_exn env (ValueError "Answers must be a dictionary"))),
       w') /\
    outcome (get_messages sid) w'
    = Ok (prior_turns d w ++ [user_turn text (utcnow env (log w))])%list /\
    _quiz_answers (mem w') = _quiz_answers (mem w) /\
    log w' = (log w ++ rest)%list /\
    count_events is_generate rest = 0%nat.
Proof.
  intros Hres Htext Hsid Hq Hm. cbv zeta.
  assert (Htruthy : truthy (PStr text) = true).
  { simpl. apply String.eqb_neq in Htext. now rewrite Htext. }
  destruct (chat_session_at env d w Hsid)
    as (s & w2 & Hs & -> & Hq2 & Hturns & _ & pre2 & Hlog2 & Hpre2).
  set (sid := request_session env d w) in *.
  set (turn := user_turn text (utcnow env (log w))).
  assert (Hbody : chat_body env (PDict d) w
                  = (Raise (ValueError "Answers must be a dictionary"),
                     logged (appended sid turn w2)
                       (EvStore "store_quiz_answers" sid))).
  { unfold chat_body.
    rewrite (bind_ok_eq _ _ w (PStr text) w) by (unfold lift; now rewrite Hres).
    rewrite Htruthy. cbn [negb].
    rewrite (bind_ok_eq _ _ w tt w) by reflexivity.
    rewrite (bind_ok_eq _ _ w (utcnow env (log w)) (logged w EvUtcnow))
      by reflexivity.
    rewrite (bind_ok_eq _ _ _ turn (logged w EvUtcnow)) by reflexivity.
    rewrite (bind_ok_eq _ _ _ sid w2) by exact Hs.
    rewrite (bind_ok_eq _ _ _ tt (appended sid turn w2))
      by apply add_message_turn.
    rewrite Hq.
    apply bind_raise_eq. rewrite store_quiz_answers_eq, Hm.
    unfold logged. cbn [mem]. now rewrite store_record_eta. }
  eexists. exists (pre2 ++ [EvStore "add_message" sid;
                            EvStore "store_quiz_answers" sid])%list.
  split; [unfold chat, try_except; rewrite Hbody; reflexivity|].
  unfold outcome. rewrite get_messages_eq. cbn [fst logged mem log].
  rewrite turns_appended_same, Hturns. split; [reflexivity|].
  split; [exact Hq2|]. unfold appended. cbn [log]. rewrite Hlog2.
  split; [now rewrite <- !app_assoc|].
  rewrite count_events_app, Hpre2. reflexivity.
Qed.

Lemma bad_quiz_answers_fail_after_the_user_turn_witness :
  let d := [("message", PStr "hello"); ("session_id", PStr "s1");
            ("quiz_answers", PList [PStr "sleep"])] in
  exists w' rest,
    chat env_direct (PDict d) init_world
    = (Raise (HTTPException 500
                ("Error processing chat request: "
                 +:+ str_exn env_direct
                       (ValueError "Answers must be a dictionary"))),
       w') /\
    outcome (get_messages "s1") w' = Ok [user_turn "hello" 0] /\
    _quiz_answers (mem w') = _quiz_answers (mem init_world) /\
    log w' = (log init_world ++ rest)%list /\
    count_events is_generate rest = 0%nat.
Proof.
  cbv zeta.
  apply (bad_quiz_answers_fail_after_the_user_turn env_direct
           [("message", PStr "hello"); ("session_id", PStr "s1");
            ("quiz_answers", PList [PStr "sleep"])] init_world "hello").
  - reflexivity.
  - discriminate.
  - left. exists "s1". split; [reflexivity|discriminate].
  - reflexivity.
  - reflexivity.
Defined.

Section ResolveMessage.

Lemma resolve_message_last d ms x :
  truthy (dict_get "message" d) = false ->
  dict_lookup "messages" d = Some (PList (ms ++ [x])) ->
  resolve_message d = py_get x "content".
Proof.
  intros Hf Hl. unfold resolve_message. rewrite Hf, Hl. cbn [negb].
  destruct ms as [|m ms]; [reflexivity|].
  cbn [app]. destruct ms as [|m' ms]; [reflexivity|].
  change ((m' :: ms) ++ [x])%list with (m' :: (ms ++ [x]))%list.
  f_equal.
  change (m' :: ms ++ [x])%list with ((m' :: ms) ++ [x])%list.
  apply List.last_last.
Qed.

End ResolveMessage.

(** X25.  The message of a request: a non-empty ['message'] is used as it
    is, whatever ['messages'] holds; without it, the content of the last
    entry of a non-empty ['messages'] list is used, and a last entry that is
    not a mapping makes the lookup raise [AttributeError]; without either,
    or with a ['messages'] that is empty or not a list, the request has no
    message. *)
Theorem request_message_comes_from_message_or_last_entry d :
  (truthy (dict_get "message" d) = true ->
   resolve_message d = Ok (dict_get "message" d)) /\
  (forall ms m,
      truthy (dict_get "message" d) = false ->
      dict_lookup "messages" d = Some (PList (ms ++ [PDict m])) ->
      resolve_message d = Ok (dict_get "content" m)) /\
  (forall ms x,
      truthy (dict_get "message" d) = false ->
      dict_lookup "messages" d = Some (PList (ms ++ [x])) ->
      is_mapping x = false ->
      resolve_message d = Raise AttributeError) /\
  (forall v,
      truthy (dict_get "message" d) = false ->
      dict_get "messages" d = v ->
      truthy v = false \/ (forall l, v <> PList l) ->
      exists m, resolve_message d = Ok m /\ truthy m = false).
Proof.
  split; [|split; [|split]].
  - intros Ht. unfold resolve_message. now rewrite Ht.
  - intros ms m Hf Hl. now rewrite (resolve_message_last d ms (PDict m) Hf Hl).
  - intros ms x Hf Hl Hm. rewrite (resolve_message_last d ms x Hf Hl).
    now destruct x.
  - intros v Hf Hv Hcase. exists (dict_get "message" d). split; [|exact Hf].
    unfold resolve_message. rewrite Hf. cbn [negb].
    unfold dict_get, default in Hv.
    destruct (dict_lookup "messages" d) as [v'|]; [|reflexivity].
    cbn in Hv. subst v'.
    destruct v as [| | | | |l|]; try reflexivity.
    destruct Hcase as [Hfalsy|Hnot].
    + destruct l; [reflexivity|discriminate].
    + exfalso. now apply (Hnot l).
Qed.

Lemma request_message_comes_from_message_or_last_entry_witness :
  resolve_message
    [("messages", PList ([PDict [("content", PStr "first")]]
                         ++ [PDict [("content", PStr "last")]]))]
  = Ok (PStr "last").
Proof.
  apply (proj1 (proj2 (request_message_comes_from_message_or_last_entry
                         [("messages",
                            PList ([PDict [("content", PStr "first")]]
                                   ++ [PDict [("content", PStr "last")]]))]))
           [PDict [("content", PStr "first")]] [("content", PStr "last")]);
    reflexivity.
Defined.

(* ===================================================================== *)
(** ** Route: the budget of a request *)
(* ===================================================================== *)

Section RouteBudget.

Variable env : Env.
Variable p : Event -> bool.
Variable n : nat.
Hypothesis Hstore : forall op sid, p (EvStore op sid) = false.
Hypothesis Huuid : p EvUuid4 = false.
Hypothesis Hnow : p EvUtcnow = false.
Hypothesis Hgenerate : forall message chat_history client_id system_prompt,
    within p n
      (generate_chat_response env message chat_history client_id system_prompt).

Lemma within_one_quiet {A} (m : M A) ev :
  p ev = false ->
  (forall w, log (snd (m w)) = (log w ++ [ev])%list) ->
  within p 0 m.
Proof.
  intros Hp Hlog w. exists [ev]. split; [apply Hlog|]. simpl. now rewrite Hp.
Qed.

Lemma within_add_message session_id message : within p 0 (add_message session_id message).
Proof.
  apply (within_one_quiet _ (EvStore "add_message" session_id)); [apply Hstore|].
  intros w. destruct (valid_message message) eqn:Hv.
  - now rewrite add_message_valid_world.
  - now rewrite add_message_invalid.
Qed.

Lemma within_get_messages session_id : within p 0 (get_messages session_id).
Proof.
  apply (within_one_quiet _ (EvStore "get_messages" session_id)); [apply Hstore|].
  intros w. now rewrite get_messages_eq.
Qed.

Lemma within_get_quiz_answers session_id : within p 0 (get_quiz_answers session_id).
Proof.
  apply (within_one_quiet _ (EvStore "get_quiz_answers" session_id));
    [apply Hstore|].
  intros w. now rewrite get_quiz_answers_eq.
Qed.

Lemma within_store_quiz_answers session_id answers :
  within p 0 (store_quiz_answers session_id answers).
Proof.
  apply (within_one_quiet _ (EvStore "store_quiz_answers" session_id));
    [apply Hstore|].
  intros w. now rewrite store_quiz_answers_eq.
Qed.

Lemma within_create_session client_id : within p 0 (create_session env client_id).
Proof.
  intros w. rewrite create_session_eq. cbn [snd log].
  eexists. rewrite <- app_assoc. split; [reflexivity|].
  cbn. now rewrite Huuid, Hstore.
Qed.

Lemma within_utcnow : within p 0 (call EvUtcnow (fun l => Ok (utcnow env l))).
Proof.
  eapply within_weaken; [|apply within_call]. unfold cost. now rewrite Hnow.
Qed.

Lemma within_chat data : within p n (chat env data).
Proof.
  unfold chat.
  apply (within_weaken p (n + 0)); [lia|].
  apply within_try_except; [|intros x; apply within_raise].
  unfold chat_body. destruct data as [| | | | | |d];
    try (eapply within_weaken; [|apply within_raise]; lia).
  apply (within_weaken p (0 + (0 + (0 + (0 + (0 + (0 + (0 + (0 + (0 + (0 +
                            ((n + 0) + (0 + (0 + (0 + 0))))))))))))))); [lia|].
  apply within_bind; [apply within_lift|intros message].
  apply within_bind.
  { destruct (negb (truthy message)); [apply within_raise|apply within_ret]. }
  intros _. apply within_bind; [apply within_utcnow|intros now].
  apply within_bind; [apply within_lift|intros user_message].
  apply within_bind.
  { destruct (truthy (dict_get "session_id" d));
      [apply within_lift|apply within_create_session]. }
  intros sid. apply within_bind; [apply within_add_message|intros _].
  apply within_bind.
  { destruct (truthy (dict_get "quiz_answers" d));
      [apply within_store_quiz_answers|apply within_ret]. }
  intros _. apply within_bind; [apply within_get_messages|intros chat_hist].
  apply within_bind; [apply within_get_quiz_answers|intros stored].
  apply within_bind; [apply within_lift|intros system_prompt].
  apply within_bind.
  { apply within_try_except; [apply Hgenerate|intros x; apply within_ret]. }
  intros response. apply within_bind; [apply within_utcnow|intros now2].
  apply within_bind; [apply within_lift|intros assistant_message].
  apply within_bind; [apply within_add_message|intros _]. apply within_ret.
Qed.

End RouteBudget.

(** X26.  When the model asks for no function call, one call of the [chat]
    route, whatever the body of the request is (provided that it names its
    session by a text or not at all) and whatever the generation calls
    return or raise, only appends to the log, makes at most 3 generation
    calls, contacts neither the embedder nor the vector index, and pauses at
    most twice. *)
Theorem request_call_budget env data w :
  no_function_call env ->
  (forall d, data = PDict d -> session_id_usable d) ->
  exists rest,
    log (after (chat env data) w) = (log w ++ rest)%list /\
    (count_events is_generate rest <= 3)%nat /\
    count_events is_backend_call rest = 0%nat /\
    (count_events is_sleep rest <= 2)%nat.
Proof.
  intros Hnone _. unfold after.
  assert (Hsame : forall p n,
             within p n (chat env data) ->
             forall rest, log (snd (chat env data w)) = (log w ++ rest)%list ->
                          (count_events p rest <= n)%nat).
  { intros p n Hw rest Hrest. destruct (Hw w) as (rest' & Hl & Hc).
    rewrite Hrest in Hl. apply app_inv_head in Hl. now subst rest'. }
  assert (Hchat : forall p g z,
             (forall op sid, p (EvStore op sid) = false) ->
             p EvUuid4 = false -> p EvUtcnow = false ->
             (forall messages b, (cost p (EvGenerate messages b) <= g)%nat) ->
             (forall x, (cost p (EvSleep x) <= z)%nat) ->
             within p (3 * g + 2 * z) (chat env data)).
  { intros p g z H1 H2 H3 H4 H5.
    apply within_chat; trivial. intros. now apply within_generate_direct. }
  destruct (Hchat is_generate 1%nat 0%nat
              ltac:(reflexivity) ltac:(reflexivity) ltac:(reflexivity)
              ltac:(intros; cbn; lia) ltac:(intros; cbn; lia) w)
    as (rest & Hrest & Hgen).
  exists rest. split; [exact Hrest|]. split; [simpl in Hgen; lia|].
  split.
  { assert (H0 : (count_events is_backend_call rest <= 0)%nat); [|lia].
    apply (Hsame is_backend_call (3 * 0 + 2 * 0)%nat); [|exact Hrest].
    apply Hchat; intros; cbn; (reflexivity || lia). }
  apply (Hsame is_sleep (3 * 0 + 2 * 1)%nat); [|exact Hrest].
  apply Hchat; intros; cbn; (reflexivity || lia).
Qed.

Lemma request_call_budget_witness :
  no_function_call env_bad_shape_once /\
  exists rest,
    log (after (chat env_bad_shape_once (PDict [("message", PStr "hello")]))
           init_world) = rest /\
    count_events is_generate rest = 2%nat /\
    count_events is_backend_call rest = 0%nat /\
    count_events is_sleep rest = 1%nat.
Proof.
  assert (Hnone : no_function_call env_bad_shape_once).
  { intros l messages b m rest. cbn.
    destruct (count_events is_generate l); cbn; intros H; [discriminate|].
    now injection H as <- _. }
  split; [exact Hnone|].
  destruct (request_call_budget env_bad_shape_once
              (PDict [("message", PStr "hello")]) init_world Hnone)
    as (rest & Hrest & _ & Hback & _).
  - intros d Hd. injection Hd as <-. right. reflexivity.
  - cbn [log init_world app] in Hrest. exists rest. split; [exact Hrest|].
    split; [rewrite <- Hrest; reflexivity|].
    split; [exact Hback|rewrite <- Hrest; reflexivity].
Defined.

(* ===================================================================== *)
(** ** utils.py: the retry decorator *)
(* ===================================================================== *)

Section RetryReraise.

Context {A : Type}.

Lemma retrying_reraise_own_exception (fn : M A) wait k attempt_number w e :
  fst (retrying_reraise k attempt_number wait fn w) = Raise e ->
  exists w0, fst (fn w0) = Raise e.
Proof.
  revert attempt_number w. induction k as [|k IH]; intros a w H;
    cbn [retrying_reraise] in H; unfold try_except in H;
    destruct (fn w) as [[r|e1] w1] eqn:E; try discriminate.
  - unfold raise in H. cbn in H. injection H as <-. exists w. now rewrite E.
  - unfold bind, emit in H. exact (IH _ _ H).
Qed.

End RetryReraise.

(** X27.  [retry_async_function] runs the wrapped function at most twice,
    with a pause of one second before the second run: the result of the
    first run is returned when it succeeds, else the outcome of the second
    run is the outcome of the call, so that a failure surfaces as the
    exception of the function itself and not as a [RetryError].  For any
    attempt budget, an exception that leaves the decorator is one that the
    function raised. *)
Theorem retry_async_function_reraises {A} (func : M A) w :
  retry_async_function func w
  = match func w with
    | (Ok r, w1) => (Ok r, w1)
    | (Raise _, w1) => func (logged w1 (EvSleep 1))
    end /\
  (forall max_attempts min_wait max_wait e,
      outcome (create_retry_decorator max_attempts min_wait max_wait func) w
      = Raise e ->
      exists w0, outcome func w0 = Raise e).
Proof.
  split.
  - unfold retry_async_function, create_retry_decorator.
    cbn [Nat.sub retrying_reraise]. unfold try_except at 1.
    destruct (func w) as [[r|e1] w1]; [reflexivity|].
    unfold bind at 1. unfold emit at 1. unfold try_except.
    change (wait_exponential 1 1 10 1) with 1. fold (logged w1 (EvSleep 1)).
    now destruct (func (logged w1 (EvSleep 1))) as [[r|e2] w2].
  - intros max_attempts min_wait max_wait e H.
    exact (retrying_reraise_own_exception func _ _ _ w e H).
Qed.

(* ===================================================================== *)
(** ** Upload script: payloads and batches *)
(* ===================================================================== *)

Section Batches.

Context {A : Type}.

Lemma slice_shift (l : list A) s i :
  py_slice l (s + i) (s + i + s) = py_slice (skipn s l) i (i + s).
Proof.
  unfold py_slice. rewrite skipn_skipn.
  replace (i + s)%nat with (s + i)%nat by lia.
  f_equal; lia.
Qed.

Lemma batches_from_concat s k (l : list A) :
  (0 < s)%nat -> (length l <= k * s)%nat ->
  concat (map (fun i => py_slice l i (i + s)) (map (fun j => (j * s)%nat) (seq 0 k)))
  = l.
Proof.
  intros Hs. revert l. induction k as [|k IH]; intros l Hl.
  - destruct l; [reflexivity|simpl in Hl; lia].
  - cbn [seq map concat]. rewrite <- seq_shift, !map_map.
    rewrite (map_ext _ (fun j => py_slice (skipn s l) (j * s) (j * s + s))).
    + rewrite <- (map_map (fun j => (j * s)%nat)
                          (fun i => py_slice (skipn s l) i (i + s))).
      rewrite IH.
      * unfold py_slice. cbn [skipn Nat.mul Nat.add].
        replace (s - 0)%nat with s by lia. apply firstn_skipn.
      * rewrite length_skipn. lia.
    + intros j. cbn [Nat.mul]. apply slice_shift.
Qed.

Lemma ceil_covers n s : (0 < s)%nat -> (n <= (n + s - 1) / s * s)%nat.
Proof.
  intros Hs.
  pose proof (Nat.div_mod (n + s - 1) s ltac:(lia)) as Hdm.
  pose proof (Nat.mod_upper_bound (n + s - 1) s ltac:(lia)) as Hlt.
  nia.
Qed.

Lemma ceil_tight n s j :
  (0 < s)%nat -> (j < (n + s - 1) / s)%nat -> (j * s < n)%nat.
Proof.
  intros Hs Hj.
  pose proof (Nat.div_mod (n + s - 1) s ltac:(lia)) as Hdm.
  pose proof (Nat.mod_upper_bound (n + s - 1) s ltac:(lia)) as Hlt.
  nia.
Qed.

End Batches.

(** X28.  The upload loop neither loses nor repeats a point: the batches,
    taken in order, make up the list of points again; every batch holds at
    least one and at most 100 points; there are as many batches as 100 goes
    into the number of points, rounded up, and none for an empty list. *)
Theorem upload_batches_partition {A} (all_points : list A) :
  concat (upload_batches BATCH_SIZE all_points) = all_points /\
  Forall (fun batch => (1 <= length batch <= 100)%nat)
         (upload_batches BATCH_SIZE all_points) /\
  length (upload_batches BATCH_SIZE all_points)
  = Nat.div (length all_points + 99) 100.
Proof.
  unfold upload_batches, py_range_step, BATCH_SIZE. split; [|split].
  - apply batches_from_concat; [lia|]. apply ceil_covers. lia.
  - apply List.Forall_forall. intros batch Hin.
    apply in_map_iff in Hin as (i & <- & Hi).
    apply in_map_iff in Hi as (j & <- & Hj).
    apply in_seq in Hj.
    pose proof (ceil_tight (length all_points) 100 j ltac:(lia) ltac:(lia)) as Hlt.
    unfold py_slice. rewrite length_firstn, length_skipn. lia.
  - rewrite !length_map, length_seq. f_equal. lia.
Qed.

(** X29.  What the upload script writes is what the search adapter reads:
    the payload of a catalogue entry holds every key that [query_qdrant]
    looks up, so a hit that carries it is handed to the product constructor
    with the title, description, image and link of the entry (the empty text
    for an absent one) and with its printed price and id; a catalogue entry
    that is not a mapping makes the script fail with [AttributeError]. *)
Theorem uploaded_payload_is_what_search_reads env :
  (forall d, exists payload,
      payload_of_product env (PDict d) = Ok payload /\
      Forall (fun key => dict_contains key payload = true)
             ["id"; "title"; "description"; "price"; "image"; "link"] /\
      forall hit,
        hit_payload hit = PDict payload ->
        product_of_hit env hit
        = validate_product env
            {| p_id := py_str env (PStr (py_str env (dict_get "id" d)));
               p_name := from_option id (PStr EmptyString) (dict_lookup "title" d);
               p_description :=
                 from_option id (PStr EmptyString) (dict_lookup "description" d);
               p_price :=
                 PStr (py_str env (from_option id (PStr "0.00")
                                     (dict_lookup "price" d)));
               p_currency := "USD";
               p_image_url := from_option id (PStr EmptyString) (dict_lookup "image" d);
               p_product_url := from_option id (PStr EmptyString) (dict_lookup "link" d);
               p_score := hit_score hit;
               p_brand := "Brightside" |}) /\
  (forall v, is_mapping v = false ->
             payload_of_product env v = Raise AttributeError).
Proof.
  split.
  - intros d. eexists. split; [reflexivity|]. split; [repeat constructor|].
    intros hit Hp. unfold product_of_hit. rewrite Hp. reflexivity.
  - intros v Hv. now destruct v.
Qed.

(* ===================================================================== *)
(** ** utils.py: [clean_description] *)
(* ===================================================================== *)

Section CleanDescription.

Import Text Clean.

Lemma all_chars_impl (f g : ascii -> bool) s :
  (forall c, f c = true -> g c = true) ->
  all_chars f s = true -> all_chars g s = true.
Proof.
  intros Hfg. induction s as [|c s IH]; [reflexivity|]. simpl.
  rewrite !andb_true_iff. intros [Hc Hs]. split; [now apply Hfg|now apply IH].
Qed.

Lemma all_chars_app f a b :
  all_chars f (a +:+ b) = all_chars f a && all_chars f b.
Proof.
  induction a as [|c a IH]; [reflexivity|]. simpl. now rewrite IH, andb_assoc.
Qed.

Lemma all_chars_lstrip f s : all_chars f s = true -> all_chars f (lstrip s) = true.
Proof.
  induction s as [|c s IH]; [reflexivity|]. simpl.
  destruct (is_space c); [|trivial].
  rewrite andb_true_iff. intros [_ Hs]. now apply IH.
Qed.

Lemma all_chars_rstrip f s : all_chars f s = true -> all_chars f (rstrip s) = true.
Proof.
  induction s as [|c s IH]; [reflexivity|]. simpl.
  rewrite andb_true_iff. intros [Hc Hs]. specialize (IH Hs).
  destruct (rstrip s) as [|b r].
  - destruct (is_space c); [reflexivity|]. simpl. now rewrite Hc.
  - simpl in *. now rewrite Hc, IH.
Qed.

Lemma all_chars_strip f s : all_chars f s = true -> all_chars f (strip s) = true.
Proof. intros H. unfold strip. now apply all_chars_rstrip, all_chars_lstrip. Qed.

Lemma all_chars_filter f g s :
  all_chars f s = true ->
  all_chars (fun c => f c && g c) (filter_chars g s) = true.
Proof.
  induction s as [|c s IH]; [reflexivity|]. simpl.
  rewrite andb_true_iff. intros [Hc Hs].
  destruct (g c) eqn:Hg; [|now apply IH].
  simpl. now rewrite Hc, Hg, IH.
Qed.

Lemma filter_chars_id f s : all_chars f s = true -> filter_chars f s = s.
Proof.
  induction s as [|c s IH]; [reflexivity|]. simpl.
  rewrite andb_true_iff. intros [Hc Hs]. now rewrite Hc, IH.
Qed.

Lemma all_chars_concat f (ws : list string) :
  f " "%char = true ->
  Forall (fun w => all_chars f w = true) ws ->
  all_chars f (String.concat " " ws) = true.
Proof.
  intros Hsp Hws. induction Hws as [|w ws Hw Hws IH]; [reflexivity|].
  cbn [String.concat]. destruct ws as [|w' ws]; [exact Hw|].
  rewrite !all_chars_app, Hw, IH. simpl. now rewrite Hsp.
Qed.

(** The words of [split] are runs without whitespace. *)
Lemma split_from_words f cur s :
  all_chars (fun c => f c && negb (is_space c)) cur = true ->
  all_chars f s = true ->
  Forall (fun w => all_chars (fun c => f c && negb (is_space c)) w = true
                   /\ w <> EmptyString)
         (split_from cur s).
Proof.
  revert cur. induction s as [|c s IH]; intros cur Hcur Hs.
  - simpl. destruct cur; [constructor|]. constructor; [|constructor].
    split; [exact Hcur|discriminate].
  - simpl in Hs. apply andb_true_iff in Hs as [Hc Hs]. simpl.
    destruct (is_space c) eqn:Hsp.
    + destruct cur as [|a cur].
      * now apply IH.
      * constructor; [split; [exact Hcur|discriminate]|]. now apply IH.
    + apply IH; [|exact Hs]. rewrite all_chars_app, Hcur. simpl.
      now rewrite Hc, Hsp.
Qed.

Lemma first_char_app a b :
  a <> EmptyString -> first_char (a +:+ b) = first_char a.
Proof. destruct a; [contradiction|reflexivity]. Qed.

Lemma last_char_app a b :
  b <> EmptyString -> last_char (a +:+ b) = last_char b.
Proof.
  intros Hb. induction a as [|c a IH]; [reflexivity|].
  simpl. rewrite IH. destruct (a +:+ b) eqn:E; [|reflexivity].
  destruct a; simpl in E; [contradiction|discriminate].
Qed.

Lemma all_chars_first f s c :
  all_chars f s = true -> first_char s = Some c -> f c = true.
Proof.
  destruct s; simpl; [discriminate|]. rewrite andb_true_iff.
  intros [H _] E. now injection E as <-.
Qed.

Lemma all_chars_last f s c :
  all_chars f s = true -> last_char s = Some c -> f c = true.
Proof.
  induction s as [|a s IH]; [discriminate|]. simpl.
  rewrite andb_true_iff. intros [Ha Hs].
  destruct s; [intros E; now injection E as <-|]. now apply IH.
Qed.

Lemma concat_words_outer (ws : list string) :
  Forall (fun w => all_chars (fun c => negb (is_space c)) w = true
                   /\ w <> EmptyString) ws ->
  no_outer_space (String.concat " " ws) /\
  (ws <> [] -> String.concat " " ws <> EmptyString).
Proof.
  induction 1 as [|w ws [Hw Hne] Hws [[IHf IHl] IHne]].
  - split; [split; discriminate|congruence].
  - cbn [String.concat]. destruct ws as [|w' ws].
    + split; [|now intros _]. split; intros c E.
      * apply negb_true_iff. exact (all_chars_first _ w c Hw E).
      * apply negb_true_iff. exact (all_chars_last _ w c Hw E).
    + assert (Hrest : String.concat " " (w' :: ws) <> EmptyString)
        by (apply IHne; discriminate).
      split.
      * split; intros c E.
        -- rewrite first_char_app in E by exact Hne.
           apply negb_true_iff. exact (all_chars_first _ w c Hw E).
        -- rewrite last_char_app in E.
           ++ rewrite last_char_app in E by exact Hrest. now apply IHl.
           ++ discriminate.
      * intros _. destruct w; [contradiction|discriminate].
Qed.

Lemma lstrip_id s :
  (forall c, first_char s = Some c -> is_space c = false) -> lstrip s = s.
Proof.
  destruct s as [|c s]; [reflexivity|]. simpl. intros H.
  now rewrite (H c eq_refl).
Qed.

Lemma rstrip_id s :
  (forall c, last_char s = Some c -> is_space c = false) -> rstrip s = s.
Proof.
  induction s as [|a s IH]; [reflexivity|]. intros H. simpl.
  destruct s as [|b s].
  - simpl. now rewrite (H a eq_refl).
  - rewrite IH; [reflexivity|]. intros c E. apply H. exact E.
Qed.

Lemma strip_id s : no_outer_space s -> strip s = s.
Proof.
  intros [Hf Hl]. unfold strip. rewrite (lstrip_id s Hf). now apply rstrip_id.
Qed.

Lemma strip_tags_from_none_id s :
  all_chars (fun c => negb (is_lt c)) s = true -> strip_tags_from None s = s.
Proof.
  induction s as [|c s IH]; [reflexivity|]. simpl.
  rewrite andb_true_iff. intros [Hc Hs].
  apply negb_true_iff in Hc. now rewrite Hc, IH.
Qed.

Lemma kept_ascii_is_plain c :
  is_ascii c = true -> is_kept c = true ->
  (negb (is_space c) || is_blank c) = true -> is_plain c = true.
Proof.
  destruct c as [[] [] [] [] [] [] [] []]; vm_compute; intros; congruence.
Qed.

Lemma plain_is_kept c : is_plain c = true -> is_kept c = true.
Proof.
  destruct c as [[] [] [] [] [] [] [] []]; vm_compute; intros; congruence.
Qed.

Lemma plain_or_space_not_lt c :
  (is_plain c || is_space c) = true -> negb (is_lt c) = true.
Proof.
  destruct c as [[] [] [] [] [] [] [] []]; vm_compute; intros; congruence.
Qed.

Lemma split_words_of (f : ascii -> bool) s :
  all_chars f s = true ->
  Forall (fun w => all_chars (fun c => f c && negb (is_space c)) w = true
                   /\ w <> EmptyString)
         (split s).
Proof. intros H. now apply split_from_words. Qed.

End CleanDescription.

(** X30.  With an ASCII folding that yields ASCII characters only (as
    encoding to ASCII does), the cleaned description of any text consists of
    ASCII letters, digits, underscores, blanks and the characters [.,!?-]
    only, so it holds no angle bracket, no tab and no line break, and it
    neither starts nor ends with whitespace.  A text that is already made of
    such characters and whitespace, and that the folding leaves as it is,
    comes out as its words joined by single blanks. *)
Theorem clean_description_output ascii_fold text :
  (forall s, all_chars is_ascii (ascii_fold s) = true) ->
  all_chars is_plain (clean_description ascii_fold text) = true /\
  no_outer_space (clean_description ascii_fold text) /\
  (all_chars (fun c => is_plain c || Text.is_space c) text = true ->
   ascii_fold text = text ->
   clean_description ascii_fold text = String.concat " " (Clean.split text)).
Proof.
  intros Hascii. destruct text as [|c0 text0] eqn:Etext.
  { split; [reflexivity|]. split; [split; discriminate|reflexivity]. }
  rewrite <- Etext. clear Etext.
  assert (Hshape : clean_description ascii_fold text
                   = match text with
                     | EmptyString => EmptyString
                     | _ => Text.strip
                              (Clean.filter_chars Clean.is_kept
                                 (String.concat " "
                                    (Clean.split (ascii_fold (Clean.strip_tags text)))))
                     end) by reflexivity.
  split; [|split].
  - rewrite Hshape. destruct text; [reflexivity|].
    apply all_chars_strip.
    pose proof (split_words_of is_ascii _ (Hascii (Clean.strip_tags (String a text))))
      as Hwords.
    eapply all_chars_impl;
      [|apply (all_chars_filter
                 (fun c => is_ascii c && (negb (Text.is_space c) || is_blank c)))].
    + intros c Hc. apply andb_true_iff in Hc as [Hc Hk].
      apply andb_true_iff in Hc as [Ha Hb]. now apply kept_ascii_is_plain.
    + apply all_chars_concat; [reflexivity|].
      eapply Forall_impl; [exact Hwords|]. intros w [Hw _].
      eapply all_chars_impl; [|exact Hw]. intros c Hc. cbv beta in *.
      apply andb_true_iff in Hc as [-> ->]. reflexivity.
  - rewrite Hshape. destruct text; [split; discriminate|].
    apply strip_no_outer_space.
  - intros Hplain Hfold. rewrite Hshape. destruct text as [|a text];
      [reflexivity|].
    assert (Htags : Clean.strip_tags (String a text) = String a text).
    { apply strip_tags_from_none_id.
      eapply all_chars_impl; [|exact Hplain]. apply plain_or_space_not_lt. }
    rewrite Htags, Hfold.
    pose proof (split_words_of _ _ Hplain) as Hwords.
    rewrite filter_chars_id.
    + apply strip_id. apply concat_words_outer.
      eapply Forall_impl; [exact Hwords|]. intros w [Hw Hne]. split; [|exact Hne].
      eapply all_chars_impl; [|exact Hw]. intros c Hc. cbv beta in *.
      now apply andb_true_iff in Hc as [_ ->].
    + apply all_chars_concat; [reflexivity|].
      eapply Forall_impl; [exact Hwords|]. intros w [Hw _].
      eapply all_chars_impl; [|exact Hw]. intros c Hc. cbv beta in *.
      apply andb_true_iff in Hc as [Hp Hs]. apply negb_true_iff in Hs.
      rewrite Hs, orb_false_r in Hp. now apply plain_is_kept.
Qed.

Lemma filter_chars_all f s : all_chars f (Clean.filter_chars f s) = true.
Proof.
  induction s as [|c s IH]; [reflexivity|]. simpl.
  destruct (f c) eqn:Hc; [|exact IH]. simpl. now rewrite Hc, IH.
Qed.

Lemma clean_description_output_witness :
  all_chars is_plain
    (clean_description (Clean.filter_chars is_ascii)
       "  <p>Fresh   <b>start</b>, daily!</p> 100% <ok ") = true /\
  no_outer_space
    (clean_description (Clean.filter_chars is_ascii)
       "  <p>Fresh   <b>start</b>, daily!</p> 100% <ok ") /\
  clean_description (Clean.filter_chars is_ascii)
    "  <p>Fresh   <b>start</b>, daily!</p> 100% <ok "
  = "Fresh start, daily! 100 ok".
Proof.
  destruct (clean_description_output (Clean.filter_chars is_ascii)
              "  <p>Fresh   <b>start</b>, daily!</p> 100% <ok "
              (filter_chars_all is_ascii)) as (Hplain & Houter & _).
  split; [exact Hplain|]. split; [exact Houter|]. reflexivity.
Defined.
